(** * OpenClaw Deck: the session store and its gateway event handler

    A shallow embedding of [src/lib/store.ts] (the zustand store
    [useDeckStore]): the session registry, the reducers
    [setAgentStatus], [appendMessageChunk] and [finalizeMessage], the
    event router [handleGatewayEvent], the two halves of the asynchronous
    [sendMessage], and the history bootstrap of [initialize].

    Conventions of the embedding.
    - A JavaScript string is a [string]; one character stands for one
      UTF-16 code unit, so [String.length] is the [.length] of the source.
    - [sessions : Record<string, AgentSession>] is a finite map
      [gmap string AgentSession] of its own properties.  A read
      [sessions[id]] also finds what a plain object inherits from
      [Object.prototype] ([readSession]), and an assignment
      [sessions["__proto__"] = v] to an object without such an own
      property creates no entry ([assignSession]).  The prototype that
      assignment installs, which lasts until the sessions are next
      spread into a new object, is not tracked: a store stands for a
      sessions object whose prototype is [Object.prototype], and the
      statements about [initialize] and about presence frames name
      the case where [__proto__] is assigned that way.
    - A JavaScript object may lack any of its properties: the reducer
      [setAgentStatus] spreads [undefined] when the id is unknown.  Every
      field of [AgentSession] is therefore an [option]; [None] is
      [undefined].
    - Token counts and millisecond clocks are integers, [Z]; a sum of
      counts is rounded as a double is ([roundDouble]), and [NaN] is
      kept apart for [undefined + n].
    - [Date.now()] and [Math.random()] are read from an explicit [Env],
      one field per call site.
    - A handler that dies with a [TypeError] returns [Throws]; the store
      is the one it had when the exception left the handler. *)

From Stdlib Require Import ZArith String Ascii List Bool Lia.
From stdpp Require Import gmap strings list fin_maps pretty.

Open Scope string_scope.
Open Scope Z_scope.
Open Scope list_scope.

(** ** Values of [../types] as the store builds and reads them *)

(** [AgentStatus]: the literals the store assigns to [status]. *)
Inductive AgentStatus :=
| Idle | Thinking | Streaming | ToolUse | Error | Disconnected.

(** [ChatMessage["role"]]: the literals the store assigns to [role]. *)
Inductive Role := User | Assistant | Announcement | Compaction.

(** A JavaScript number that is an integer count, an infinity or [NaN]
    ([undefined + n]). *)
Inductive JsNumber := Num (z : Z) | Infinity (negative : bool) | NaN.

(** The double nearest to the integer [v]: integers of at most 53 bits
    are doubles; a longer one is rounded to 53 bits, a tie going to the
    even neighbour, and to an infinity from 2^1024 on. *)
Definition roundDouble (v : Z) : JsNumber :=
  let m := Z.abs v in
  let e := Z.log2 m - 52 in
  if e <=? 0 then Num v
  else
    let q := m / 2 ^ e in
    let r := m mod 2 ^ e in
    let half := 2 ^ (e - 1) in
    let q' := if r <? half then q
              else if half <? r then q + 1
              else if Z.even q then q else q + 1 in
    if 2 ^ 1024 <=? q' * 2 ^ e then Infinity (v <? 0)
    else Num (Z.sgn v * (q' * 2 ^ e)).

(** [a + n] for a count [a] and a string length [n]: the exact sum
    rounded to a double. *)
Definition js_add (a : option JsNumber) (n : Z) : JsNumber :=
  match a with
  | Some (Num z) => roundDouble (z + n)
  | Some (Infinity b) => Infinity b
  | _ => NaN
  end.

Record CompactionInfo := mkCompaction {
  beforeTokens : Z;
  afterTokens : Z;
  droppedMessages : Z
}.

(** [SessionUsage]: only [totalTokens] is read by the store. *)
Record SessionUsage := mkUsage { totalTokens : Z }.

Record ChatMessage := mkMsg {
  msg_id : string;
  role : Role;
  text : string;
  timestamp : Z;
  streaming : option bool;
  runId : option string;
  announcement : option bool;
  compaction : option CompactionInfo
}.

Record AgentSession := mkSession {
  agentId : option string;
  status : option AgentStatus;
  messages : option (list ChatMessage);
  activeRunId : option (option string); (* [Some None] is [null] *)
  tokenCount : option JsNumber;
  connected : option bool;
  usage : option SessionUsage
}.

Record GatewayClient := mkClient { client_connected : bool }.

(** The fields of [DeckStore] the modelled actions read or write
    ([config] and [theme] are not touched by any of them). *)
Record DeckStore := mkStore {
  sessions : gmap string AgentSession;
  gatewayConnected : bool;
  columnOrder : list string;
  client : option GatewayClient
}.

#[global] Instance AgentStatus_eq_dec : EqDecision AgentStatus.
Proof. solve_decision. Defined.
#[global] Instance Role_eq_dec : EqDecision Role.
Proof. solve_decision. Defined.
#[global] Instance JsNumber_eq_dec : EqDecision JsNumber.
Proof. solve_decision. Defined.
#[global] Instance CompactionInfo_eq_dec : EqDecision CompactionInfo.
Proof. solve_decision. Defined.
#[global] Instance SessionUsage_eq_dec : EqDecision SessionUsage.
Proof. solve_decision. Defined.
#[global] Instance ChatMessage_eq_dec : EqDecision ChatMessage.
Proof. solve_decision. Defined.
#[global] Instance AgentSession_eq_dec : EqDecision AgentSession.
Proof. solve_decision. Defined.

(** ** The environment of one handler run *)

Record Env := mkEnv {
  nowCheck : Z;   (* [Date.now()] of the recency test of the chat case *)
  nowId : Z;      (* [Date.now()] inside [makeId] *)
  random : string;(* [Math.random().toString(36).slice(2, 8)] *)
  nowStamp : Z    (* [Date.now()] of the [timestamp] field *)
}.

Definition makeId (e : Env) : string :=
  pretty (nowId e) +:+ "-" +:+ random e.

(** ** Object spread and field update *)

(** [{...undefined}] *)
Definition emptyObject : AgentSession :=
  mkSession None None None None None None None.

Definition spread (o : option AgentSession) : AgentSession :=
  default emptyObject o.

(** The property names a plain object inherits from [Object.prototype]. *)
Definition inheritedNames : list string :=
  ["constructor"; "__proto__"; "hasOwnProperty"; "isPrototypeOf";
   "propertyIsEnumerable"; "toLocaleString"; "toString"; "valueOf";
   "__defineGetter__"; "__defineSetter__"; "__lookupGetter__";
   "__lookupSetter__"].

Definition isInherited (id : string) : bool :=
  existsb (String.eqb id) inheritedNames.

(** [sessions[id]] as a handler reads it: the own entry, else the
    inherited function or object when [id] names one, else
    [undefined].  The inherited value is truthy, every field the
    handlers read from it is [undefined] and its spread is [{}]: it
    reads as [emptyObject]. *)
Definition readSession (ss : gmap string AgentSession) (id : string)
    : option AgentSession :=
  match ss !! id with
  | Some s => Some s
  | None => if isInherited id then Some emptyObject else None
  end.

(** [sessions[id] = v] on a plain object: an own entry is written or
    created, except that without an own [__proto__] the assignment to
    that name goes to the inherited setter and creates no entry. *)
Definition assignSession (id : string) (v : AgentSession)
    (ss : gmap string AgentSession) : gmap string AgentSession :=
  match ss !! id with
  | Some _ => <[id := v]> ss
  | None => if String.eqb id "__proto__" then ss else <[id := v]> ss
  end.

Definition with_status (st : option AgentStatus) (s : AgentSession) :=
  mkSession (agentId s) st (messages s) (activeRunId s)
            (tokenCount s) (connected s) (usage s).

Definition with_messages (ms : option (list ChatMessage)) (s : AgentSession) :=
  mkSession (agentId s) (status s) ms (activeRunId s)
            (tokenCount s) (connected s) (usage s).

Definition with_activeRunId (r : option (option string)) (s : AgentSession) :=
  mkSession (agentId s) (status s) (messages s) r
            (tokenCount s) (connected s) (usage s).

Definition with_tokenCount (n : option JsNumber) (s : AgentSession) :=
  mkSession (agentId s) (status s) (messages s) (activeRunId s)
            n (connected s) (usage s).

Definition with_connected (c : option bool) (s : AgentSession) :=
  mkSession (agentId s) (status s) (messages s) (activeRunId s)
            (tokenCount s) c (usage s).

Definition with_usage (u : option SessionUsage) (s : AgentSession) :=
  mkSession (agentId s) (status s) (messages s) (activeRunId s)
            (tokenCount s) (connected s) u.

Definition with_text (t : string) (m : ChatMessage) :=
  mkMsg (msg_id m) (role m) t (timestamp m) (streaming m) (runId m)
        (announcement m) (compaction m).

Definition with_streaming (b : option bool) (m : ChatMessage) :=
  mkMsg (msg_id m) (role m) (text m) (timestamp m) b (runId m)
        (announcement m) (compaction m).

(** zustand's [set({ sessions })]: the other fields are kept. *)
Definition set_sessions (ss : gmap string AgentSession) (st : DeckStore) :=
  mkStore ss (gatewayConnected st) (columnOrder st) (client st).

(** ** Helpers *)

Definition createSession (agentId : string) : AgentSession :=
  mkSession (Some agentId) (Some Idle) (Some []) (Some None)
            (Some (Num 0)) (Some false) None.

(** [s.split(sep)] for a one-character separator. *)
Fixpoint split (sep : ascii) (s : string) : list string :=
  match s with
  | EmptyString => [EmptyString]
  | String c rest =>
      if Ascii.eqb c sep then EmptyString :: split sep rest
      else match split sep rest with
           | [] => [String c EmptyString]
           | h :: t => String c h :: t
           end
  end.

(** [const parts = sessionKey?.split(":") ?? [];
     const agentId = parts[2] ?? parts[1] ?? "main";] *)
Definition extractAgentId (sessionKey : option string) : string :=
  let parts := match sessionKey with
               | Some k => split ":" k
               | None => []
               end in
  match parts !! 2%nat with
  | Some p => p
  | None => match parts !! 1%nat with
            | Some p => p
            | None => "main"
            end
  end.

(** JavaScript truthiness of an optional string. *)
Definition truthy (s : option string) : bool :=
  match s with
  | Some EmptyString | None => false
  | Some _ => true
  end.

(** White space of [String.prototype.trim] among the code units 0..255. *)
Definition isWhiteSpace (c : ascii) : bool :=
  let n := nat_of_ascii c in
  ((9 <=? n) && (n <=? 13) || (n =? 32) || (n =? 160))%nat.

Fixpoint trimStart (s : string) : string :=
  match s with
  | EmptyString => EmptyString
  | String c rest => if isWhiteSpace c then trimStart rest else s
  end.

Fixpoint trimEnd (s : string) : string :=
  match s with
  | EmptyString => EmptyString
  | String c rest =>
      match trimEnd rest with
      | EmptyString => if isWhiteSpace c then EmptyString
                       else String c EmptyString
      | r => String c r
      end
  end.

Definition trim (s : string) : string := trimEnd (trimStart s).

(** [!text.trim()] *)
Definition blank (s : string) : bool :=
  match trim s with EmptyString => true | _ => false end.

(** Canonical form of a code unit under the [i] flag.  A pattern made of
    ASCII characters only matches ASCII code units, and those fold by
    upper-casing the letters. *)
Definition canonicalize (c : ascii) : ascii :=
  let n := nat_of_ascii c in
  if ((97 <=? n) && (n <=? 122))%nat then ascii_of_nat (n - 32) else c.

Fixpoint matchesAt (pat s : string) : bool :=
  match pat, s with
  | EmptyString, _ => true
  | String _ _, EmptyString => false
  | String p pat', String c s' =>
      Ascii.eqb (canonicalize p) (canonicalize c) && matchesAt pat' s'
  end.

(** [/pat/i.test(s)] for a literal pattern. *)
Fixpoint testLiteral (pat s : string) : bool :=
  matchesAt pat s ||
  match s with
  | EmptyString => false
  | String _ s' => testLiteral pat s'
  end.

(** [/HEARTBEAT_OK|heartbeat/i.test(text)], the filter of the chat case. *)
Definition chatNoise (text : string) : bool :=
  testLiteral "HEARTBEAT_OK" text || testLiteral "heartbeat" text.

(** [/HEARTBEAT_OK|heartbeat|NO_REPLY/i.test(text)], the filter of
    [parseHistoryMessages]. *)
Definition historyNoise (text : string) : bool :=
  testLiteral "HEARTBEAT_OK" text || testLiteral "heartbeat" text
  || testLiteral "NO_REPLY" text.

(** ** Gateway events

    [GatewayEvent] is [{ event: string, payload }]; each case of the
    router casts the payload fields it reads, and the payload records
    below carry exactly those fields at the types of the casts. *)

Record AgentData := mkAgentData {
  delta : option string;
  phase : option string
}.

Record AgentPayload := mkAgentPayload {
  agent_runId : string;
  agent_stream : option string;
  agent_data : option AgentData;
  agent_sessionKey : option string
}.

Record ContentPart := mkPart {
  part_type : option string;
  part_text : option string
}.

(** [Array<{ type?, text? }> | string] *)
Inductive Content :=
| ContentParts (ps : list ContentPart)
| ContentString (s : string).

Record ChatBody := mkChatBody {
  body_role : option string;
  body_content : option Content;
  body_text : option Content;
  body_body : option Content
}.

Record ChatPayload := mkChatPayload {
  chat_state : option string;
  chat_runId : option string;
  chat_sessionKey : option string;
  chat_session : option string;
  chat_message : option ChatBody;
  chat_data : option ChatBody;
  chat_content : option ChatBody
}.

Record CompactionPayload := mkCompactionPayload {
  cp_sessionKey : option string;
  cp_beforeTokens : option Z;
  cp_afterTokens : option Z;
  cp_droppedMessages : option Z
}.

Record UsagePayload := mkUsagePayload {
  up_sessionKey : option string;
  up_usage : option SessionUsage
}.

Inductive GatewayEvent :=
| EvAgent (p : AgentPayload)
| EvPresence (agents : option (list (string * bool)))
| EvTick
| EvCompaction (p : CompactionPayload)
| EvUsage (p : UsagePayload)
| EvChat (p : ChatPayload)
| EvOther (name : string).

(** What a synchronous handler leaves behind. *)
Inductive Completion :=
| Normal (st : DeckStore)
| Throws (st : DeckStore).

Definition storeOf (c : Completion) : DeckStore :=
  match c with Normal st | Throws st => st end.

(** ** Reducers *)

Definition setAgentStatus (agentId : string) (status : AgentStatus)
    (state : DeckStore) : DeckStore :=
  set_sessions
    (<[agentId := with_status (Some status) (spread (sessions state !! agentId))]>
       (sessions state))
    state.

(** [msg.runId === runId && msg.streaming] *)
Definition isStreamingRun (runId0 : string) (msg : ChatMessage) : bool :=
  bool_decide (runId msg = Some runId0) && bool_decide (streaming msg = Some true).

Definition appendChunkTo (runId0 chunk : string) (msg : ChatMessage) : ChatMessage :=
  if isStreamingRun runId0 msg then with_text (text msg +:+ chunk) msg else msg.

Definition appendMessageChunk (agentId runId0 chunk : string)
    (state : DeckStore) : DeckStore :=
  match sessions state !! agentId with
  | None => state
  | Some session =>
      match messages session with
      | None => state
      | Some msgs =>
          let messages' := map (appendChunkTo runId0 chunk) msgs in
          set_sessions
            (<[agentId :=
                 with_tokenCount
                   (Some (js_add (tokenCount session)
                                 (Z.of_nat (String.length chunk))))
                   (with_messages (Some messages') session)]>
               (sessions state))
            state
      end
  end.

Definition sealRun (runId0 : string) (msg : ChatMessage) : ChatMessage :=
  if bool_decide (runId msg = Some runId0)
  then with_streaming (Some false) msg else msg.

Definition finalizeMessage (agentId runId0 : string)
    (state : DeckStore) : DeckStore :=
  match sessions state !! agentId with
  | None => state
  | Some session =>
      match messages session with
      | None => state
      | Some msgs =>
          let messages' := map (sealRun runId0) msgs in
          set_sessions
            (<[agentId :=
                 with_status (Some Idle)
                   (with_activeRunId (Some None)
                      (with_messages (Some messages') session))]>
               (sessions state))
            state
      end
  end.

(** [messages.some((m) => m.runId === runId)] *)
Definition hasRun (runId0 : string) (msgs : list ChatMessage) : bool :=
  existsb (fun m => bool_decide (runId m = Some runId0)) msgs.

(** ** The event router *)

(** The [lifecycle] / [start] branch of the agent case. *)
Definition lifecycleStart (env : Env) (agentId runId0 : string)
    (state : DeckStore) : Completion :=
  match readSession (sessions state) agentId with
  | None => Normal (setAgentStatus agentId Thinking state)
  | Some session =>
      match messages session with
      | None => Throws state
      | Some msgs =>
          if hasRun runId0 msgs
          then Normal (setAgentStatus agentId Thinking state)
          else
            let isAnnouncement := bool_decide (status session = Some Idle) in
            let placeholderMsg :=
              mkMsg (makeId env)
                    (if isAnnouncement then Announcement else Assistant)
                    "" (nowStamp env) (Some true) (Some runId0)
                    (Some isAnnouncement) None in
            Normal
              (setAgentStatus agentId Thinking
                 (set_sessions
                    (<[agentId :=
                         with_activeRunId (Some (Some runId0))
                           (with_messages (Some (msgs ++ [placeholderMsg]))
                              session)]>
                       (sessions state))
                    state))
      end
  end.

Definition handleAgent (env : Env) (p : AgentPayload)
    (state : DeckStore) : Completion :=
  let runId0 := agent_runId p in
  let stream := agent_stream p in
  let data := agent_data p in
  let agentId := extractAgentId (agent_sessionKey p) in
  if bool_decide (stream = Some "assistant") && truthy (data ≫= delta)
  then
    Normal (setAgentStatus agentId Streaming
              (appendMessageChunk agentId runId0
                 (default "" (data ≫= delta)) state))
  else if bool_decide (stream = Some "lifecycle")
  then
    let phase0 := data ≫= phase in
    if bool_decide (phase0 = Some "start")
    then lifecycleStart env agentId runId0 state
    else if bool_decide (phase0 = Some "end")
    then Normal (finalizeMessage agentId runId0 state)
    else Normal state
  else if bool_decide (stream = Some "tool_use")
  then Normal (setAgentStatus agentId ToolUse state)
  else Normal state.

(** [{ ...sessions[id], connected: info.online,
       status: info.online ? sessions[id].status : "disconnected" }] *)
Definition presenceUpdate (online : bool) (s : AgentSession) : AgentSession :=
  with_status (if online then status s else Some Disconnected)
    (with_connected (Some online) s).

Definition presenceEntry (ss : gmap string AgentSession)
    (entry : string * bool) : gmap string AgentSession :=
  let '(id, online) := entry in
  match readSession ss id with
  | Some s => assignSession id (presenceUpdate online s) ss
  | None => ss
  end.

Definition handlePresence (agents : option (list (string * bool)))
    (state : DeckStore) : DeckStore :=
  match agents with
  | Some entries =>
      set_sessions (fold_left presenceEntry entries (sessions state)) state
  | None => state
  end.

Definition handleCompaction (env : Env) (p : CompactionPayload)
    (state : DeckStore) : Completion :=
  let agentId := extractAgentId (cp_sessionKey p) in
  let compactionMsg :=
    mkMsg (makeId env) Compaction "" (nowStamp env) None None None
          (Some (mkCompaction (default 0 (cp_beforeTokens p))
                              (default 0 (cp_afterTokens p))
                              (default 0 (cp_droppedMessages p)))) in
  match readSession (sessions state) agentId with
  | None => Normal state
  | Some session =>
      match messages session with
      | None => Throws state
      | Some msgs =>
          Normal (set_sessions
                    (<[agentId := with_messages (Some (msgs ++ [compactionMsg]))
                                    session]>
                       (sessions state))
                    state)
      end
  end.

Definition handleUsage (p : UsagePayload) (state : DeckStore) : DeckStore :=
  let agentId := extractAgentId (up_sessionKey p) in
  match up_usage p with
  | None => state
  | Some u =>
      match readSession (sessions state) agentId with
      | None => state
      | Some session =>
          set_sessions
            (<[agentId := with_tokenCount (Some (Num (totalTokens u)))
                            (with_usage (Some u) session)]>
               (sessions state))
            state
      end
  end.

(** [a ?? b] on optional values. *)
Definition nullish {A} (a b : option A) : option A :=
  match a with Some _ => a | None => b end.

(** The [text] of the chat case: the [text]-typed parts joined, or the
    plain string. *)
Definition partsText (ps : list ContentPart) : string :=
  String.concat ""
    (map (fun p => default "" (part_text p))
       (List.filter
          (fun p => bool_decide (part_type p = Some "text") && truthy (part_text p))
          ps)).

Definition extractText (message : ChatBody) : string :=
  match nullish (body_content message)
          (nullish (body_text message) (body_body message)) with
  | Some (ContentParts ps) => partsText ps
  | Some (ContentString s) => s
  | None => ""
  end.

(** [lastMsg && lastMsg.text === text && Date.now() - lastMsg.timestamp < 5000] *)
Definition recentDuplicate (env : Env) (text0 : string)
    (msgs : list ChatMessage) : bool :=
  match last msgs with
  | Some lastMsg =>
      bool_decide (text lastMsg = text0)
      && (nowCheck env - timestamp lastMsg <? 5000)
  | None => false
  end.

(** The [announcementMsg] literal of the chat case. *)
Definition announcementMsg (env : Env) (text0 : string)
    (runId0 : option string) : ChatMessage :=
  mkMsg (makeId env) Announcement text0 (nowStamp env)
        None runId0 (Some true) None.

(** [(payload.sessionKey ?? payload.session)] split into its column id. *)
Definition chatAgentId (p : ChatPayload) : string :=
  extractAgentId (nullish (chat_sessionKey p) (chat_session p)).

(** [(payload.message ?? payload.data ?? payload.content)] *)
Definition chatMessageOf (p : ChatPayload) : option ChatBody :=
  nullish (chat_message p) (nullish (chat_data p) (chat_content p)).

(** [role === "tool" || role === "function"] *)
Definition toolRole (role0 : option string) : bool :=
  bool_decide (role0 = Some "tool") || bool_decide (role0 = Some "function").

(** [runId && session.messages.some((m) => m.runId === runId)] *)
Definition runTracked (runId0 : option string) (msgs : list ChatMessage) : bool :=
  truthy runId0 && hasRun (default "" runId0) msgs.

(** [role === "assistant" || role === "system"] *)
Definition renderable (role0 : option string) : bool :=
  bool_decide (role0 = Some "assistant") || bool_decide (role0 = Some "system").

Definition handleChat (env : Env) (p : ChatPayload)
    (state : DeckStore) : Completion :=
  let runId0 := chat_runId p in
  let agentId := chatAgentId p in
  match readSession (sessions state) agentId with
  | None => Normal state
  | Some session =>
      if negb (bool_decide (chat_state p = Some "final")) then Normal state
      else
        match chatMessageOf p with
        | None => Normal state
        | Some message =>
            let role0 := body_role message in
            let text0 := extractText message in
            if blank text0 then Normal state
            else if chatNoise text0 then Normal state
            else if toolRole role0 then Normal state
            else
              match messages session with
              | None => Throws state
              | Some msgs =>
                  if runTracked runId0 msgs then Normal state
                  else if recentDuplicate env text0 msgs then Normal state
                  else if renderable role0
                  then
                    Normal
                      (set_sessions
                         (<[agentId :=
                              with_messages
                                (Some (msgs ++ [announcementMsg env text0 runId0]))
                                session]>
                            (sessions state))
                         state)
                  else Normal state
              end
        end
  end.

Definition handleGatewayEvent (env : Env) (event : GatewayEvent)
    (state : DeckStore) : Completion :=
  match event with
  | EvAgent p => handleAgent env p state
  | EvPresence agents => Normal (handlePresence agents state)
  | EvTick => Normal state
  | EvCompaction p => handleCompaction env p state
  | EvUsage p => Normal (handleUsage p state)
  | EvChat p => handleChat env p state
  | EvOther _ => Normal state
  end.

(** ** [sendMessage]

    The action is asynchronous: it runs up to [await client.runAgent],
    other callbacks may run on the store while it is suspended, and it
    resumes on the store of that later moment with the request resolved
    or rejected. *)

Inductive SendProgress :=
| SendReturned (st : DeckStore)   (* resolved without issuing a request *)
| SendThrew (st : DeckStore)      (* rejected by an exception before the [try] *)
| SendAwaiting (st : DeckStore).  (* suspended at [await client.runAgent] *)

(** The [userMsg] literal of [sendMessage]. *)
Definition userMsgOf (env : Env) (text0 : string) : ChatMessage :=
  mkMsg (makeId env) User text0 (nowStamp env) None None None None.

Definition sendMessageBegin (env : Env) (agentId text0 : string)
    (state : DeckStore) : SendProgress :=
  match client state with
  | None => SendReturned state
  | Some c =>
      if negb (client_connected c) then SendReturned state
      else
        let userMsg := userMsgOf env text0 in
        match readSession (sessions state) agentId with
        | None => SendReturned state
        | Some session =>
            match messages session with
            | None => SendThrew state
            | Some msgs =>
                SendAwaiting
                  (set_sessions
                     (<[agentId :=
                          with_status (Some Thinking)
                            (with_messages (Some (msgs ++ [userMsg])) session)]>
                        (sessions state))
                     state)
            end
        end
  end.

Inductive RunAgentResult :=
| RunResolved (runId0 : string)
| RunRejected.

(** The [catch] block. *)
Definition sendMessageCatch (agentId : string) (state : DeckStore) : DeckStore :=
  set_sessions
    (<[agentId := with_status (Some Error) (spread (sessions state !! agentId))]>
       (sessions state))
    state.

Definition sendMessageResume (env : Env) (agentId : string)
    (result : RunAgentResult) (state : DeckStore) : DeckStore :=
  match result with
  | RunResolved runId0 =>
      let assistantMsg :=
        mkMsg (makeId env) Assistant "" (nowStamp env) (Some true)
              (Some runId0) None None in
      match sessions state !! agentId ≫= messages with
      | Some msgs =>
          set_sessions
            (<[agentId :=
                 with_status (Some Streaming)
                   (with_activeRunId (Some (Some runId0))
                      (with_messages (Some (msgs ++ [assistantMsg]))
                         (spread (sessions state !! agentId))))]>
               (sessions state))
            state
      | None => sendMessageCatch agentId state
      end
  | RunRejected => sendMessageCatch agentId state
  end.

(** A call during which no other callback touches the store. *)
Definition sendMessage (env1 env2 : Env) (agentId text0 : string)
    (result : RunAgentResult) (state : DeckStore) : SendProgress :=
  match sendMessageBegin env1 agentId text0 state with
  | SendAwaiting st => SendReturned (sendMessageResume env2 agentId result st)
  | other => other
  end.

(** ** History bootstrap *)

Record RawMessage := mkRaw {
  raw_role : option string;
  raw_content : option Content;
  raw_timestamp : option Z;
  raw_kind : option string  (* [__openclaw?.kind] *)
}.

(** One turn of the loop of [parseHistoryMessages]: the message pushed,
    or [None] at a [continue]. *)
Definition parseHistoryMessage (env : Env) (msg : RawMessage) : option ChatMessage :=
  let role0 := raw_role msg in
  if negb (truthy role0) then None
  else if bool_decide (role0 = Some "tool")
          || bool_decide (role0 = Some "toolresult")
          || bool_decide (role0 = Some "function")
  then None
  else if bool_decide (raw_kind msg = Some "compaction") then None
  else
    let text0 := match raw_content msg with
                 | Some (ContentParts ps) => partsText ps
                 | Some (ContentString s) => s
                 | None => ""
                 end in
    if blank text0 then None
    else if historyNoise text0 then None
    else
      let chatRole :=
        if bool_decide (role0 = Some "user") then Some User
        else if bool_decide (role0 = Some "assistant") then Some Assistant
        else if bool_decide (role0 = Some "system") then Some Announcement
        else None in
      match chatRole with
      | None => None
      | Some r =>
          Some (mkMsg (makeId env) r text0
                      (default (nowStamp env) (raw_timestamp msg))
                      None None
                      (Some (bool_decide (r = Announcement))) None)
      end.

(** [envs i] is the environment of the [i]-th turn of the loop. *)
Fixpoint parseHistoryFrom (envs : nat -> Env) (i : nat)
    (raw : list RawMessage) : list ChatMessage :=
  match raw with
  | [] => []
  | msg :: rest =>
      match parseHistoryMessage (envs i) msg with
      | Some m => m :: parseHistoryFrom envs (S i) rest
      | None => parseHistoryFrom envs (S i) rest
      end
  end.

Definition parseHistoryMessages (envs : nat -> Env)
    (raw : option (list RawMessage)) : list ChatMessage :=
  match raw with
  | Some l => parseHistoryFrom envs 0 l
  | None => []
  end.

(** The [set] of the [.then] callback.  A [TypeError] on a session
    without [messages] is swallowed by the [.catch] that follows. *)
Definition commitHistory (agentId : string) (historyMsgs : list ChatMessage)
    (state : DeckStore) : DeckStore :=
  match sessions state !! agentId with
  | None => state
  | Some session =>
      match messages session with
      | None => state
      | Some msgs =>
          if (0 <? length msgs)%nat then state
          else set_sessions
                 (<[agentId := with_messages (Some historyMsgs) session]>
                    (sessions state))
                 state
      end
  end.

(** The [.then] callback of [client.chatHistory(sessionKey, 50)], run on
    the store of the moment the fetch resolves. *)
Definition historyResolved (envs : nat -> Env) (agentId : string)
    (data : option (list RawMessage)) (state : DeckStore) : DeckStore :=
  let historyMsgs := parseHistoryMessages envs data in
  if (length historyMsgs =? 0)%nat then state
  else commitHistory agentId historyMsgs state.

(** [onConnection(connected)], the store it leaves: the flag is
    recorded and, on [true], every session is marked connected. *)
Definition onConnection (isConnected : bool) (state : DeckStore) : DeckStore :=
  let state1 :=
    mkStore (sessions state) isConnected (columnOrder state) (client state) in
  if isConnected
  then set_sessions (with_connected (Some true) <$> sessions state1) state1
  else state1.

(** The test of the loop that issues the fetches,
    [if (sessions[agentId].messages.length > 0) continue;]:
    [Some true] when a fetch is issued for the session, [None] when the
    test dies on a session without [messages]. *)
Definition wantsHistory (session : AgentSession) : option bool :=
  (fun msgs => negb (0 <? length msgs)%nat) <$> messages session.

(** ** Running a trace of events *)

(** Events are handled one after the other on the store the previous
    one left; an exception ends one handler, not the client. *)
Fixpoint handleAll (trace : list (Env * GatewayEvent)) (state : DeckStore)
    : DeckStore :=
  match trace with
  | [] => state
  | (env, ev) :: rest => handleAll rest (storeOf (handleGatewayEvent env ev state))
  end.

(** A stream-delta frame: kind [agent], sub-stream [assistant]. *)
Definition deltaEvent (sessionKey : option string) (runId0 chunk : string)
    : GatewayEvent :=
  EvAgent (mkAgentPayload runId0 (Some "assistant")
             (Some (mkAgentData (Some chunk) None)) sessionKey).

(** A lifecycle frame with the given phase. *)
Definition lifecycleEvent (sessionKey : option string) (runId0 phase0 : string)
    : GatewayEvent :=
  EvAgent (mkAgentPayload runId0 (Some "lifecycle")
             (Some (mkAgentData None (Some phase0))) sessionKey).

(** The frames of one run's deltas, each with the environment it is
    handled in. *)
Definition deltaTrace (key : option string) (r : string)
    (ecs : list (Env * string)) : list (Env * GatewayEvent) :=
  map (fun ec => (ec.1, deltaEvent key r ec.2)) ecs.

(** ** Concrete stores, environments and frames

    The values the runs and checks below are evaluated on. *)

(** A small store used by the concrete runs below: one tracked column
    [a], client connected. *)
Definition oneSession (s : AgentSession) : DeckStore :=
  mkStore {[ "a" := s ]} true ["a"] (Some (mkClient true)).

Definition env0 : Env := mkEnv 1000 1000 "k3x9ab" 1000.

Definition noSessions : DeckStore :=
  mkStore ∅ true [] (Some (mkClient true)).

Definition statusOnly (x : AgentStatus) : AgentSession :=
  mkSession None (Some x) None None None None None.

Definition streamingPlaceholder (r t : string) : ChatMessage :=
  mkMsg "1000-k3x9ab" Assistant t 1000 (Some true) (Some r) None None.

Definition midStream : AgentSession :=
  mkSession (Some "a") (Some Streaming) (Some [streamingPlaceholder "r1" "He"])
            (Some (Some "r1")) (Some (Num 2)) (Some true) None.

Definition rawHello : RawMessage :=
  mkRaw (Some "assistant") (Some (ContentString "earlier answer"))
        (Some 500) None.

Definition sealedSession : AgentSession :=
  mkSession (Some "a") (Some Idle)
            (Some [mkMsg "1000-k3x9ab" Assistant "Hello" 1000 (Some false)
                         (Some "r1") None None])
            (Some None) (Some (Num 5)) (Some true) None.

Definition freshPlaceholder : AgentSession :=
  mkSession (Some "a") (Some Thinking) (Some [streamingPlaceholder "r1" ""])
            (Some (Some "r1")) (Some (Num 0)) (Some true) None.

Definition doneTurn : ChatPayload :=
  mkChatPayload (Some "final") (Some "r1") (Some "agent:main:a") None
    (Some (mkChatBody (Some "assistant")
             (Some (ContentParts [mkPart (Some "text") (Some "done")]))
             None None))
    None None.

Definition envLate : Env := mkEnv 7000 7000 "q0w1e2" 7000.

Definition afterDone : DeckStore :=
  storeOf (handleGatewayEvent env0 (EvChat doneTurn)
             (oneSession (createSession "a"))).

(** The same text pushed again through the other notification path:
    [session] instead of [sessionKey], a plain string, no runId. *)
Definition doneAgain : ChatPayload :=
  mkChatPayload (Some "final") None None (Some "agent:main:a")
    None
    (Some (mkChatBody (Some "system") None (Some (ContentString "done")) None))
    None.

Definition envSoon : Env := mkEnv 3000 3000 "a7b8c9" 3000.

Definition noReplyTurn : ChatPayload :=
  mkChatPayload (Some "final") None (Some "agent:main:a") None
    (Some (mkChatBody (Some "assistant") (Some (ContentString "NO_REPLY"))
             None None))
    None None.

Definition noReplyRaw : RawMessage :=
  mkRaw (Some "assistant") (Some (ContentString "NO_REPLY")) (Some 500) None.

Definition offline (s : AgentSession) : DeckStore :=
  mkStore {[ "a" := s ]} false ["a"] (Some (mkClient false)).

(** * The rest of the store and its callers *)

(** ** Session keys *)

(** [`agent:main:${agentId}`], the key [sendMessage] and the history
    bootstrap send to the gateway. *)
Definition sessionKeyFor (agentId : string) : string :=
  "agent:main:" +:+ agentId.

(** [s.includes(c)] for one character. *)
Fixpoint hasChar (c : ascii) (s : string) : bool :=
  match s with
  | EmptyString => false
  | String x rest => Ascii.eqb x c || hasChar c rest
  end.

(** ** What one event may do to a message list *)

(** The session an event is routed to; presence frames name their
    sessions one by one, ticks and unknown kinds name none. *)
Definition eventTarget (ev : GatewayEvent) : option string :=
  match ev with
  | EvAgent p => Some (extractAgentId (agent_sessionKey p))
  | EvCompaction p => Some (extractAgentId (cp_sessionKey p))
  | EvUsage p => Some (extractAgentId (up_sessionKey p))
  | EvChat p => Some (chatAgentId p)
  | EvPresence _ | EvTick | EvOther _ => None
  end.

Inductive historyStep (msgs : list ChatMessage) : list ChatMessage -> Prop :=
| step_same : historyStep msgs msgs
| step_delta (r c : string) : historyStep msgs (map (appendChunkTo r c) msgs)
| step_seal (r : string) : historyStep msgs (map (sealRun r) msgs)
| step_append (x : ChatMessage) : historyStep msgs (msgs ++ [x]).

(** [m'] is a later state of the message [m]: same identity, text
    extended at the end, and nothing moves once [streaming] is not
    [true]. *)
Definition evolves (m m' : ChatMessage) : Prop :=
  msg_id m' = msg_id m /\ role m' = role m /\ timestamp m' = timestamp m
  /\ runId m' = runId m /\ announcement m' = announcement m
  /\ compaction m' = compaction m
  /\ (exists suffix, text m' = text m +:+ suffix)
  /\ (streaming m <> Some true ->
      text m' = text m /\ streaming m' <> Some true).

(** ** Configuration and the registry of agents *)

(** [AgentConfig], with the fields the sources build and read. *)
Record AgentConfig := mkAgent {
  agent_id : string;
  agent_name : string;
  agent_icon : string;
  agent_accent : string;
  agent_context : string;
  agent_model : string;
  agent_shell : option string
}.

Record DeckConfig := mkConfig {
  gatewayUrl : string;
  token : option string;
  agents : list AgentConfig
}.

(** [Partial<DeckConfig>]: [None] is a key that is absent. *)
Record PartialConfig := mkPartial {
  partial_gatewayUrl : option string;
  partial_token : option (option string);
  partial_agents : option (list AgentConfig)
}.

Definition DEFAULT_CONFIG : DeckConfig :=
  mkConfig "ws://127.0.0.1:18789" None [].

(** [{ ...DEFAULT_CONFIG, ...partialConfig }] *)
Definition mergeConfig (partialConfig : PartialConfig) : DeckConfig :=
  mkConfig (default (gatewayUrl DEFAULT_CONFIG) (partial_gatewayUrl partialConfig))
           (default (token DEFAULT_CONFIG) (partial_token partialConfig))
           (default (agents DEFAULT_CONFIG) (partial_agents partialConfig)).

(** The whole zustand state: the fields of [DeckStore] with [config]
    and [theme]. *)
Record Deck := mkDeck {
  config : DeckConfig;
  store : DeckStore;
  theme : string
}.

(** The initial value of the store given to [create]. *)
Definition initialDeck : Deck :=
  mkDeck DEFAULT_CONFIG (mkStore ∅ false [] None) "midnight".

(** The loop of [initialize] over [config.agents],
    [sessions[agent.id] = createSession(agent.id)] on a fresh [{}]. *)
Definition initialSessions (agents0 : list AgentConfig)
    : gmap string AgentSession :=
  fold_left
    (fun ss agent =>
       assignSession (agent_id agent) (createSession (agent_id agent)) ss)
    agents0 ∅.

(** [initialize(partialConfig)]; [newClient] is the [GatewayClient] it
    constructs. *)
Definition initialize (partialConfig : PartialConfig) (newClient : GatewayClient)
    (d : Deck) : Deck :=
  let config0 := mergeConfig partialConfig in
  mkDeck config0
         (mkStore (initialSessions (agents config0))
                  (gatewayConnected (store d))
                  (map agent_id (agents config0))
                  (Some newClient))
         (theme d).

Definition addAgent (agent : AgentConfig) (d : Deck) : Deck :=
  mkDeck (mkConfig (gatewayUrl (config d)) (token (config d))
                   (agents (config d) ++ [agent]))
         (mkStore (<[agent_id agent := createSession (agent_id agent)]>
                     (sessions (store d)))
                  (gatewayConnected (store d))
                  (columnOrder (store d) ++ [agent_id agent])
                  (client (store d)))
         (theme d).

Definition removeAgent (agentId : string) (d : Deck) : Deck :=
  mkDeck (mkConfig (gatewayUrl (config d)) (token (config d))
                   (List.filter
                      (fun a => negb (bool_decide (agent_id a = agentId)))
                      (agents (config d))))
         (mkStore (delete agentId (sessions (store d)))
                  (gatewayConnected (store d))
                  (List.filter (fun id => negb (bool_decide (id = agentId)))
                               (columnOrder (store d)))
                  (client (store d)))
         (theme d).

Definition reorderColumns (order : list string) (st : DeckStore) : DeckStore :=
  mkStore (sessions st) (gatewayConnected st) order (client st).

(** [disconnect()], the store it leaves. *)
Definition disconnect (st : DeckStore) : DeckStore :=
  mkStore (sessions st) false (columnOrder st) None.

(** The registry lists what it tracks: the columns are the tracked
    ids, and the configured agents are the columns, in order. *)
Definition registryConsistent (d : Deck) : Prop :=
  (forall id, id ∈ columnOrder (store d) <-> is_Some (sessions (store d) !! id))
  /\ map agent_id (agents (config d)) = columnOrder (store d).

(** ** [gateway-config.ts]: default agents *)

(** [ENV_DEFAULT_MODEL || "anthropic/claude-opus-4-6"]; the argument
    is [import.meta.env.VITE_DEFAULT_MODEL]. *)
Definition FALLBACK_MODEL (viteDefaultModel : option string) : string :=
  let envDefaultModel := trim <$> viteDefaultModel in
  if truthy envDefaultModel then default "" envDefaultModel
  else "anthropic/claude-opus-4-6".

Definition AGENT_ACCENTS : list string :=
  ["#22d3ee"; "#a78bfa"; "#34d399"; "#f59e0b"; "#f472b6"; "#60a5fa";
   "#facc15"; "#fb7185"; "#4ade80"; "#c084fc"; "#f97316"; "#2dd4bf"].

(** The callback of [Array.from] in [buildDefaultAgents]. *)
Definition defaultAgent (defaultModel : string) (i : nat) : AgentConfig :=
  let agentId := if (i =? 0)%nat then "main" else "agent-" +:+ pretty (i + 1)%nat in
  let agentName := if (i =? 0)%nat then "Main" else "Agent " +:+ pretty (i + 1)%nat in
  mkAgent agentId agentName (pretty (i + 1)%nat)
          (nth (i mod length AGENT_ACCENTS) AGENT_ACCENTS "")
          "" defaultModel None.

(** [buildDefaultAgents(count, defaultModel)] for an integer [count];
    [Array.from({ length: count }, ...)] is empty for a negative count
    and throws a [RangeError], here [None], from 2^32 on. *)
Definition buildDefaultAgents (count : Z) (defaultModel : string)
    : option (list AgentConfig) :=
  if 2 ^ 32 <=? count then None
  else Some (map (defaultAgent defaultModel) (seq 0 (Z.to_nat count))).

(** ** [gateway-config.ts]: the model list of the gateway

    The configuration is an arbitrary JSON value.  [num] stands for the
    numbers of JavaScript and [numTruthy] for their truthiness
    (neither zero nor [NaN]).  An object carries its own properties in
    the order [Object.entries] enumerates them, with distinct keys;
    [None] is [undefined]. *)

#[local] Unset Elimination Schemes.

Inductive Json (num : Type) : Type :=
| JNull
| JBool (b : bool)
| JNum (n : num)
| JStr (s : string)
| JArr (items : list (Json num))
| JObj (fields : list (string * Json num)).

#[local] Set Elimination Schemes.

Arguments JNull {num}.
Arguments JBool {num} b.
Arguments JNum {num} n.
Arguments JStr {num} s.
Arguments JArr {num} items.
Arguments JObj {num} fields.

(** [o?.k] *)
Definition getProp {num} (o : option (Json num)) (k : string)
    : option (Json num) :=
  match o with
  | Some (JObj fields) =>
      snd <$> List.find (fun kv => bool_decide (kv.1 = k)) fields
  | _ => None
  end.

Definition jsTruthy {num} (numTruthy : num -> bool) (v : option (Json num))
    : bool :=
  match v with
  | None | Some JNull => false
  | Some (JBool b) => b
  | Some (JNum n) => numTruthy n
  | Some (JStr s) => truthy (Some s)
  | Some (JArr _) | Some (JObj _) => true
  end.

(** [a || b] *)
Definition orElse {num} (numTruthy : num -> bool) (a b : option (Json num))
    : option (Json num) :=
  if jsTruthy numTruthy a then a else b.

(** [Object.entries(v)] for a value whose [typeof] is ["object"]. *)
Definition objectEntries {num} (v : Json num) : option (list (string * Json num)) :=
  match v with
  | JObj fields => Some fields
  | JArr items => Some (imap (fun i x => (pretty i, x)) items)
  | _ => None
  end.

Record ModelEntry (num : Type) := mkModel {
  model_id : string;
  model_name : option (Json num)
}.

Arguments mkModel {num} model_id model_name.
Arguments model_id {num} m.
Arguments model_name {num} m.

(** [info?.alias || info?.name || id.split("/").pop() || id] *)
Definition modelName {num} (numTruthy : num -> bool) (id : string)
    (info : Json num) : option (Json num) :=
  orElse numTruthy (getProp (Some info) "alias")
    (orElse numTruthy (getProp (Some info) "name")
       (orElse numTruthy (JStr <$> last (split "/" id)) (Some (JStr id)))).

Definition normalizeModelMap {num} (numTruthy : num -> bool)
    (config0 : option (Json num)) : list (ModelEntry num) :=
  let agents0 := getProp config0 "agents" in
  let models :=
    orElse numTruthy (getProp (getProp agents0 "defaults") "models")
      (orElse numTruthy (getProp agents0 "models")
         (orElse numTruthy (getProp config0 "models") (Some (JObj [])))) in
  if negb (jsTruthy numTruthy models) then []
  else match models ≫= objectEntries with
       | None => []
       | Some entries =>
           map (fun '(id, info) => mkModel id (modelName numTruthy id info))
               entries
       end.

Definition FALLBACK_MODELS {num} : list (ModelEntry num) :=
  [mkModel "anthropic/claude-opus-4-6" (Some (JStr "Opus 4.6"));
   mkModel "anthropic/claude-sonnet-4-5" (Some (JStr "Sonnet 4.5"));
   mkModel "moonshot/kimi-k2.5" (Some (JStr "Kimi K2.5"));
   mkModel "kimi-coding/k2p5" (Some (JStr "Kimi K2.5 (Coding)"))].

(** What [fetch] gives [fetchConfigJson]: a rejection, or a response
    with its [ok] flag, its [content-type] header and its body parsed
    as JSON ([None] when [res.json()] rejects). *)
Inductive FetchResult (num : Type) :=
| FetchRejected
| FetchResponse (ok : bool) (contentType : option string)
                (body : option (Json num)).

Arguments FetchRejected {num}.
Arguments FetchResponse {num} ok contentType body.

(** [s.includes(pat)] *)
Fixpoint startsWith (pat s : string) : bool :=
  match pat, s with
  | EmptyString, _ => true
  | String _ _, EmptyString => false
  | String p pat', String c s' => Ascii.eqb p c && startsWith pat' s'
  end.

Fixpoint includes (pat s : string) : bool :=
  startsWith pat s ||
  match s with
  | EmptyString => false
  | String _ s' => includes pat s'
  end.

(** [fetchConfigJson]: the parsed body, or [None] when it throws. *)
Definition fetchConfigJson {num} (res : FetchResult num) : option (Json num) :=
  match res with
  | FetchRejected => None
  | FetchResponse ok contentType body =>
      if negb ok then None
      else
        let contentType0 :=
          if truthy contentType then default "" contentType else "" in
        if negb (includes "application/json" contentType0) then None
        else body
  end.

Record GatewayInfo (num : Type) := mkGatewayInfo {
  defaultModel : option (Json num);
  availableModels : list (ModelEntry num)
}.

Arguments mkGatewayInfo {num} defaultModel availableModels.
Arguments defaultModel {num} g.
Arguments availableModels {num} g.

(** [fetchGatewayConfig]; [atConfig] and [atApiConfig] are what the
    fetches of [/config] and [/api/config] give, the second being made
    only when the first one fails; [fallbackModel] is
    [FALLBACK_MODEL]. *)
Definition fetchGatewayConfig {num} (numTruthy : num -> bool)
    (fallbackModel : string) (atConfig atApiConfig : FetchResult num)
    : GatewayInfo num :=
  let fetched :=
    match fetchConfigJson atConfig with
    | Some c => Some c
    | None => fetchConfigJson atApiConfig
    end in
  match fetched with
  | None => mkGatewayInfo (Some (JStr fallbackModel)) FALLBACK_MODELS
  | Some c =>
      let config0 := Some c in
      let modelList := normalizeModelMap numTruthy config0 in
      let model0 := getProp (getProp (getProp config0 "agents") "defaults") "model" in
      let defaultModel0 :=
        orElse numTruthy (getProp model0 "primary")
          (orElse numTruthy model0
             (orElse numTruthy (JStr <$> (model_id <$> head modelList))
                (Some (JStr fallbackModel)))) in
      mkGatewayInfo defaultModel0
        (if (0 <? length modelList)%nat then modelList else FALLBACK_MODELS)
  end.

(** Truthiness of the numbers used in the concrete configurations. *)
Definition zTruthy (z : Z) : bool := negb (z =? 0).

Definition sampleConfig : Json Z :=
  JObj [("agents",
         JObj [("defaults",
                JObj [("models",
                       JObj [("anthropic/claude-opus-4-6",
                              JObj [("alias", JStr "Opus")]);
                             ("moonshot/kimi-k2.5", JObj []);
                             ("local/", JNull)])])])].

(** ** [TopBar.tsx]: the handoff summary *)

(** The line feed. *)
Definition LF : ascii := ascii_of_nat 10.

(** [(m) => m.role === "assistant" && m.text?.trim()] *)
Definition assistantOutput (m : ChatMessage) : bool :=
  bool_decide (role m = Assistant) && negb (blank (text m)).

(** [[...messages].reverse().find(...)] *)
Definition lastAssistant (msgs : list ChatMessage) : option ChatMessage :=
  List.find assistantOutput (rev msgs).

(** [s.slice(0, n)] *)
Fixpoint sliceTo (n : nat) (s : string) : string :=
  match n, s with
  | O, _ => EmptyString
  | S _, EmptyString => EmptyString
  | S n', String c rest => String c (sliceTo n' rest)
  end.

(** [s.replace(/\n/g, "\n  ")] *)
Fixpoint indentLines (s : string) : string :=
  match s with
  | EmptyString => EmptyString
  | String c rest =>
      if Ascii.eqb c LF
      then String LF (String " " (String " " (indentLines rest)))
      else String c (indentLines rest)
  end.

(** The status literal as it is printed. *)
Definition statusName (x : AgentStatus) : string :=
  match x with
  | Idle => "idle"
  | Thinking => "thinking"
  | Streaming => "streaming"
  | ToolUse => "tool_use"
  | Error => "error"
  | Disconnected => "disconnected"
  end.

(** The line under [- Last Assistant Output:]. *)
Definition outputLine (msgs : list ChatMessage) : string :=
  match lastAssistant msgs with
  | Some m => "  " +:+ indentLines (sliceTo 500 (text m))
  | None => "  (none yet)"
  end.

(** The six lines pushed for one agent. *)
Definition handoffLines (ss : gmap string AgentSession) (agent : AgentConfig)
    : list string :=
  let session := ss !! agent_id agent in
  let msgs := default [] (session ≫= messages) in
  let status0 := default "idle" (statusName <$> (session ≫= status)) in
  ["## " +:+ agent_name agent +:+ " (" +:+ agent_id agent +:+ ")";
   "- Status: " +:+ status0;
   "- Session Key: " +:+ sessionKeyFor (agent_id agent);
   "- Last Assistant Output:";
   outputLine msgs;
   ""].

(** [buildHandoffSummary()]; [isoNow] is [new Date().toISOString()]. *)
Definition buildHandoffSummary (isoNow : string) (d : Deck) : string :=
  String.concat (String LF "")
    (["# OpenClaw Deck Handoff"; "Generated: " +:+ isoNow; ""]
     ++ concat (map (handoffLines (sessions (store d))) (agents (config d)))).

(** ** Predicates and values used by the statements *)

Definition historyEntry (m : ChatMessage) : Prop :=
  blank (text m) = false /\ historyNoise (text m) = false
  /\ role m <> Compaction
  /\ streaming m = None /\ runId m = None /\ compaction m = None
  /\ announcement m = Some (bool_decide (role m = Announcement)).

Definition agentA : AgentConfig :=
  mkAgent "a" "Agent A" "1" "#22d3ee" "" "anthropic/claude-opus-4-6" None.

(** [w] is [pat] up to the case of its letters. *)
Fixpoint sameLetters (pat w : string) : bool :=
  match pat, w with
  | EmptyString, EmptyString => true
  | String p pat', String c w' =>
      Ascii.eqb (canonicalize p) (canonicalize c) && sameLetters pat' w'
  | _, _ => false
  end.

(** * Properties *)

(** ** The helpers on concrete inputs *)

Example split_key : split ":" "agent:main:col-1" = ["agent"; "main"; "col-1"].
Proof. reflexivity. Qed.

Example extract_col : extractAgentId (Some "agent:main:col-1") = "col-1".
Proof. reflexivity. Qed.

Example extract_two : extractAgentId (Some "agent:main") = "main".
Proof. reflexivity. Qed.

Example extract_none : extractAgentId None = "main".
Proof. reflexivity. Qed.

Example makeId_ex : makeId (mkEnv 0 1700 "k3x9ab" 0) = "1700-k3x9ab".
Proof. vm_compute. reflexivity. Qed.

Example chatNoise_ex : chatNoise "ok Heartbeat_ok" = true /\ chatNoise "NO_REPLY" = false
  /\ historyNoise "NO_REPLY" = true /\ blank "  " = true /\ blank " a " = false.
Proof. vm_compute. repeat split. Qed.

(** ** Strings and lists *)

Lemma append_nil_r (s : string) : s +:+ "" = s.
Proof.
  induction s as [|c s IH]; [reflexivity |].
  change (String c (s +:+ "") = String c s). now rewrite IH.
Qed.

Lemma append_assoc (a b c : string) : (a +:+ b) +:+ c = a +:+ (b +:+ c).
Proof.
  induction a as [|x a IH]; [reflexivity |].
  change (String x ((a +:+ b) +:+ c) = String x (a +:+ (b +:+ c))).
  now rewrite IH.
Qed.

Lemma concat_cons (c : string) (cs : list string) :
  String.concat "" (c :: cs) = c +:+ String.concat "" cs.
Proof.
  destruct cs as [|d cs]; [symmetry; apply append_nil_r | reflexivity].
Qed.

Lemma map_id_on {A} (f : A -> A) (l : list A) :
  Forall (fun x => f x = x) l -> map f l = l.
Proof. induction 1 as [|x l Hx _ IH]; simpl; congruence. Qed.

Lemma snoc_neq {A} (l : list A) (x : A) : l ++ [x] <> l.
Proof.
  intros H. apply (f_equal (@length A)) in H.
  rewrite length_app in H. simpl in H. lia.
Qed.

(** ** The store *)

Lemma set_sessions_id (st : DeckStore) : set_sessions (sessions st) st = st.
Proof. now destruct st. Qed.

(** ** Reading a session *)

Lemma readSession_own (ss : gmap string AgentSession) (a : string)
    (s : AgentSession) :
  ss !! a = Some s -> readSession ss a = Some s.
Proof. intros H. unfold readSession. now rewrite H. Qed.

Lemma readSession_none (ss : gmap string AgentSession) (a : string) :
  readSession ss a = None <-> ss !! a = None /\ isInherited a = false.
Proof.
  unfold readSession. destruct (ss !! a); [split; [discriminate | intros [? _]; discriminate] |].
  destruct (isInherited a); split; try discriminate; auto.
  intros [_ ?]. discriminate.
Qed.

Lemma readSession_inherited (ss : gmap string AgentSession) (a : string) :
  ss !! a = None -> isInherited a = true ->
  readSession ss a = Some emptyObject.
Proof. intros H1 H2. unfold readSession. now rewrite H1, H2. Qed.

(** What is read with a message list is an own entry. *)
Lemma readSession_messages (ss : gmap string AgentSession) (a : string)
    (s : AgentSession) (msgs : list ChatMessage) :
  readSession ss a = Some s -> messages s = Some msgs -> ss !! a = Some s.
Proof.
  unfold readSession. destruct (ss !! a) as [s0|]; [congruence |].
  destruct (isInherited a); [| discriminate].
  intros [= <-]. discriminate.
Qed.

(** ** Reducers on a tracked and on an untracked id *)

Lemma setAgentStatus_lookup (a : string) (x : AgentStatus) (st : DeckStore) :
  sessions (setAgentStatus a x st) !! a
  = Some (with_status (Some x) (spread (sessions st !! a))).
Proof. unfold setAgentStatus. simpl. apply lookup_insert_eq. Qed.

Lemma setAgentStatus_other (a b : string) (x : AgentStatus) (st : DeckStore) :
  a <> b -> sessions (setAgentStatus a x st) !! b = sessions st !! b.
Proof. intros H. unfold setAgentStatus. simpl. now apply lookup_insert_ne. Qed.

Lemma appendMessageChunk_untracked (a r c : string) (st : DeckStore) :
  sessions st !! a = None -> appendMessageChunk a r c st = st.
Proof. intros H. unfold appendMessageChunk. now rewrite H. Qed.

Lemma appendMessageChunk_tracked (a r c : string) (st : DeckStore)
    (s : AgentSession) (msgs : list ChatMessage) :
  sessions st !! a = Some s -> messages s = Some msgs ->
  appendMessageChunk a r c st
  = set_sessions
      (<[a := with_tokenCount
                (Some (js_add (tokenCount s) (Z.of_nat (String.length c))))
                (with_messages (Some (map (appendChunkTo r c) msgs)) s)]>
         (sessions st)) st.
Proof. intros H1 H2. unfold appendMessageChunk. now rewrite H1, H2. Qed.

Lemma finalizeMessage_untracked (a r : string) (st : DeckStore) :
  sessions st !! a = None -> finalizeMessage a r st = st.
Proof. intros H. unfold finalizeMessage. now rewrite H. Qed.

Lemma finalizeMessage_tracked (a r : string) (st : DeckStore)
    (s : AgentSession) (msgs : list ChatMessage) :
  sessions st !! a = Some s -> messages s = Some msgs ->
  finalizeMessage a r st
  = set_sessions
      (<[a := with_status (Some Idle)
                (with_activeRunId (Some None)
                   (with_messages (Some (map (sealRun r) msgs)) s))]>
         (sessions st)) st.
Proof. intros H1 H2. unfold finalizeMessage. now rewrite H1, H2. Qed.

(** ** Stream deltas *)

(** A delta frame with a non-empty chunk runs both reducers. *)
Lemma handle_delta (env : Env) (key : option string) (r c : string)
    (st : DeckStore) :
  c <> "" ->
  handleGatewayEvent env (deltaEvent key r c) st
  = Normal (setAgentStatus (extractAgentId key) Streaming
              (appendMessageChunk (extractAgentId key) r c st)).
Proof.
  intros Hc. simpl. unfold handleAgent. simpl.
  destruct c; [congruence | reflexivity].
Qed.

(** A delta frame whose chunk is the empty string is falsy at
    [data?.delta]: no branch of the agent case runs. *)
Lemma handle_delta_empty (env : Env) (key : option string) (r : string)
    (st : DeckStore) :
  handleGatewayEvent env (deltaEvent key r "") st = Normal st.
Proof. reflexivity. Qed.

Lemma appendChunkTo_miss (r c : string) (m : ChatMessage) :
  isStreamingRun r m = false -> appendChunkTo r c m = m.
Proof. intros H. unfold appendChunkTo. now rewrite H. Qed.

(** The store a delta leaves when the session is tracked. *)
Lemma handle_delta_tracked (env : Env) (key : option string) (r c : string)
    (st : DeckStore) (s : AgentSession) (msgs : list ChatMessage) :
  c <> "" ->
  sessions st !! extractAgentId key = Some s ->
  messages s = Some msgs ->
  handleGatewayEvent env (deltaEvent key r c) st
  = Normal
      (set_sessions
         (<[extractAgentId key :=
              with_status (Some Streaming)
                (with_tokenCount
                   (Some (js_add (tokenCount s) (Z.of_nat (String.length c))))
                   (with_messages (Some (map (appendChunkTo r c) msgs)) s))]>
            (sessions st)) st).
Proof.
  intros Hc Hs Hm. rewrite handle_delta by exact Hc.
  rewrite (appendMessageChunk_tracked _ _ _ _ _ _ Hs Hm).
  unfold setAgentStatus. simpl. rewrite lookup_insert_eq. simpl.
  now rewrite insert_insert_eq.
Qed.

(** C1, as stated, fails: a delta that matches no streaming message of
    an idle session with no messages still changes the session (its
    status and its token count). *)
Lemma C1_delta_changes_status_and_tokens :
  ~ (forall (env : Env) (key : option string) (r c : string)
            (st : DeckStore) (s : AgentSession) (msgs : list ChatMessage),
        sessions st !! extractAgentId key = Some s ->
        messages s = Some msgs ->
        Forall (fun m => isStreamingRun r m = false) msgs ->
        exists s',
          sessions (storeOf (handleGatewayEvent env (deltaEvent key r c) st))
            !! extractAgentId key = Some s'
          /\ messages s' = messages s /\ status s' = status s
          /\ activeRunId s' = activeRunId s /\ tokenCount s' = tokenCount s).
Proof.
  intros H.
  destruct (H env0 (Some "agent:main:a") "r1" "hi"
              (oneSession (createSession "a")) (createSession "a") [])
    as (s' & Hs' & _ & Hst & _ & Htc).
  - reflexivity.
  - reflexivity.
  - constructor.
  - vm_compute in Hs'. injection Hs' as <-. discriminate Hst.
Qed.

(** C1, amended: on a tracked session, a stream delta with a non-empty
    chunk whose runId matches no message with [streaming = true] raises
    no error, creates no message and leaves [messages] and [activeRunId]
    (and [agentId], [connected], [usage]) as they were; it sets [status]
    to [streaming] and adds the chunk's length to [tokenCount].  Every
    other session is untouched. *)
Theorem C1_delta_without_placeholder
    (env : Env) (key : option string) (r c : string)
    (st : DeckStore) (s : AgentSession) (msgs : list ChatMessage) :
  c <> "" ->
  sessions st !! extractAgentId key = Some s ->
  messages s = Some msgs ->
  Forall (fun m => isStreamingRun r m = false) msgs ->
  handleGatewayEvent env (deltaEvent key r c) st
  = Normal
      (set_sessions
         (<[extractAgentId key :=
              mkSession (agentId s) (Some Streaming) (messages s)
                (activeRunId s)
                (Some (js_add (tokenCount s) (Z.of_nat (String.length c))))
                (connected s) (usage s)]>
            (sessions st)) st).
Proof.
  intros Hc Hs Hm Hmiss.
  rewrite (handle_delta_tracked env key r c st s msgs Hc Hs Hm).
  rewrite map_id_on.
  - unfold with_status, with_tokenCount, with_messages. simpl.
    now rewrite Hm.
  - eapply Forall_impl; [exact Hmiss |].
    intros m Hmis. now apply appendChunkTo_miss.
Qed.

Lemma C1_delta_without_placeholder_witness :
  handleGatewayEvent env0 (deltaEvent (Some "agent:main:a") "r1" "hi")
    (oneSession (createSession "a"))
  = Normal
      (set_sessions
         (<["a" := mkSession (Some "a") (Some Streaming) (Some [])
                     (Some None) (Some (Num 2)) (Some false) None]>
            (sessions (oneSession (createSession "a"))))
         (oneSession (createSession "a"))).
Proof.
  apply (C1_delta_without_placeholder env0 (Some "agent:main:a") "r1" "hi"
           (oneSession (createSession "a")) (createSession "a") []).
  - discriminate.
  - reflexivity.
  - reflexivity.
  - constructor.
Defined.

(** ** Events for an id that is not tracked *)

(** [setAgentStatus] has no guard: on an unknown id it spreads
    [undefined] and stores an object that has a [status] and nothing
    else. *)
Lemma setAgentStatus_untracked (a : string) (x : AgentStatus) (st : DeckStore) :
  sessions st !! a = None ->
  sessions (setAgentStatus a x st) !! a
  = Some (mkSession None (Some x) None None None None None).
Proof. intros H. rewrite setAgentStatus_lookup, H. reflexivity. Qed.


Lemma assignSession_other (id a : string) (v : AgentSession)
    (ss : gmap string AgentSession) :
  id <> a -> assignSession id v ss !! a = ss !! a.
Proof.
  intros Hne. unfold assignSession.
  destruct (ss !! id); [now apply lookup_insert_ne |].
  destruct (String.eqb id "__proto__"); [reflexivity |].
  now apply lookup_insert_ne.
Qed.

Lemma assignSession_own (id : string) (v s : AgentSession)
    (ss : gmap string AgentSession) :
  ss !! id = Some s -> assignSession id v ss !! id = Some v.
Proof.
  intros H. unfold assignSession. rewrite H. apply lookup_insert_eq.
Qed.

Lemma presenceEntry_other (ss : gmap string AgentSession)
    (id a : string) (online : bool) :
  id <> a -> presenceEntry ss (id, online) !! a = ss !! a.
Proof.
  intros Hne. unfold presenceEntry.
  destruct (readSession ss id); [now apply assignSession_other | reflexivity].
Qed.

Lemma presenceEntry_same (ss : gmap string AgentSession)
    (a : string) (online : bool) (s : AgentSession) :
  ss !! a = Some s ->
  presenceEntry ss (a, online) !! a = Some (presenceUpdate online s).
Proof.
  intros H. unfold presenceEntry. rewrite (readSession_own _ _ _ H).
  exact (assignSession_own _ _ _ _ H).
Qed.

Lemma presenceEntry_unread (ss : gmap string AgentSession)
    (a : string) (online : bool) :
  readSession ss a = None -> presenceEntry ss (a, online) = ss.
Proof. intros H. unfold presenceEntry. now rewrite H. Qed.

Lemma presence_fold_absent (entries : list (string * bool))
    (ss : gmap string AgentSession) (a : string) :
  a ∉ entries.*1 ->
  fold_left presenceEntry entries ss !! a = ss !! a.
Proof.
  revert ss. induction entries as [|[id o] entries IH]; intros ss Hnot;
    [reflexivity |].
  rewrite fmap_cons in Hnot. apply not_elem_of_cons in Hnot as [Hne Hnot].
  change (fold_left presenceEntry ((id, o) :: entries) ss)
    with (fold_left presenceEntry entries (presenceEntry ss (id, o))).
  rewrite IH by exact Hnot. apply presenceEntry_other. simpl in Hne. congruence.
Qed.

Lemma presence_fold_present (entries : list (string * bool))
    (ss : gmap string AgentSession) (a : string) (online : bool)
    (s : AgentSession) :
  NoDup entries.*1 -> (a, online) ∈ entries -> ss !! a = Some s ->
  fold_left presenceEntry entries ss !! a = Some (presenceUpdate online s).
Proof.
  revert ss. induction entries as [|[id o] entries IH]; intros ss Hnd Hin Hs.
  - now apply elem_of_nil in Hin.
  - rewrite fmap_cons in Hnd. apply NoDup_cons in Hnd as [Hfresh Hnd].
    change (fold_left presenceEntry ((id, o) :: entries) ss)
      with (fold_left presenceEntry entries (presenceEntry ss (id, o))).
    apply elem_of_cons in Hin as [Heq | Hin].
    + injection Heq as <- <-.
      rewrite presence_fold_absent by exact Hfresh.
      now apply presenceEntry_same.
    + apply IH; [assumption | assumption |].
      rewrite presenceEntry_other; [exact Hs |].
      intros ->. apply Hfresh.
      apply (list_elem_of_fmap_2 fst) in Hin. exact Hin.
Qed.

Lemma presence_fold_keeps_ids (entries : list (string * bool))
    (ss : gmap string AgentSession) (a : string) :
  isInherited a = false ->
  ss !! a = None <-> fold_left presenceEntry entries ss !! a = None.
Proof.
  intros Hplain.
  revert ss. induction entries as [|[id o] entries IH]; intros ss;
    [reflexivity |].
  change (fold_left presenceEntry ((id, o) :: entries) ss)
    with (fold_left presenceEntry entries (presenceEntry ss (id, o))).
  rewrite <- IH. destruct (decide (id = a)) as [->|Hne].
  - destruct (ss !! a) as [s|] eqn:E.
    + rewrite (presenceEntry_same _ _ _ _ E). split; discriminate.
    + rewrite presenceEntry_unread; [now rewrite E |].
      now apply readSession_none.
  - now rewrite presenceEntry_other.
Qed.

(** A presence frame never adds or removes an id that names no
    inherited property. *)
Lemma presence_keeps_ids (agents : option (list (string * bool)))
    (st : DeckStore) (a : string) :
  isInherited a = false ->
  sessions st !! a = None <-> sessions (handlePresence agents st) !! a = None.
Proof.
  intros Hplain. destruct agents as [entries|]; [| reflexivity].
  now apply presence_fold_keeps_ids.
Qed.

(** C2: the code breaks the invariant on the agent stream.  With no
    session tracked, a stream delta for the id [ghost] is not dropped:
    [setAgentStatus] stores an entry for [ghost] that has only a
    [status].  A tool-use frame and a lifecycle start do the same.  A
    later chat turn or compaction for that id then dies with a
    [TypeError] on the missing [messages]. *)
Theorem C2_untracked_id_gains_entry :
  sessions noSessions !! "ghost" = None
  /\ handleGatewayEvent env0
       (deltaEvent (Some "agent:main:ghost") "r1" "hi") noSessions
     = Normal (set_sessions {[ "ghost" := statusOnly Streaming ]} noSessions)
  /\ handleGatewayEvent env0
       (EvAgent (mkAgentPayload "r1" (Some "tool_use") None
                   (Some "agent:main:ghost"))) noSessions
     = Normal (set_sessions {[ "ghost" := statusOnly ToolUse ]} noSessions)
  /\ handleGatewayEvent env0
       (lifecycleEvent (Some "agent:main:ghost") "r1" "start") noSessions
     = Normal (set_sessions {[ "ghost" := statusOnly Thinking ]} noSessions)
  /\ handleGatewayEvent env0
       (EvCompaction (mkCompactionPayload (Some "agent:main:ghost")
                        (Some 12000) (Some 4000) (Some 30)))
       (set_sessions {[ "ghost" := statusOnly Streaming ]} noSessions)
     = Throws (set_sessions {[ "ghost" := statusOnly Streaming ]} noSessions).
Proof. repeat split; vm_compute; reflexivity. Qed.

(** ** Presence against a running stream *)

(** C3, as stated, fails in its last part: after the offline presence
    frame the next delta of the run puts [status] back to [streaming];
    it does not stay [disconnected]. *)
Lemma C3_delta_after_offline_restores_streaming :
  ~ (forall (env : Env) (key : option string) (r c : string)
            (st : DeckStore) (s : AgentSession),
        sessions st !! extractAgentId key = Some s ->
        status s = Some Streaming ->
        exists s',
          sessions
            (handleAll [(env, EvPresence (Some [(extractAgentId key, false)]));
                        (env, deltaEvent key r c)] st)
            !! extractAgentId key = Some s'
          /\ status s' = Some Disconnected).
Proof.
  intros H.
  destruct (H env0 (Some "agent:main:a") "r1" "llo" (oneSession midStream)
              midStream eq_refl eq_refl) as (s' & Hs' & Hst).
  vm_compute in Hs'. injection Hs' as <-. discriminate Hst.
Qed.

(** C3, amended: a presence frame that marks a tracked agent offline
    sets its [status] to [disconnected] and [connected] to [false] and
    keeps its messages; a following stream delta (non-empty chunk) for
    the run is still appended to the text of the streaming message of
    that run, and it sets [status] back to [streaming] while
    [connected] stays [false]. *)
Theorem C3_presence_offline_then_delta
    (env : Env) (key : option string) (r c : string)
    (entries : list (string * bool))
    (st : DeckStore) (s : AgentSession) (msgs : list ChatMessage) :
  sessions st !! extractAgentId key = Some s ->
  messages s = Some msgs ->
  NoDup entries.*1 ->
  (extractAgentId key, false) ∈ entries ->
  c <> "" ->
  exists st1 st2 s1 s2,
    handleGatewayEvent env (EvPresence (Some entries)) st = Normal st1
    /\ sessions st1 !! extractAgentId key = Some s1
    /\ status s1 = Some Disconnected
    /\ connected s1 = Some false
    /\ messages s1 = Some msgs
    /\ handleGatewayEvent env (deltaEvent key r c) st1 = Normal st2
    /\ sessions st2 !! extractAgentId key = Some s2
    /\ messages s2 = Some (map (appendChunkTo r c) msgs)
    /\ status s2 = Some Streaming
    /\ connected s2 = Some false.
Proof.
  intros Hs Hm Hnd Hin Hc.
  set (a := extractAgentId key) in *.
  set (st1 := handlePresence (Some entries) st).
  assert (Hs1 : sessions st1 !! a = Some (presenceUpdate false s)).
  { unfold st1. simpl. exact (presence_fold_present _ _ _ _ _ Hnd Hin Hs). }
  assert (Hm1 : messages (presenceUpdate false s) = Some msgs) by exact Hm.
  eexists st1, _, (presenceUpdate false s), _.
  split; [reflexivity |].
  split; [exact Hs1 |].
  split; [reflexivity |].
  split; [reflexivity |].
  split; [exact Hm1 |].
  split; [exact (handle_delta_tracked env key r c st1 _ msgs Hc Hs1 Hm1) |].
  split; [simpl; apply lookup_insert_eq |].
  repeat split.
Qed.

Lemma C3_presence_offline_then_delta_witness :
  exists st1 st2 s1 s2,
    handleGatewayEvent env0 (EvPresence (Some [("a", false)]))
      (oneSession midStream) = Normal st1
    /\ sessions st1 !! "a" = Some s1
    /\ status s1 = Some Disconnected
    /\ connected s1 = Some false
    /\ messages s1 = Some [streamingPlaceholder "r1" "He"]
    /\ handleGatewayEvent env0 (deltaEvent (Some "agent:main:a") "r1" "llo") st1
       = Normal st2
    /\ sessions st2 !! "a" = Some s2
    /\ messages s2 = Some [streamingPlaceholder "r1" "Hello"]
    /\ status s2 = Some Streaming
    /\ connected s2 = Some false.
Proof.
  apply (C3_presence_offline_then_delta env0 (Some "agent:main:a") "r1" "llo"
           [("a", false)] (oneSession midStream) midStream
           [streamingPlaceholder "r1" "He"]).
  - reflexivity.
  - reflexivity.
  - apply NoDup_singleton.
  - apply list_elem_of_singleton. reflexivity.
  - discriminate.
Defined.

(** ** History against live traffic *)

Lemma commitHistory_nonempty (a : string) (h : list ChatMessage)
    (st : DeckStore) (s : AgentSession) (m : ChatMessage)
    (msgs : list ChatMessage) :
  sessions st !! a = Some s -> messages s = Some (m :: msgs) ->
  commitHistory a h st = st.
Proof. intros Hs Hm. unfold commitHistory. now rewrite Hs, Hm. Qed.

Lemma commitHistory_empty (a : string) (h : list ChatMessage)
    (st : DeckStore) (s : AgentSession) :
  sessions st !! a = Some s -> messages s = Some [] ->
  commitHistory a h st
  = set_sessions (<[a := with_messages (Some h) s]> (sessions st)) st.
Proof. intros Hs Hm. unfold commitHistory. now rewrite Hs, Hm. Qed.

(** C4: when the fetch resolves, the history is written only into a
    session whose message list is empty at that moment.  (1) If the
    list holds a message by then, the whole store, and with it the
    session's live-derived messages, stays as it is.  (2) Whenever the
    callback changes the store, the session was tracked with an empty
    list, and it now holds exactly the parsed history.  (3) A live
    lifecycle start that lands on the empty session before the fetch
    resolves makes the late history a no-op. *)
Theorem C4_history_commits_only_into_empty
    (envs : nat -> Env) (a : string) (data : option (list RawMessage))
    (st : DeckStore) :
  (forall s m msgs,
      sessions st !! a = Some s -> messages s = Some (m :: msgs) ->
      historyResolved envs a data st = st)
  /\ (historyResolved envs a data st <> st ->
      exists s,
        sessions st !! a = Some s /\ messages s = Some []
        /\ sessions (historyResolved envs a data st) !! a
           = Some (with_messages (Some (parseHistoryMessages envs data)) s))
  /\ (forall env key r s,
        extractAgentId key = a ->
        sessions st !! a = Some s -> messages s = Some [] ->
        let live := storeOf (handleGatewayEvent env
                               (lifecycleEvent key r "start") st) in
        historyResolved envs a data live = live
        /\ exists s' p,
             sessions live !! a = Some s' /\ messages s' = Some [p]
             /\ runId p = Some r /\ streaming p = Some true).
Proof.
  split; [| split].
  - intros s m msgs Hs Hm. unfold historyResolved.
    destruct (length _ =? 0)%nat; [reflexivity |].
    exact (commitHistory_nonempty a _ st s m msgs Hs Hm).
  - unfold historyResolved.
    destruct (length _ =? 0)%nat; [congruence |].
    unfold commitHistory.
    destruct (sessions st !! a) as [s|] eqn:Hs; [| congruence].
    simpl. destruct (messages s) as [[|m msgs]|] eqn:Hm; simpl;
      try congruence.
    intros _. exists s.
    split; [reflexivity |]. split; [exact Hm |].
    apply lookup_insert_eq.
  - intros env key r s <- Hs Hm live.
    assert (Hlive : exists p,
               sessions live !! extractAgentId key
               = Some (with_status (Some Thinking)
                         (with_activeRunId (Some (Some r))
                            (with_messages (Some [p]) s)))
               /\ runId p = Some r /\ streaming p = Some true).
    { unfold live. simpl. unfold handleAgent. simpl.
      unfold lifecycleStart. rewrite (readSession_own _ _ _ Hs), Hm. simpl.
      eexists. split.
      - rewrite lookup_insert_eq. simpl. rewrite lookup_insert_eq. reflexivity.
      - split; reflexivity. }
    destruct Hlive as (p & Hl & Hr & Hstr). split.
    + unfold historyResolved. destruct (length _ =? 0)%nat; [reflexivity |].
      exact (commitHistory_nonempty _ _ live _ p [] Hl eq_refl).
    + eexists _, p. split; [exact Hl |]. repeat split; assumption.
Qed.

Lemma C4_history_commits_only_into_empty_witness :
  historyResolved (fun _ => env0) "a" (Some [rawHello]) (oneSession midStream)
  = oneSession midStream.
Proof.
  apply (proj1 (C4_history_commits_only_into_empty (fun _ => env0) "a"
                  (Some [rawHello]) (oneSession midStream))
           midStream (streamingPlaceholder "r1" "He") []).
  - reflexivity.
  - reflexivity.
Defined.

Example history_race :
  let connected := onConnection true (offline (createSession "a")) in
  (sessions connected !! "a" ≫= wantsHistory) = Some true
  /\ let live := handleAll [(env0, lifecycleEvent (Some "agent:main:a") "r1" "start");
                            (env0, deltaEvent (Some "agent:main:a") "r1" "Hi")]
                   connected in
     historyResolved (fun _ => env0) "a" (Some [rawHello]) live = live
     /\ sessions live !! "a" ≫= messages
        = Some [mkMsg "1000-k3x9ab" Announcement "Hi" 1000 (Some true)
                      (Some "r1") (Some true) None].
Proof. vm_compute. repeat split. Qed.

Example history_fills_empty_session :
  sessions (historyResolved (fun _ => env0) "a" (Some [rawHello])
              (oneSession (createSession "a"))) !! "a"
  ≫= messages
  = Some [mkMsg "1000-k3x9ab" Assistant "earlier answer" 500 None None
                (Some false) None].
Proof. vm_compute. reflexivity. Qed.

(** ** Sealing a run *)

Lemma handle_end (env : Env) (key : option string) (r : string)
    (st : DeckStore) :
  handleGatewayEvent env (lifecycleEvent key r "end") st
  = Normal (finalizeMessage (extractAgentId key) r st).
Proof. reflexivity. Qed.

Lemma sealRun_idem (r : string) (m : ChatMessage) :
  sealRun r (sealRun r m) = sealRun r m.
Proof.
  unfold sealRun. destruct (bool_decide (runId m = Some r)) eqn:E; simpl.
  - now rewrite E.
  - now rewrite E.
Qed.

Lemma sealRun_sealed (r : string) (m : ChatMessage) :
  (runId m = Some r -> streaming m = Some false) -> sealRun r m = m.
Proof.
  intros H. unfold sealRun. case_bool_decide as E; [| reflexivity].
  destruct m as [i ro t ts str ru an co]. simpl in *.
  now rewrite (H E).
Qed.

Lemma finalizeMessage_idem (a r : string) (st : DeckStore) :
  finalizeMessage a r (finalizeMessage a r st) = finalizeMessage a r st.
Proof.
  destruct (sessions st !! a) as [s|] eqn:Hs.
  - destruct (messages s) as [msgs|] eqn:Hm.
    + rewrite (finalizeMessage_tracked a r st s msgs Hs Hm).
      erewrite finalizeMessage_tracked;
        [| simpl; apply lookup_insert_eq | reflexivity].
      simpl. rewrite insert_insert_eq. unfold set_sessions. simpl.
      rewrite map_map.
      rewrite (map_ext _ _ (sealRun_idem r)). reflexivity.
    + assert (E : finalizeMessage a r st = st).
      { unfold finalizeMessage. now rewrite Hs, Hm. }
      now rewrite !E.
  - now rewrite !(finalizeMessage_untracked a r st Hs).
Qed.

(** C5, as stated, fails in its second part: a lifecycle end for a
    runId that no message carries still clears [activeRunId] and sets
    [status] to [idle], here in the middle of the stream of another
    run. *)
Lemma C5_end_of_unknown_run_resets_session :
  ~ (forall (env : Env) (key : option string) (r : string)
            (st : DeckStore) (s : AgentSession) (msgs : list ChatMessage),
        sessions st !! extractAgentId key = Some s ->
        messages s = Some msgs ->
        hasRun r msgs = false ->
        sessions (storeOf (handleGatewayEvent env
                             (lifecycleEvent key r "end") st))
          !! extractAgentId key = Some s).
Proof.
  intros H.
  specialize (H env0 (Some "agent:main:a") "r9" (oneSession midStream)
                midStream [streamingPlaceholder "r1" "He"]
                eq_refl eq_refl eq_refl).
  vm_compute in H. discriminate H.
Qed.

(** C5, amended: (1) handling a lifecycle end for the same runId twice
    leaves the same store, hence the same message history, as handling
    it once; (2) a lifecycle end for a runId whose messages are all
    sealed already, or that no message carries, keeps the session's
    [messages] (and [agentId], [tokenCount], [connected], [usage])
    unchanged while it sets [status] to [idle] and [activeRunId] to
    [null]; (3) for an id that is not tracked it changes nothing. *)
Theorem C5_lifecycle_end_idempotent
    (env env' : Env) (key : option string) (r : string) (st : DeckStore) :
  handleAll [(env, lifecycleEvent key r "end");
             (env', lifecycleEvent key r "end")] st
  = handleAll [(env, lifecycleEvent key r "end")] st
  /\ (forall s msgs,
        sessions st !! extractAgentId key = Some s ->
        messages s = Some msgs ->
        Forall (fun m => runId m = Some r -> streaming m = Some false) msgs ->
        handleGatewayEvent env (lifecycleEvent key r "end") st
        = Normal
            (set_sessions
               (<[extractAgentId key :=
                    mkSession (agentId s) (Some Idle) (messages s) (Some None)
                      (tokenCount s) (connected s) (usage s)]>
                  (sessions st)) st))
  /\ (sessions st !! extractAgentId key = None ->
      handleGatewayEvent env (lifecycleEvent key r "end") st = Normal st).
Proof.
  split; [| split].
  - cbn [handleAll]. rewrite !handle_end. cbn [storeOf].
    apply finalizeMessage_idem.
  - intros s msgs Hs Hm Hsealed. rewrite handle_end.
    rewrite (finalizeMessage_tracked _ r st s msgs Hs Hm).
    rewrite map_id_on.
    + unfold with_status, with_activeRunId, with_messages. simpl.
      now rewrite Hm.
    + eapply Forall_impl; [exact Hsealed |]. intros m. apply sealRun_sealed.
  - intros Hs. rewrite handle_end. now rewrite finalizeMessage_untracked.
Qed.

Lemma C5_lifecycle_end_idempotent_witness :
  handleGatewayEvent env0 (lifecycleEvent (Some "agent:main:a") "r1" "end")
    (oneSession sealedSession)
  = Normal
      (set_sessions (<["a" := sealedSession]> (sessions (oneSession sealedSession)))
         (oneSession sealedSession)).
Proof.
  apply (proj1 (proj2 (C5_lifecycle_end_idempotent env0 env0
                         (Some "agent:main:a") "r1" (oneSession sealedSession)))
           sealedSession
           [mkMsg "1000-k3x9ab" Assistant "Hello" 1000 (Some false)
                  (Some "r1") None None]).
  - reflexivity.
  - reflexivity.
  - constructor; [reflexivity | constructor].
Defined.

(** ** A run of deltas *)

Lemma appendChunkTo_nil (r : string) (m : ChatMessage) :
  appendChunkTo r "" m = m.
Proof.
  unfold appendChunkTo. destruct (isStreamingRun r m); [| reflexivity].
  unfold with_text. rewrite append_nil_r. now destruct m.
Qed.

Lemma appendChunkTo_compose (r c1 c2 : string) (m : ChatMessage) :
  appendChunkTo r c2 (appendChunkTo r c1 m) = appendChunkTo r (c1 +:+ c2) m.
Proof.
  unfold appendChunkTo. destruct (isStreamingRun r m) eqn:E.
  - change (isStreamingRun r (with_text (text m +:+ c1) m))
      with (isStreamingRun r m).
    rewrite E. unfold with_text. simpl. now rewrite append_assoc.
  - now rewrite E.
Qed.





Example deltas_spell_hello :
  sessions (handleAll (deltaTrace (Some "agent:main:a") "r1"
                         [(env0, "He"); (env0, "llo")])
              (oneSession freshPlaceholder)) !! "a"
  = Some (mkSession (Some "a") (Some Streaming)
            (Some [streamingPlaceholder "r1" "Hello"])
            (Some (Some "r1")) (Some (Num 5)) (Some true) None).
Proof. vm_compute. reflexivity. Qed.

(** ** Server-pushed chat turns *)

(** The three ways the chat case can end: the store untouched, a
    [TypeError] on a session without [messages], or one announcement
    appended, and then every test of the case has been passed. *)
Lemma handleChat_cases (env : Env) (p : ChatPayload) (st : DeckStore) :
  handleChat env p st = Normal st
  \/ (handleChat env p st = Throws st
      /\ exists s, readSession (sessions st) (chatAgentId p) = Some s
                   /\ messages s = None)
  \/ exists s msgs message,
       sessions st !! chatAgentId p = Some s
       /\ messages s = Some msgs
       /\ chat_state p = Some "final"
       /\ chatMessageOf p = Some message
       /\ blank (extractText message) = false
       /\ chatNoise (extractText message) = false
       /\ toolRole (body_role message) = false
       /\ runTracked (chat_runId p) msgs = false
       /\ recentDuplicate env (extractText message) msgs = false
       /\ renderable (body_role message) = true
       /\ handleChat env p st
          = Normal
              (set_sessions
                 (<[chatAgentId p :=
                      with_messages
                        (Some (msgs ++ [announcementMsg env (extractText message)
                                          (chat_runId p)]))
                        s]>
                    (sessions st)) st).
Proof.
  unfold handleChat.
  destruct (readSession (sessions st) (chatAgentId p)) as [s|] eqn:Hs;
    [| now left].
  case_bool_decide as Hfinal; simpl; [| now left].
  destruct (chatMessageOf p) as [message|] eqn:Hmsg; [| now left].
  destruct (blank (extractText message)) eqn:Hblank; [now left |].
  destruct (chatNoise (extractText message)) eqn:Hnoise; [now left |].
  destruct (toolRole (body_role message)) eqn:Htool; [now left |].
  destruct (messages s) as [msgs|] eqn:Hm;
    [| right; left; split; [reflexivity | now exists s]].
  destruct (runTracked (chat_runId p) msgs) eqn:Hrun; [now left |].
  destruct (recentDuplicate env (extractText message) msgs) eqn:Hdup;
    [now left |].
  destruct (renderable (body_role message)) eqn:Hrole; [| now left].
  right; right. exists s, msgs, message.
  rewrite (readSession_messages _ _ _ _ Hs Hm). repeat split; assumption.
Qed.

(** The converse: a turn that passes every test is appended. *)
Lemma handleChat_accepts (env : Env) (p : ChatPayload) (st : DeckStore)
    (s : AgentSession) (msgs : list ChatMessage) (message : ChatBody) :
  sessions st !! chatAgentId p = Some s ->
  messages s = Some msgs ->
  chat_state p = Some "final" ->
  chatMessageOf p = Some message ->
  blank (extractText message) = false ->
  chatNoise (extractText message) = false ->
  renderable (body_role message) = true ->
  runTracked (chat_runId p) msgs = false ->
  recentDuplicate env (extractText message) msgs = false ->
  handleChat env p st
  = Normal
      (set_sessions
         (<[chatAgentId p :=
              with_messages
                (Some (msgs ++ [announcementMsg env (extractText message)
                                  (chat_runId p)]))
                s]>
            (sessions st)) st).
Proof.
  intros Hs Hm Hfinal Hmsg Hblank Hnoise Hrole Hrun Hdup.
  assert (Htool : toolRole (body_role message) = false).
  { unfold renderable in Hrole. apply orb_true_iff in Hrole.
    destruct Hrole as [E|E]; apply bool_decide_eq_true in E;
      unfold toolRole; rewrite E; reflexivity. }
  unfold handleChat.
  rewrite (readSession_own _ _ _ Hs).
  rewrite Hfinal, Hmsg, Hblank, Hnoise, Htool, Hm, Hrun, Hdup, Hrole.
  reflexivity.
Qed.

Lemma recentDuplicate_snoc (env : Env) (t : string)
    (msgs : list ChatMessage) (a : ChatMessage) :
  recentDuplicate env t (msgs ++ [a])
  = bool_decide (text a = t) && (nowCheck env - timestamp a <? 5000).
Proof. unfold recentDuplicate. now rewrite last_snoc. Qed.

Lemma hasRun_snoc (r : string) (msgs : list ChatMessage) (a : ChatMessage) :
  runId a = Some r -> hasRun r (msgs ++ [a]) = true.
Proof.
  intros H. unfold hasRun. rewrite existsb_app. simpl.
  rewrite (bool_decide_eq_true_2 _ H). now rewrite orb_true_r.
Qed.

(** What an appended first turn looks like. *)
Lemma chat_first_appended (env : Env) (p : ChatPayload)
    (st st1 : DeckStore) (s : AgentSession) (msgs : list ChatMessage)
    (a1 : ChatMessage) :
  sessions st !! chatAgentId p = Some s ->
  messages s = Some msgs ->
  handleChat env p st = Normal st1 ->
  sessions st1 !! chatAgentId p ≫= messages = Some (msgs ++ [a1]) ->
  exists m1,
    chat_state p = Some "final"
    /\ chatMessageOf p = Some m1
    /\ blank (extractText m1) = false
    /\ chatNoise (extractText m1) = false
    /\ a1 = announcementMsg env (extractText m1) (chat_runId p)
    /\ st1 = set_sessions
               (<[chatAgentId p := with_messages (Some (msgs ++ [a1])) s]>
                  (sessions st)) st.
Proof.
  intros Hs Hm Hrun Hafter.
  destruct (handleChat_cases env p st)
    as [H | [[H _] | (s' & msgs' & m1 & Hs' & Hm' & Hfinal & Hmsg & Hblank
                      & Hnoise & _ & _ & _ & _ & H)]].
  - rewrite H in Hrun. injection Hrun as <-.
    rewrite Hs in Hafter. simpl in Hafter. rewrite Hm in Hafter.
    injection Hafter as E. symmetry in E. now apply snoc_neq in E.
  - congruence.
  - rewrite Hs in Hs'. injection Hs' as <-.
    rewrite Hm in Hm'. injection Hm' as <-.
    rewrite H in Hrun. injection Hrun as <-.
    simpl in Hafter. rewrite lookup_insert_eq in Hafter. simpl in Hafter.
    injection Hafter as E. apply app_inv_head in E. injection E as <-.
    exists m1. repeat split; assumption.
Qed.

(** C7, as stated, fails in its second part: the same turn (same
    runId) delivered a second time six seconds after the first is
    dropped by the runId test, so one announcement is appended, not
    two. *)
Lemma C7_same_run_after_window_appends_once :
  ~ (forall (env1 env2 : Env) (p1 p2 : ChatPayload) (st : DeckStore)
            (s : AgentSession) (msgs : list ChatMessage)
            (m1 m2 : ChatBody) (a1 : ChatMessage),
        sessions st !! chatAgentId p1 = Some s ->
        messages s = Some msgs ->
        chatAgentId p2 = chatAgentId p1 ->
        chat_state p1 = Some "final" -> chat_state p2 = Some "final" ->
        chatMessageOf p1 = Some m1 -> chatMessageOf p2 = Some m2 ->
        extractText m1 = extractText m2 ->
        sessions (handleAll [(env1, EvChat p1)] st) !! chatAgentId p1
          ≫= messages = Some (msgs ++ [a1]) ->
        5000 <= nowCheck env2 - timestamp a1 ->
        exists a2,
          sessions (handleAll [(env1, EvChat p1); (env2, EvChat p2)] st)
            !! chatAgentId p1 ≫= messages = Some (msgs ++ [a1; a2])).
Proof.
  intros H.
  destruct (H env0 envLate doneTurn doneTurn
              (oneSession (createSession "a")) (createSession "a") []
              (mkChatBody (Some "assistant")
                 (Some (ContentParts [mkPart (Some "text") (Some "done")]))
                 None None)
              (mkChatBody (Some "assistant")
                 (Some (ContentParts [mkPart (Some "text") (Some "done")]))
                 None None)
              (announcementMsg env0 "done" (Some "r1")))
    as [a2 Ha2]; try reflexivity.
  - vm_compute. discriminate.
  - vm_compute in Ha2. discriminate Ha2.
Qed.

(** C7, amended: let a first final chat turn be appended as the
    announcement [a1] (stamped with the clock of its own handling).  A
    second final chat turn for the same session with the same extracted
    text (1) is dropped, leaving the store as it is, when it is handled
    less than 5000 ms after that stamp: one announcement; (2) is
    appended as a second announcement when it is handled 5000 ms or
    more after the stamp, provided its role is assistant or system and
    its runId is absent, empty or carried by no message of the session;
    (3) is dropped however late it comes when it repeats the non-empty
    runId of the first. *)
Theorem C7_chat_recency_window
    (env1 env2 : Env) (p1 p2 : ChatPayload) (st st1 : DeckStore)
    (s : AgentSession) (msgs : list ChatMessage)
    (a1 : ChatMessage) (m2 : ChatBody) :
  sessions st !! chatAgentId p1 = Some s ->
  messages s = Some msgs ->
  handleGatewayEvent env1 (EvChat p1) st = Normal st1 ->
  sessions st1 !! chatAgentId p1 ≫= messages = Some (msgs ++ [a1]) ->
  chatAgentId p2 = chatAgentId p1 ->
  chat_state p2 = Some "final" ->
  chatMessageOf p2 = Some m2 ->
  extractText m2 = text a1 ->
  (role a1 = Announcement /\ timestamp a1 = nowStamp env1
   /\ runId a1 = chat_runId p1)
  /\ (nowCheck env2 - timestamp a1 < 5000 ->
      handleGatewayEvent env2 (EvChat p2) st1 = Normal st1)
  /\ (5000 <= nowCheck env2 - timestamp a1 ->
      renderable (body_role m2) = true ->
      runTracked (chat_runId p2) (msgs ++ [a1]) = false ->
      exists st2,
        handleGatewayEvent env2 (EvChat p2) st1 = Normal st2
        /\ sessions st2 !! chatAgentId p1 ≫= messages
           = Some (msgs ++ [a1; announcementMsg env2 (text a1) (chat_runId p2)]))
  /\ (truthy (chat_runId p2) = true -> chat_runId p2 = chat_runId p1 ->
      handleGatewayEvent env2 (EvChat p2) st1 = Normal st1).
Proof.
  intros Hs Hm Hrun Hafter Hsame Hfinal2 Hmsg2 Htext. simpl in *.
  destruct (chat_first_appended env1 p1 st st1 s msgs a1 Hs Hm Hrun Hafter)
    as (m1 & Hfinal1 & Hmsg1 & Hblank & Hnoise & Ha1 & Hst1).
  assert (Hs1 : sessions st1 !! chatAgentId p2
                = Some (with_messages (Some (msgs ++ [a1])) s)).
  { rewrite Hsame, Hst1. simpl. apply lookup_insert_eq. }
  assert (Hm1 : messages (with_messages (Some (msgs ++ [a1])) s)
                = Some (msgs ++ [a1])) by reflexivity.
  assert (Hta : text a1 = extractText m1) by now rewrite Ha1.
  split; [rewrite Ha1; repeat split |].
  split; [| split].
  - intros Hin.
    destruct (handleChat_cases env2 p2 st1)
      as [H | [[_ (s' & Hs' & Hm')] | (s' & msgs' & m' & Hs' & Hm' & _ & Hmsg'
                                       & _ & _ & _ & _ & Hdup & _)]].
    + exact H.
    + rewrite (readSession_own _ _ _ Hs1) in Hs'. injection Hs' as <-.
      discriminate Hm'.
    + rewrite Hs1 in Hs'. injection Hs' as <-. injection Hm' as <-.
      rewrite Hmsg2 in Hmsg'. injection Hmsg' as <-.
      rewrite recentDuplicate_snoc, Htext in Hdup.
      rewrite bool_decide_eq_true_2 in Hdup by reflexivity.
      apply Z.ltb_lt in Hin. rewrite Hin in Hdup. discriminate Hdup.
  - intros Hout Hrole Huntracked.
    eexists. split.
    + apply (handleChat_accepts env2 p2 st1 _ (msgs ++ [a1]) m2 Hs1 Hm1
               Hfinal2 Hmsg2); try assumption.
      * now rewrite Htext, Hta.
      * now rewrite Htext, Hta.
      * rewrite recentDuplicate_snoc. apply Z.ltb_ge in Hout.
        rewrite Hout. apply andb_false_r.
    + simpl. rewrite Hsame, lookup_insert_eq. simpl.
      rewrite Htext, <- app_assoc. reflexivity.
  - intros Htruthy Hrid.
    assert (Htracked : runTracked (chat_runId p2) (msgs ++ [a1]) = true).
    { unfold runTracked. rewrite Htruthy. simpl. apply hasRun_snoc.
      rewrite Ha1. simpl. rewrite <- Hrid.
      destruct (chat_runId p2); [reflexivity | discriminate]. }
    destruct (handleChat_cases env2 p2 st1)
      as [H | [[_ (s' & Hs' & Hm')] | (s' & msgs' & m' & Hs' & Hm' & _ & _
                                       & _ & _ & _ & Huntracked & _)]].
    + exact H.
    + rewrite (readSession_own _ _ _ Hs1) in Hs'. injection Hs' as <-.
      discriminate Hm'.
    + rewrite Hs1 in Hs'. injection Hs' as <-. injection Hm' as <-.
      congruence.
Qed.

Lemma C7_chat_recency_window_witness :
  handleGatewayEvent envSoon (EvChat doneAgain) afterDone = Normal afterDone
  /\ exists st2,
       handleGatewayEvent envLate (EvChat doneAgain) afterDone = Normal st2
       /\ sessions st2 !! "a" ≫= messages
          = Some [announcementMsg env0 "done" (Some "r1");
                  announcementMsg envLate "done" None].
Proof.
  split.
  - apply (proj1 (proj2 (C7_chat_recency_window env0 envSoon doneTurn doneAgain
                           (oneSession (createSession "a")) afterDone
                           (createSession "a") []
                           (announcementMsg env0 "done" (Some "r1"))
                           (mkChatBody (Some "system") None
                              (Some (ContentString "done")) None)
                           eq_refl eq_refl eq_refl eq_refl eq_refl eq_refl
                           eq_refl eq_refl))).
    vm_compute. reflexivity.
  - apply (proj1 (proj2 (proj2
             (C7_chat_recency_window env0 envLate doneTurn doneAgain
                (oneSession (createSession "a")) afterDone
                (createSession "a") []
                (announcementMsg env0 "done" (Some "r1"))
                (mkChatBody (Some "system") None
                   (Some (ContentString "done")) None)
                eq_refl eq_refl eq_refl eq_refl eq_refl eq_refl
                eq_refl eq_refl)))).
    + vm_compute. discriminate.
    + reflexivity.
    + reflexivity.
Defined.

(** Every test of the chat case, read off a turn that changed the
    store: the state is [final], the role is neither [tool] nor
    [function], the text is not blank and does not match the chat
    case's pattern, the runId is not tracked, the role is [assistant] or
    [system], and the change is one appended [announcement]. *)
Lemma chat_turn_gate (env : Env) (p : ChatPayload) (st : DeckStore) :
  handleGatewayEvent env (EvChat p) st <> Normal st ->
  (exists s, handleGatewayEvent env (EvChat p) st = Throws st
             /\ readSession (sessions st) (chatAgentId p) = Some s
             /\ messages s = None)
  \/ exists s msgs message,
       sessions st !! chatAgentId p = Some s
       /\ messages s = Some msgs
       /\ chat_state p = Some "final"
       /\ chatMessageOf p = Some message
       /\ toolRole (body_role message) = false
       /\ blank (extractText message) = false
       /\ chatNoise (extractText message) = false
       /\ runTracked (chat_runId p) msgs = false
       /\ renderable (body_role message) = true
       /\ role (announcementMsg env (extractText message) (chat_runId p))
          = Announcement
       /\ sessions (storeOf (handleGatewayEvent env (EvChat p) st))
            !! chatAgentId p ≫= messages
          = Some (msgs ++ [announcementMsg env (extractText message)
                             (chat_runId p)]).
Proof.
  simpl. intros Hchanged.
  destruct (handleChat_cases env p st)
    as [H | [[H (s & Hs & Hm)] | (s & msgs & m & Hs & Hm & Hfinal & Hmsg
                                  & Hblank & Hnoise & Htool & Hrun & _
                                  & Hrole & H)]].
  - contradiction.
  - left. now exists s.
  - right. exists s, msgs, m. rewrite H. simpl. rewrite lookup_insert_eq.
    repeat split; assumption.
Qed.

(** C8: the code misses the no-reply sentinel in the chat case.  The
    pattern of the chat case is [/HEARTBEAT_OK|heartbeat/i]; the one of
    [parseHistoryMessages] is [/HEARTBEAT_OK|heartbeat|NO_REPLY/i].  A
    final assistant turn whose text is [NO_REPLY] is appended as an
    announcement, while the same message is skipped when it comes from
    the history. *)
Theorem C8_no_reply_turn_is_rendered :
  chatNoise "NO_REPLY" = false
  /\ historyNoise "NO_REPLY" = true
  /\ handleGatewayEvent env0 (EvChat noReplyTurn)
       (oneSession (createSession "a"))
     = Normal
         (set_sessions
            {[ "a" := with_messages
                        (Some [announcementMsg env0 "NO_REPLY" None])
                        (createSession "a") ]}
            (oneSession (createSession "a")))
  /\ parseHistoryMessages (fun _ => env0) (Some [noReplyRaw]) = [].
Proof. repeat split; vm_compute; reflexivity. Qed.

(** ** [sendMessage]: failure and guards *)

Lemma sendMessageBegin_tracked (env : Env) (a t : string) (st : DeckStore)
    (c : GatewayClient) (s : AgentSession) (msgs : list ChatMessage) :
  client st = Some c -> client_connected c = true ->
  sessions st !! a = Some s -> messages s = Some msgs ->
  sendMessageBegin env a t st
  = SendAwaiting
      (set_sessions
         (<[a := with_status (Some Thinking)
                   (with_messages (Some (msgs ++ [userMsgOf env t])) s)]>
            (sessions st)) st).
Proof.
  intros Hc Hcon Hs Hm. unfold sendMessageBegin.
  now rewrite Hc, Hcon, (readSession_own _ _ _ Hs), Hm.
Qed.

(** C9: when [runAgent] rejects, the [catch] block, run on whatever
    store the rejection finds, sets the [status] of the target to
    [error] and writes nothing else: its [messages] (no placeholder
    added) and [activeRunId] are the ones it had, and no other session
    changes.  In a call that nothing interleaves with, the session ends
    with its prior history followed by the user message, with status
    [error], and no message of it is streaming unless one was
    before. *)
Theorem C9_failed_run_sets_error
    (env : Env) (a : string) (st : DeckStore) :
  (exists s',
      sessions (sendMessageResume env a RunRejected st) !! a = Some s'
      /\ status s' = Some Error
      /\ messages s' = sessions st !! a ≫= messages
      /\ activeRunId s' = sessions st !! a ≫= activeRunId)
  /\ (forall b, b <> a ->
        sessions (sendMessageResume env a RunRejected st) !! b
        = sessions st !! b)
  /\ (forall env1 t c s msgs,
        client st = Some c -> client_connected c = true ->
        sessions st !! a = Some s -> messages s = Some msgs ->
        exists st',
          sendMessage env1 env a t RunRejected st = SendReturned st'
          /\ sessions st' !! a
             = Some (mkSession (agentId s) (Some Error)
                       (Some (msgs ++ [userMsgOf env1 t]))
                       (activeRunId s) (tokenCount s) (connected s) (usage s))
          /\ streaming (userMsgOf env1 t) = None
          /\ role (userMsgOf env1 t) = User).
Proof.
  split; [| split].
  - simpl. unfold sendMessageCatch. simpl. eexists. split.
    + apply lookup_insert_eq.
    + destruct (sessions st !! a); repeat split.
  - intros b Hne. simpl. unfold sendMessageCatch. simpl.
    now apply lookup_insert_ne.
  - intros env1 t c s msgs Hc Hcon Hs Hm. unfold sendMessage.
    rewrite (sendMessageBegin_tracked env1 a t st c s msgs Hc Hcon Hs Hm).
    eexists. split; [reflexivity |]. split; [| split; reflexivity].
    simpl. unfold sendMessageCatch. simpl.
    rewrite !lookup_insert_eq. reflexivity.
Qed.

Lemma C9_failed_run_sets_error_witness :
  exists st',
    sendMessage env0 envLate "a" "hello" RunRejected
      (oneSession (createSession "a")) = SendReturned st'
    /\ sessions st' !! "a"
       = Some (mkSession (Some "a") (Some Error)
                 (Some [userMsgOf env0 "hello"])
                 (Some None) (Some (Num 0)) (Some false) None)
    /\ streaming (userMsgOf env0 "hello") = None
    /\ role (userMsgOf env0 "hello") = User.
Proof.
  apply (proj2 (proj2 (C9_failed_run_sets_error envLate "a"
                         (oneSession (createSession "a"))))
           env0 "hello" (mkClient true) (createSession "a") []).
  - reflexivity.
  - reflexivity.
  - reflexivity.
  - reflexivity.
Defined.

Example send_then_resolve :
  sendMessage env0 envLate "a" "hello" (RunResolved "r1")
    (oneSession (createSession "a"))
  = SendReturned
      (set_sessions
         {[ "a" := mkSession (Some "a") (Some Streaming)
                     (Some [userMsgOf env0 "hello";
                            mkMsg (makeId envLate) Assistant "" 7000
                                  (Some true) (Some "r1") None None])
                     (Some (Some "r1")) (Some (Num 0)) (Some false) None ]}
         (oneSession (createSession "a"))).
Proof. vm_compute. reflexivity. Qed.

(** The guards of [sendMessage]: with the client absent or not
    connected, or when the session object answers [undefined] for the
    id, the call returns without a request and leaves the store as it
    was. *)
Lemma sendMessage_guards
    (env1 env2 : Env) (a t : string) (result : RunAgentResult)
    (st : DeckStore) :
  client st = None
  \/ (exists c, client st = Some c /\ client_connected c = false)
  \/ readSession (sessions st) a = None ->
  sendMessageBegin env1 a t st = SendReturned st
  /\ sendMessage env1 env2 a t result st = SendReturned st.
Proof.
  intros Hguard.
  assert (H : sendMessageBegin env1 a t st = SendReturned st).
  { unfold sendMessageBegin.
    destruct Hguard as [Hc | [(c & Hc & Hcon) | Hs]].
    - now rewrite Hc.
    - now rewrite Hc, Hcon.
    - destruct (client st) as [c|]; [| reflexivity].
      destruct (client_connected c); [| reflexivity].
      now rewrite Hs. }
  split; [exact H |]. unfold sendMessage. now rewrite H.
Qed.

(** C10: the session guard of [sendMessage] tests the value read from
    the session object, and for a name that every object inherits that
    value is not [undefined].  With a connected client and the one
    tracked session ["a"], a send to ["constructor"], an id with no
    tracked session, passes the guard and is rejected with a
    [TypeError] at [session.messages], before any request; the store is
    left as it was.  A send to the untracked id ["ghost"], and a send
    through a client that is not connected, return without an
    exception. *)
Theorem C10_send_to_inherited_name_rejects :
  sessions (oneSession (createSession "a")) !! "constructor" = None
  /\ sendMessage env0 envLate "constructor" "hello" (RunResolved "r1")
       (oneSession (createSession "a"))
     = SendThrew (oneSession (createSession "a"))
  /\ sendMessage env0 envLate "ghost" "hello" (RunResolved "r1")
       (oneSession (createSession "a"))
     = SendReturned (oneSession (createSession "a"))
  /\ sendMessage env0 envLate "constructor" "hello" (RunResolved "r1")
       (offline (createSession "a"))
     = SendReturned (offline (createSession "a")).
Proof. repeat split. Qed.

(** * Further properties of the store *)

(** ** Session keys through the router *)

Lemma split_no_sep (sep : ascii) (s : string) :
  hasChar sep s = false -> split sep s = [s].
Proof.
  induction s as [|x s IH]; [reflexivity |].
  simpl. intros H. apply orb_false_iff in H as [Hx Hs].
  rewrite Hx, (IH Hs). reflexivity.
Qed.

Lemma split_cons_segment (sep : ascii) (p q : string) :
  hasChar sep p = false ->
  split sep (p +:+ String sep q) = p :: split sep q.
Proof.
  induction p as [|x p IH]; intros H.
  - change ("" +:+ String sep q) with (String sep q). simpl.
    now rewrite Ascii.eqb_refl.
  - change (String x p +:+ String sep q) with (String x (p +:+ String sep q)).
    simpl in *. apply orb_false_iff in H as [Hx Hp].
    rewrite Hx, (IH Hp). reflexivity.
Qed.

Lemma sessionKeyFor_split (id : string) :
  split ":" (sessionKeyFor id) = "agent" :: "main" :: split ":" id.
Proof.
  change (sessionKeyFor id)
    with ("agent" +:+ String ":" ("main" +:+ String ":" id)).
  rewrite split_cons_segment by reflexivity.
  now rewrite split_cons_segment by reflexivity.
Qed.

(** X1: the key built for a column routes back to that column exactly
    when its id has no colon: the router takes the third segment, so an
    id [p:q] is routed to [p]. *)
Theorem session_key_round_trip (id p q : string) :
  (hasChar ":" id = false ->
   extractAgentId (Some (sessionKeyFor id)) = id)
  /\ (hasChar ":" p = false ->
      extractAgentId (Some (sessionKeyFor (p +:+ String ":" q))) = p).
Proof.
  unfold extractAgentId. split; intros H; rewrite sessionKeyFor_split.
  - now rewrite (split_no_sep _ _ H).
  - now rewrite (split_cons_segment _ _ _ H).
Qed.

Lemma session_key_round_trip_witness :
  extractAgentId (Some (sessionKeyFor "col-1")) = "col-1"
  /\ extractAgentId (Some (sessionKeyFor ("team" +:+ String ":" "col-1")))
     = "team".
Proof.
  split.
  - apply (proj1 (session_key_round_trip "col-1" "" "")). reflexivity.
  - apply (proj2 (session_key_round_trip "" "team" "col-1")). reflexivity.
Defined.

(** ** One event, one session *)

Ltac other_session :=
  repeat match goal with
         | |- context [match ?x with _ => _ end] => destruct x eqn:?
         end;
  simpl; rewrite ?lookup_insert_ne by congruence; reflexivity.

Lemma appendMessageChunk_other (a b r c : string) (st : DeckStore) :
  a <> b -> sessions (appendMessageChunk a r c st) !! b = sessions st !! b.
Proof. intros H. unfold appendMessageChunk. other_session. Qed.

Lemma finalizeMessage_other (a b r : string) (st : DeckStore) :
  a <> b -> sessions (finalizeMessage a r st) !! b = sessions st !! b.
Proof. intros H. unfold finalizeMessage. other_session. Qed.

Lemma lifecycleStart_other (env : Env) (a b r : string) (st : DeckStore) :
  a <> b ->
  sessions (storeOf (lifecycleStart env a r st)) !! b = sessions st !! b.
Proof.
  intros H. unfold lifecycleStart, setAgentStatus. other_session.
Qed.

Lemma handleAgent_other (env : Env) (p : AgentPayload) (b : string)
    (st : DeckStore) :
  extractAgentId (agent_sessionKey p) <> b ->
  sessions (storeOf (handleAgent env p st)) !! b = sessions st !! b.
Proof.
  intros H. unfold handleAgent.
  destruct (_ && _); cbn [storeOf].
  - rewrite setAgentStatus_other by exact H.
    now apply appendMessageChunk_other.
  - destruct (bool_decide (agent_stream p = Some "lifecycle")).
    + destruct (bool_decide (_ = Some "start"));
        [now apply lifecycleStart_other |].
      destruct (bool_decide (_ = Some "end")); cbn [storeOf];
        [now apply finalizeMessage_other | reflexivity].
    + destruct (bool_decide (_ = Some "tool_use")); cbn [storeOf];
        [now apply setAgentStatus_other | reflexivity].
Qed.

Lemma handleCompaction_other (env : Env) (p : CompactionPayload) (b : string)
    (st : DeckStore) :
  extractAgentId (cp_sessionKey p) <> b ->
  sessions (storeOf (handleCompaction env p st)) !! b = sessions st !! b.
Proof. intros H. unfold handleCompaction. other_session. Qed.

Lemma handleUsage_other (p : UsagePayload) (b : string) (st : DeckStore) :
  extractAgentId (up_sessionKey p) <> b ->
  sessions (handleUsage p st) !! b = sessions st !! b.
Proof. intros H. unfold handleUsage. other_session. Qed.

Lemma handleChat_other (env : Env) (p : ChatPayload) (b : string)
    (st : DeckStore) :
  chatAgentId p <> b ->
  sessions (storeOf (handleChat env p st)) !! b = sessions st !! b.
Proof.
  intros H.
  destruct (handleChat_cases env p st)
    as [E | [[E _] | (s & msgs & m & _ & _ & _ & _ & _ & _ & _ & _ & _ & _ & E)]];
    rewrite E; simpl; [reflexivity | reflexivity |].
  now apply lookup_insert_ne.
Qed.

(** X2: an event changes no session but the one it is routed to (for
    a presence frame, none but the ids it lists), and it never touches
    [gatewayConnected], [columnOrder] or [client]; this holds also when
    the handler ends in a [TypeError]. *)
Theorem event_touches_only_its_target
    (env : Env) (ev : GatewayEvent) (st : DeckStore) (b : string) :
  match ev with
  | EvPresence agents => b ∉ (default [] agents).*1
  | _ => eventTarget ev <> Some b
  end ->
  sessions (storeOf (handleGatewayEvent env ev st)) !! b = sessions st !! b
  /\ gatewayConnected (storeOf (handleGatewayEvent env ev st))
     = gatewayConnected st
  /\ columnOrder (storeOf (handleGatewayEvent env ev st)) = columnOrder st
  /\ client (storeOf (handleGatewayEvent env ev st)) = client st.
Proof.
  intros H. split.
  - destruct ev as [p | ags | | p | p | p | n]; simpl in *.
    + apply handleAgent_other. congruence.
    + destruct ags as [entries|]; [| reflexivity]. simpl.
      now apply presence_fold_absent.
    + reflexivity.
    + apply handleCompaction_other. congruence.
    + apply handleUsage_other. congruence.
    + apply handleChat_other. congruence.
    + reflexivity.
  - destruct ev as [p | ags | | p | p | p | n]; simpl.
    + unfold handleAgent, lifecycleStart, setAgentStatus, appendMessageChunk,
        finalizeMessage.
      repeat match goal with
             | |- context [match ?x with _ => _ end] => destruct x
             end; repeat split.
    + destruct ags; repeat split.
    + repeat split.
    + unfold handleCompaction.
      repeat match goal with
             | |- context [match ?x with _ => _ end] => destruct x
             end; repeat split.
    + unfold handleUsage.
      repeat match goal with
             | |- context [match ?x with _ => _ end] => destruct x
             end; repeat split.
    + destruct (handleChat_cases env p st)
        as [E | [[E _] | (s & msgs & m & _ & _ & _ & _ & _ & _ & _ & _ & _ & _ & E)]];
        rewrite E; repeat split.
    + repeat split.
Qed.

Lemma event_touches_only_its_target_witness :
  sessions (storeOf (handleGatewayEvent env0
                       (deltaEvent (Some "agent:main:ghost") "r1" "hi")
                       (oneSession midStream))) !! "a"
  = sessions (oneSession midStream) !! "a"
  /\ gatewayConnected (storeOf (handleGatewayEvent env0
                                  (deltaEvent (Some "agent:main:ghost") "r1" "hi")
                                  (oneSession midStream)))
     = gatewayConnected (oneSession midStream)
  /\ columnOrder (storeOf (handleGatewayEvent env0
                             (deltaEvent (Some "agent:main:ghost") "r1" "hi")
                             (oneSession midStream)))
     = columnOrder (oneSession midStream)
  /\ client (storeOf (handleGatewayEvent env0
                        (deltaEvent (Some "agent:main:ghost") "r1" "hi")
                        (oneSession midStream)))
     = client (oneSession midStream).
Proof.
  apply (event_touches_only_its_target env0
           (deltaEvent (Some "agent:main:ghost") "r1" "hi")
           (oneSession midStream) "a").
  simpl. discriminate.
Defined.

(** ** Message histories only grow *)

Lemma presence_fold_session (entries : list (string * bool))
    (ss : gmap string AgentSession) (a : string) (s : AgentSession) :
  ss !! a = Some s ->
  exists s',
    fold_left presenceEntry entries ss !! a = Some s'
    /\ messages s' = messages s /\ agentId s' = agentId s
    /\ activeRunId s' = activeRunId s /\ tokenCount s' = tokenCount s
    /\ usage s' = usage s.
Proof.
  revert ss s. induction entries as [|[id o] entries IH]; intros ss s Hs.
  - exists s. repeat split. exact Hs.
  - change (fold_left presenceEntry ((id, o) :: entries) ss)
      with (fold_left presenceEntry entries (presenceEntry ss (id, o))).
    destruct (decide (id = a)) as [->|Hne].
    + destruct (IH (presenceEntry ss (a, o)) (presenceUpdate o s))
        as (s' & Hs' & Hm & Hi & Hr & Ht & Hu).
      { now apply presenceEntry_same. }
      exists s'. repeat split; assumption.
    + apply IH. now rewrite presenceEntry_other.
Qed.

Lemma handleAgent_history_step (env : Env) (p : AgentPayload)
    (st : DeckStore) (s : AgentSession) (msgs : list ChatMessage) :
  sessions st !! extractAgentId (agent_sessionKey p) = Some s ->
  messages s = Some msgs ->
  exists s' msgs',
    sessions (storeOf (handleAgent env p st))
      !! extractAgentId (agent_sessionKey p) = Some s'
    /\ messages s' = Some msgs' /\ historyStep msgs msgs'.
Proof.
  intros Hs Hm. unfold handleAgent.
  set (a := extractAgentId (agent_sessionKey p)) in *.
  destruct (_ && _); cbn [storeOf].
  - rewrite (appendMessageChunk_tracked a _ _ st s msgs Hs Hm).
    rewrite setAgentStatus_lookup. simpl. rewrite lookup_insert_eq. simpl.
    eexists _, _. split; [reflexivity |]. split; [reflexivity |].
    apply step_delta.
  - destruct (bool_decide (agent_stream p = Some "lifecycle")).
    + destruct (bool_decide (_ = Some "start")).
      * unfold lifecycleStart. rewrite (readSession_own _ _ _ Hs), Hm.
        destruct (hasRun (agent_runId p) msgs); cbn [storeOf];
          rewrite setAgentStatus_lookup.
        -- rewrite Hs. eexists _, _. split; [reflexivity |].
           split; [exact Hm | apply step_same].
        -- simpl. rewrite lookup_insert_eq. simpl.
           eexists _, _. split; [reflexivity |]. split; [reflexivity |].
           apply step_append.
      * destruct (bool_decide (_ = Some "end")); cbn [storeOf].
        -- rewrite (finalizeMessage_tracked a _ st s msgs Hs Hm). simpl.
           rewrite lookup_insert_eq.
           eexists _, _. split; [reflexivity |]. split; [reflexivity |].
           apply step_seal.
        -- exists s, msgs. split; [exact Hs |]. split; [exact Hm |].
           apply step_same.
    + destruct (bool_decide (_ = Some "tool_use")); cbn [storeOf].
      * rewrite setAgentStatus_lookup, Hs.
        eexists _, _. split; [reflexivity |].
        split; [exact Hm | apply step_same].
      * exists s, msgs. split; [exact Hs |]. split; [exact Hm |].
        apply step_same.
Qed.

Lemma handle_history_step
    (env : Env) (ev : GatewayEvent) (st : DeckStore) (a : string)
    (s : AgentSession) (msgs : list ChatMessage) :
  sessions st !! a = Some s ->
  messages s = Some msgs ->
  exists s' msgs',
    sessions (storeOf (handleGatewayEvent env ev st)) !! a = Some s'
    /\ messages s' = Some msgs'
    /\ historyStep msgs msgs'.
Proof.
  intros Hs Hm.
  assert (Hsame : forall st',
             sessions st' !! a = sessions st !! a ->
             exists s' msgs',
               sessions st' !! a = Some s' /\ messages s' = Some msgs'
               /\ historyStep msgs msgs').
  { intros st' E. exists s, msgs. rewrite E.
    split; [exact Hs |]. split; [exact Hm | apply step_same]. }
  destruct ev as [p | ags | | p | p | p | n]; simpl.
  - destruct (decide (extractAgentId (agent_sessionKey p) = a)) as [<-|Hne].
    + exact (handleAgent_history_step env p st s msgs Hs Hm).
    + apply Hsame. now apply handleAgent_other.
  - destruct ags as [entries|]; [| now apply Hsame]. simpl.
    destruct (presence_fold_session entries (sessions st) a s Hs)
      as (s' & Hs' & Hm' & _).
    exists s', msgs. split; [exact Hs' |].
    split; [congruence | apply step_same].
  - now apply Hsame.
  - destruct (decide (extractAgentId (cp_sessionKey p) = a)) as [<-|Hne].
    + unfold handleCompaction. rewrite (readSession_own _ _ _ Hs), Hm. simpl.
      rewrite lookup_insert_eq.
      eexists _, _. split; [reflexivity |]. split; [reflexivity |].
      apply step_append.
    + apply Hsame. now apply handleCompaction_other.
  - destruct (decide (extractAgentId (up_sessionKey p) = a)) as [<-|Hne].
    + unfold handleUsage. destruct (up_usage p); [| now apply Hsame].
      rewrite (readSession_own _ _ _ Hs). simpl. rewrite lookup_insert_eq.
      eexists _, _. split; [reflexivity |].
      split; [exact Hm | apply step_same].
    + apply Hsame. now apply handleUsage_other.
  - destruct (decide (chatAgentId p = a)) as [<-|Hne].
    + destruct (handleChat_cases env p st)
        as [E | [[E _] | (s1 & msgs1 & m & Hs1 & Hm1 & _ & _ & _ & _ & _ & _
                          & _ & _ & E)]]; rewrite E; simpl.
      * now apply Hsame.
      * now apply Hsame.
      * rewrite Hs in Hs1. injection Hs1 as <-.
        rewrite Hm in Hm1. injection Hm1 as <-.
        rewrite lookup_insert_eq.
        eexists _, _. split; [reflexivity |]. split; [reflexivity |].
        apply step_append.
    + apply Hsame. now apply handleChat_other.
  - now apply Hsame.
Qed.

(** X3: whatever the event and however its handler ends, a tracked
    session stays tracked and its message list takes one of four
    steps: it is unchanged, a chunk is appended to the text of its
    streaming messages of one run, the messages of one run are sealed,
    or one message is added at the end.  No event removes or reorders
    messages. *)
Theorem event_history_step
    (env : Env) (ev : GatewayEvent) (st : DeckStore) (a : string)
    (s : AgentSession) (msgs : list ChatMessage) :
  sessions st !! a = Some s ->
  messages s = Some msgs ->
  exists s' msgs',
    sessions (storeOf (handleGatewayEvent env ev st)) !! a = Some s'
    /\ messages s' = Some msgs'
    /\ historyStep msgs msgs'.
Proof. exact (handle_history_step env ev st a s msgs). Qed.

Lemma event_history_step_witness :
  exists s' msgs',
    sessions (storeOf (handleGatewayEvent env0
                         (lifecycleEvent (Some "agent:main:a") "r1" "end")
                         (oneSession midStream))) !! "a" = Some s'
    /\ messages s' = Some msgs'
    /\ historyStep [streamingPlaceholder "r1" "He"] msgs'.
Proof.
  apply (event_history_step env0
           (lifecycleEvent (Some "agent:main:a") "r1" "end")
           (oneSession midStream) "a" midStream
           [streamingPlaceholder "r1" "He"]).
  - reflexivity.
  - reflexivity.
Defined.

Lemma evolves_refl (m : ChatMessage) : evolves m m.
Proof.
  unfold evolves. repeat split; try reflexivity; try tauto.
  exists "". now rewrite append_nil_r.
Qed.

Lemma evolves_trans (m1 m2 m3 : ChatMessage) :
  evolves m1 m2 -> evolves m2 m3 -> evolves m1 m3.
Proof.
  intros (Hi & Hr & Ht & Hru & Ha & Hc & (x & Hx) & Hs)
         (Hi' & Hr' & Ht' & Hru' & Ha' & Hc' & (y & Hy) & Hs').
  unfold evolves. repeat split; try congruence.
  - exists (x +:+ y). now rewrite Hy, Hx, append_assoc.
  - destruct (Hs H) as [E N]. destruct (Hs' N) as [E' _]. congruence.
  - destruct (Hs H) as [_ N]. now destruct (Hs' N).
Qed.

Lemma appendChunkTo_evolves (r c : string) (m : ChatMessage) :
  evolves m (appendChunkTo r c m).
Proof.
  unfold appendChunkTo. destruct (isStreamingRun r m) eqn:E;
    [| apply evolves_refl].
  unfold evolves. simpl. repeat split; try reflexivity.
  - now exists c.
  - exfalso. apply H. unfold isStreamingRun in E.
    apply andb_true_iff in E as [_ E]. now apply bool_decide_eq_true in E.
  - assumption.
Qed.

Lemma sealRun_evolves (r : string) (m : ChatMessage) :
  evolves m (sealRun r m).
Proof.
  unfold sealRun. destruct (bool_decide (runId m = Some r));
    [| apply evolves_refl].
  unfold evolves. simpl. repeat split; try reflexivity; try discriminate.
  exists "". now rewrite append_nil_r.
Qed.

Lemma Forall2_map_evolves (f : ChatMessage -> ChatMessage)
    (msgs : list ChatMessage) :
  (forall m, evolves m (f m)) -> Forall2 evolves msgs (map f msgs).
Proof.
  intros H. induction msgs as [|m msgs IH]; simpl; constructor; auto.
Qed.

Lemma historyStep_evolves (msgs msgs' : list ChatMessage) :
  historyStep msgs msgs' ->
  exists kept added,
    msgs' = kept ++ added /\ Forall2 evolves msgs kept
    /\ (length added <= 1)%nat.
Proof.
  intros [ | r c | r | x].
  - exists msgs, []. rewrite app_nil_r. split; [reflexivity |].
    split; [| simpl; lia].
    apply Forall_Forall2_diag, Forall_forall. intros m _. apply evolves_refl.
  - eexists _, []. rewrite app_nil_r. split; [reflexivity |].
    split; [| simpl; lia].
    apply Forall2_map_evolves. intros m. apply appendChunkTo_evolves.
  - eexists _, []. rewrite app_nil_r. split; [reflexivity |].
    split; [| simpl; lia].
    apply Forall2_map_evolves. intros m. apply sealRun_evolves.
  - exists msgs, [x]. split; [reflexivity |]. split; [| simpl; lia].
    apply Forall_Forall2_diag, Forall_forall. intros m _. apply evolves_refl.
Qed.

Lemma Forall2_evolves_trans (l1 l2 l3 : list ChatMessage) :
  Forall2 evolves l1 l2 -> Forall2 evolves l2 l3 -> Forall2 evolves l1 l3.
Proof.
  intros H. revert l3. induction H as [|a b l1 l2 Hab _ IH]; intros l3 H3.
  - inversion H3. constructor.
  - inversion H3 as [|? c ? l3' Hbc Hrest]; subst. constructor.
    + exact (evolves_trans _ _ _ Hab Hbc).
    + now apply IH.
Qed.

(** X4: over any trace of events, handled one after the other
    whatever exceptions occur, the messages a session had are all
    still there, in the same order and with the same id, role,
    timestamp, runId, announcement flag and compaction payload; the
    text of each has at most grown at its end, a message that was not
    streaming has kept its text and has not become streaming, and at
    most one message per event has been added behind them. *)
Theorem trace_history_is_append_only
    (trace : list (Env * GatewayEvent)) (st : DeckStore) (a : string)
    (s : AgentSession) (msgs : list ChatMessage) :
  sessions st !! a = Some s ->
  messages s = Some msgs ->
  exists s' kept added,
    sessions (handleAll trace st) !! a = Some s'
    /\ messages s' = Some (kept ++ added)
    /\ Forall2 evolves msgs kept
    /\ (length added <= length trace)%nat.
Proof.
  revert st s msgs.
  induction trace as [|[env ev] trace IH]; intros st s msgs Hs Hm.
  - exists s, msgs, []. rewrite app_nil_r.
    split; [exact Hs |]. split; [exact Hm |]. split; [| simpl; lia].
    apply Forall_Forall2_diag, Forall_forall. intros m _. apply evolves_refl.
  - cbn [handleAll].
    destruct (handle_history_step env ev st a s msgs Hs Hm)
      as (s1 & msgs1 & Hs1 & Hm1 & Hstep).
    destruct (historyStep_evolves _ _ Hstep) as (k1 & a1 & -> & Hk1 & Ha1).
    destruct (IH _ s1 (k1 ++ a1) Hs1 Hm1) as (s' & k2 & a2 & Hs' & Hm' & Hk2 & Ha2).
    apply Forall2_app_inv_l in Hk2 as (k2a & k2b & Hka & Hkb & ->).
    exists s', k2a, (k2b ++ a2).
    split; [exact Hs' |]. split; [now rewrite Hm', <- app_assoc |].
    split; [exact (Forall2_evolves_trans _ _ _ Hk1 Hka) |].
    apply Forall2_length in Hkb. rewrite length_app. simpl. lia.
Qed.

Lemma trace_history_is_append_only_witness :
  exists s' kept added,
    sessions (handleAll [(env0, deltaEvent (Some "agent:main:a") "r1" "llo");
                         (env0, lifecycleEvent (Some "agent:main:a") "r1" "end");
                         (envLate, EvChat doneTurn)]
                (oneSession midStream)) !! "a" = Some s'
    /\ messages s' = Some (kept ++ added)
    /\ Forall2 evolves [streamingPlaceholder "r1" "He"] kept
    /\ (length added <= 3)%nat.
Proof.
  apply (trace_history_is_append_only
           [(env0, deltaEvent (Some "agent:main:a") "r1" "llo");
            (env0, lifecycleEvent (Some "agent:main:a") "r1" "end");
            (envLate, EvChat doneTurn)]
           (oneSession midStream) "a" midStream
           [streamingPlaceholder "r1" "He"]).
  - reflexivity.
  - reflexivity.
Defined.

(** ** Lifecycle start *)

Lemma hasRun_false (r : string) (msgs : list ChatMessage) :
  hasRun r msgs = false -> Forall (fun m => runId m <> Some r) msgs.
Proof.
  unfold hasRun. induction msgs as [|m msgs IH]; simpl; intros H;
    constructor.
  - apply orb_false_iff in H as [H _]. now apply bool_decide_eq_false in H.
  - apply IH. now apply orb_false_iff in H as [_ H].
Qed.

Lemma untouched_by_run (r c : string) (msgs : list ChatMessage) :
  Forall (fun m => runId m <> Some r) msgs ->
  map (appendChunkTo r c) msgs = msgs /\ map (sealRun r) msgs = msgs.
Proof.
  intros H. split; apply map_id_on; eapply Forall_impl; try exact H;
    intros m Hm; simpl.
  - apply appendChunkTo_miss. unfold isStreamingRun.
    now rewrite bool_decide_eq_false_2.
  - unfold sealRun. now rewrite bool_decide_eq_false_2.
Qed.

(** The [placeholderMsg] literal of the lifecycle start. *)
Lemma lifecycleStart_fresh (env : Env) (a r : string) (st : DeckStore)
    (s : AgentSession) (msgs : list ChatMessage) :
  sessions st !! a = Some s -> messages s = Some msgs ->
  hasRun r msgs = false ->
  lifecycleStart env a r st
  = Normal
      (set_sessions
         (<[a := mkSession (agentId s) (Some Thinking)
                   (Some (msgs ++
                          [mkMsg (makeId env)
                             (if bool_decide (status s = Some Idle)
                              then Announcement else Assistant)
                             "" (nowStamp env) (Some true) (Some r)
                             (Some (bool_decide (status s = Some Idle))) None]))
                   (Some (Some r)) (tokenCount s) (connected s) (usage s)]>
            (sessions st)) st).
Proof.
  intros Hs Hm Hrun. unfold lifecycleStart.
  rewrite (readSession_own _ _ _ Hs), Hm, Hrun.
  unfold setAgentStatus. simpl. rewrite lookup_insert_eq, insert_insert_eq.
  reflexivity.
Qed.

Lemma lifecycleStart_known (env : Env) (a r : string) (st : DeckStore)
    (s : AgentSession) (msgs : list ChatMessage) :
  sessions st !! a = Some s -> messages s = Some msgs ->
  hasRun r msgs = true ->
  lifecycleStart env a r st
  = Normal (set_sessions (<[a := with_status (Some Thinking) s]> (sessions st)) st).
Proof.
  intros Hs Hm Hrun. unfold lifecycleStart.
  rewrite (readSession_own _ _ _ Hs), Hm, Hrun.
  unfold setAgentStatus. now rewrite Hs.
Qed.

Lemma handle_start (env : Env) (key : option string) (r : string)
    (st : DeckStore) :
  handleGatewayEvent env (lifecycleEvent key r "start") st
  = lifecycleStart env (extractAgentId key) r st.
Proof. reflexivity. Qed.

(** X5: a lifecycle start for a run no message of the tracked session
    carries appends exactly one empty streaming placeholder for it,
    an announcement if the session was idle and an assistant message
    otherwise, makes the run the active one and sets the status to
    [thinking]; a second start for the same run then changes nothing.
    A start for a run that already has a message adds no message and
    only sets the status. *)
Theorem lifecycle_start_creates_one_placeholder
    (env env' : Env) (key : option string) (r : string) (st : DeckStore)
    (s : AgentSession) (msgs : list ChatMessage) :
  sessions st !! extractAgentId key = Some s ->
  messages s = Some msgs ->
  (hasRun r msgs = false ->
   exists st1 p,
     handleGatewayEvent env (lifecycleEvent key r "start") st = Normal st1
     /\ sessions st1 !! extractAgentId key
        = Some (mkSession (agentId s) (Some Thinking) (Some (msgs ++ [p]))
                  (Some (Some r)) (tokenCount s) (connected s) (usage s))
     /\ text p = "" /\ streaming p = Some true /\ runId p = Some r
     /\ role p = (if bool_decide (status s = Some Idle)
                  then Announcement else Assistant)
     /\ handleGatewayEvent env' (lifecycleEvent key r "start") st1
        = Normal st1)
  /\ (hasRun r msgs = true ->
      handleGatewayEvent env (lifecycleEvent key r "start") st
      = Normal (set_sessions
                  (<[extractAgentId key := with_status (Some Thinking) s]>
                     (sessions st)) st)).
Proof.
  intros Hs Hm. split; intros Hrun; rewrite handle_start.
  - rewrite (lifecycleStart_fresh env _ r st s msgs Hs Hm Hrun).
    eexists _, _. split; [reflexivity |].
    split; [simpl; apply lookup_insert_eq |].
    do 4 (split; [reflexivity |]).
    rewrite handle_start.
    erewrite lifecycleStart_known;
      [| simpl; apply lookup_insert_eq | reflexivity |].
    + simpl. rewrite insert_insert_eq. reflexivity.
    + unfold hasRun. rewrite existsb_app. simpl.
      rewrite bool_decide_eq_true_2 by reflexivity.
      now rewrite orb_true_r.
  - exact (lifecycleStart_known env _ r st s msgs Hs Hm Hrun).
Qed.

Lemma lifecycle_start_creates_one_placeholder_witness :
  exists st1 p,
    handleGatewayEvent env0 (lifecycleEvent (Some "agent:main:a") "r1" "start")
      (oneSession (createSession "a")) = Normal st1
    /\ sessions st1 !! "a"
       = Some (mkSession (Some "a") (Some Thinking) (Some ([] ++ [p]))
                 (Some (Some "r1")) (Some (Num 0)) (Some false) None)
    /\ text p = "" /\ streaming p = Some true /\ runId p = Some "r1"
    /\ role p = Announcement
    /\ handleGatewayEvent envLate
         (lifecycleEvent (Some "agent:main:a") "r1" "start") st1
       = Normal st1.
Proof.
  apply (proj1 (lifecycle_start_creates_one_placeholder env0 envLate
                  (Some "agent:main:a") "r1" (oneSession (createSession "a"))
                  (createSession "a") [] eq_refl eq_refl)).
  reflexivity.
Defined.

(** ** A whole run *)

Lemma length_append (a b : string) :
  String.length (a +:+ b) = (String.length a + String.length b)%nat.
Proof.
  induction a as [|x a IH]; [reflexivity |].
  change (String x a +:+ b) with (String x (a +:+ b)). simpl. now rewrite IH.
Qed.

Lemma handleAll_app (t1 t2 : list (Env * GatewayEvent)) (st : DeckStore) :
  handleAll (t1 ++ t2) st = handleAll t2 (handleAll t1 st).
Proof.
  revert st. induction t1 as [|[env ev] t1 IH]; intros st; [reflexivity |].
  simpl. apply IH.
Qed.

(** Sums of integers up to [2 ^ 53] in size are exact in a double. *)
Lemma roundDouble_exact (v : Z) :
  - 2 ^ 53 <= v <= 2 ^ 53 -> roundDouble v = Num v.
Proof.
  intros H. destruct (Z.eq_dec (Z.abs v) (2 ^ 53)) as [E|N].
  - assert (Hv : v = 2 ^ 53 \/ v = - 2 ^ 53) by lia.
    destruct Hv as [-> | ->]; vm_compute; reflexivity.
  - unfold roundDouble.
    assert (He : Z.log2 (Z.abs v) - 52 <= 0).
    { destruct (Z.eq_dec (Z.abs v) 0) as [E0|N0].
      - rewrite E0. simpl. lia.
      - assert (Z.log2 (Z.abs v) < 53) by (apply Z.log2_lt_pow2; lia). lia. }
    destruct (Z.leb_spec (Z.log2 (Z.abs v) - 52) 0); [reflexivity | lia].
Qed.

Lemma js_add_exact (z n : Z) :
  - 2 ^ 53 <= z + n <= 2 ^ 53 -> js_add (Some (Num z)) n = Num (z + n).
Proof. intros H. simpl. now apply roundDouble_exact. Qed.

(** The session a run of deltas leaves, token count included, as long
    as the count stays where doubles add exactly. *)
Lemma deltas_session (key : option string) (r : string)
    (ecs : list (Env * string)) :
  forall (st : DeckStore) (s : AgentSession) (msgs : list ChatMessage) (z : Z),
    sessions st !! extractAgentId key = Some s ->
    messages s = Some msgs ->
    tokenCount s = Some (Num z) ->
    - 2 ^ 53 <= z ->
    z + Z.of_nat (String.length (String.concat "" ecs.*2)) <= 2 ^ 53 ->
    sessions (handleAll (deltaTrace key r ecs) st) !! extractAgentId key
    = Some (mkSession (agentId s)
              (if forallb (fun c => bool_decide (c = "")) ecs.*2
               then status s else Some Streaming)
              (Some (map (appendChunkTo r (String.concat "" ecs.*2)) msgs))
              (activeRunId s)
              (Some (Num (z + Z.of_nat
                               (String.length (String.concat "" ecs.*2)))))
              (connected s) (usage s)).
Proof.
  induction ecs as [|[env c] ecs IH]; intros st s msgs z Hs Hm Ht Hlo Hhi.
  - simpl. rewrite Hs. f_equal. rewrite Z.add_0_r.
    rewrite map_id_on
      by (apply Forall_forall; intros m _; apply appendChunkTo_nil).
    destruct s; simpl in *; congruence.
  - rewrite fmap_cons. cbn [fst snd].
    change (deltaTrace key r ((env, c) :: ecs))
      with ((env, deltaEvent key r c) :: deltaTrace key r ecs).
    cbn [handleAll forallb]. rewrite concat_cons.
    destruct (decide (c = "")) as [->|Hc].
    + rewrite handle_delta_empty. cbn [storeOf].
      rewrite fmap_cons, concat_cons in Hhi. cbn [fst snd] in Hhi.
      rewrite (IH st s msgs z Hs Hm Ht Hlo Hhi).
      rewrite bool_decide_eq_true_2 by reflexivity. reflexivity.
    + rewrite (handle_delta_tracked env key r c st s msgs Hc Hs Hm).
      cbn [storeOf].
      rewrite fmap_cons, concat_cons in Hhi. cbn [fst snd] in Hhi.
      rewrite length_append, Nat2Z.inj_add in Hhi.
      erewrite (IH _ _ _ (z + Z.of_nat (String.length c)));
        [| simpl; apply lookup_insert_eq | reflexivity
         | simpl; rewrite Ht; f_equal; apply js_add_exact; lia
         | lia | lia].
      rewrite (bool_decide_eq_false_2 _ Hc). simpl.
      rewrite map_map, length_append, Nat2Z.inj_add, Z.add_assoc.
      rewrite (map_ext _ _ (appendChunkTo_compose r c _)).
      now destruct (forallb _ _).
Qed.

(** X6: the token counter of a tracked session counts every character
    of every delta routed to it, whether or not a streaming message of
    the run received the text: after a run of deltas it has grown by
    the length of their concatenation, as long as the count stays
    within [2 ^ 53], where the addition of doubles is exact. *)
Theorem deltas_count_every_character
    (key : option string) (r : string) (ecs : list (Env * string))
    (st : DeckStore) (s : AgentSession) (msgs : list ChatMessage) (z : Z) :
  sessions st !! extractAgentId key = Some s ->
  messages s = Some msgs ->
  tokenCount s = Some (Num z) ->
  - 2 ^ 53 <= z ->
  z + Z.of_nat (String.length (String.concat "" ecs.*2)) <= 2 ^ 53 ->
  exists s',
    sessions (handleAll (deltaTrace key r ecs) st) !! extractAgentId key
    = Some s'
    /\ tokenCount s'
       = Some (Num (z + Z.of_nat (String.length (String.concat "" ecs.*2))))
    /\ activeRunId s' = activeRunId s
    /\ (Forall (fun m => runId m <> Some r) msgs -> messages s' = Some msgs).
Proof.
  intros Hs Hm Ht Hlo Hhi. eexists.
  split; [exact (deltas_session key r ecs st s msgs z Hs Hm Ht Hlo Hhi) |].
  split; [reflexivity |]. split; [reflexivity |].
  intros Hnone. simpl. f_equal. now apply untouched_by_run.
Qed.

Lemma deltas_count_every_character_witness :
  exists s',
    sessions (handleAll (deltaTrace (Some "agent:main:a") "r9"
                           [(env0, "lost "); (env0, "text")])
                (oneSession midStream)) !! "a" = Some s'
    /\ tokenCount s' = Some (Num (2 + 9))
    /\ activeRunId s' = Some (Some "r1")
    /\ (Forall (fun m => runId m <> Some "r9") [streamingPlaceholder "r1" "He"] ->
        messages s' = Some [streamingPlaceholder "r1" "He"]).
Proof.
  apply (deltas_count_every_character (Some "agent:main:a") "r9"
           [(env0, "lost "); (env0, "text")] (oneSession midStream)
           midStream [streamingPlaceholder "r1" "He"] 2).
  - reflexivity.
  - reflexivity.
  - reflexivity.
  - vm_compute. discriminate.
  - vm_compute. discriminate.
Defined.

(** At [2 ^ 53] the counter stops counting: the sum with a
    one-character delta rounds back to [2 ^ 53]. *)
Example delta_at_the_exact_limit :
  sessions (storeOf (handleGatewayEvent env0
                       (deltaEvent (Some "agent:main:a") "r1" "!")
                       (oneSession
                          (with_tokenCount (Some (Num (2 ^ 53))) midStream))))
    !! "a" ≫= tokenCount
  = Some (Num (2 ^ 53)).
Proof. vm_compute. reflexivity. Qed.

Lemma start_known_lookup (env : Env) (key : option string) (r : string)
    (st : DeckStore) (s : AgentSession) (msgs : list ChatMessage) :
  sessions st !! extractAgentId key = Some s -> messages s = Some msgs ->
  hasRun r msgs = true ->
  sessions (storeOf (handleGatewayEvent env (lifecycleEvent key r "start") st))
    !! extractAgentId key
  = Some (with_status (Some Thinking) s).
Proof.
  intros Hs Hm Hrun. rewrite handle_start.
  rewrite (lifecycleStart_known env _ r st s msgs Hs Hm Hrun).
  simpl. apply lookup_insert_eq.
Qed.

Lemma end_lookup (env : Env) (key : option string) (r : string)
    (st : DeckStore) (s : AgentSession) (msgs : list ChatMessage) :
  sessions st !! extractAgentId key = Some s -> messages s = Some msgs ->
  sessions (storeOf (handleGatewayEvent env (lifecycleEvent key r "end") st))
    !! extractAgentId key
  = Some (with_status (Some Idle)
            (with_activeRunId (Some None)
               (with_messages (Some (map (sealRun r) msgs)) s))).
Proof.
  intros Hs Hm. rewrite handle_end.
  rewrite (finalizeMessage_tracked _ r st s msgs Hs Hm).
  simpl. apply lookup_insert_eq.
Qed.

Lemma hasRun_snoc_true (r : string) (msgs : list ChatMessage) (m : ChatMessage) :
  runId m = Some r -> hasRun r (msgs ++ [m]) = true.
Proof.
  intros H. unfold hasRun. rewrite existsb_app. simpl.
  rewrite (bool_decide_eq_true_2 _ H). now rewrite orb_true_r.
Qed.

Lemma sendMessage_resolved_lookup (env1 env2 : Env) (a t r : string)
    (st : DeckStore) (c : GatewayClient) (s : AgentSession)
    (msgs : list ChatMessage) :
  client st = Some c -> client_connected c = true ->
  sessions st !! a = Some s -> messages s = Some msgs ->
  exists st1,
    sendMessage env1 env2 a t (RunResolved r) st = SendReturned st1
    /\ sessions st1 !! a
       = Some (mkSession (agentId s) (Some Streaming)
                 (Some (msgs ++
                        [userMsgOf env1 t;
                         mkMsg (makeId env2) Assistant "" (nowStamp env2)
                               (Some true) (Some r) None None]))
                 (Some (Some r)) (tokenCount s) (connected s) (usage s)).
Proof.
  intros Hc Hcon Hs Hm. unfold sendMessage.
  rewrite (sendMessageBegin_tracked env1 a t st c s msgs Hc Hcon Hs Hm).
  eexists. split; [reflexivity |].
  unfold sendMessageResume. simpl. rewrite lookup_insert_eq. simpl.
  rewrite lookup_insert_eq, <- app_assoc. reflexivity.
Qed.

(** X7: a send that resolves with runId [r], followed by the run's
    lifecycle start, its deltas and its lifecycle end, leaves the
    session idle with no active run, its prior messages untouched and
    two messages behind them: the user message and one sealed assistant
    message whose text is the concatenation of the deltas.  The start
    adds no second placeholder.  (The run's id is new to the session
    and nothing else interleaves; the token count is the prior one
    plus the length of the text as long as it stays within [2 ^ 53],
    where the addition of doubles is exact.) *)
Theorem send_stream_seal
    (env1 env2 env3 env4 : Env) (key : option string) (t r : string)
    (ecs : list (Env * string)) (st : DeckStore) (c : GatewayClient)
    (s : AgentSession) (msgs : list ChatMessage) (z : Z) :
  client st = Some c -> client_connected c = true ->
  sessions st !! extractAgentId key = Some s ->
  messages s = Some msgs ->
  tokenCount s = Some (Num z) ->
  - 2 ^ 53 <= z ->
  z + Z.of_nat (String.length (String.concat "" ecs.*2)) <= 2 ^ 53 ->
  hasRun r msgs = false ->
  exists st1,
    sendMessage env1 env2 (extractAgentId key) t (RunResolved r) st
    = SendReturned st1
    /\ sessions
         (handleAll ((env3, lifecycleEvent key r "start")
                       :: deltaTrace key r ecs
                       ++ [(env4, lifecycleEvent key r "end")]) st1)
         !! extractAgentId key
       = Some (mkSession (agentId s) (Some Idle)
                 (Some (msgs ++
                        [userMsgOf env1 t;
                         mkMsg (makeId env2) Assistant
                               (String.concat "" ecs.*2) (nowStamp env2)
                               (Some false) (Some r) None None]))
                 (Some None)
                 (Some (Num (z + Z.of_nat
                                  (String.length (String.concat "" ecs.*2)))))
                 (connected s) (usage s)).
Proof.
  intros Hc Hcon Hs Hm Ht Hlo Hhi Hrun.
  destruct (sendMessage_resolved_lookup env1 env2 _ t r st c s msgs
              Hc Hcon Hs Hm) as (st1 & Hsend & Hs1).
  exists st1. split; [exact Hsend |].
  set (p := mkMsg (makeId env2) Assistant "" (nowStamp env2) (Some true)
                  (Some r) None None) in *.
  set (hist := msgs ++ [userMsgOf env1 t; p]) in *.
  assert (Hk : hasRun r hist = true).
  { unfold hasRun, hist. rewrite existsb_app. simpl.
    rewrite bool_decide_eq_true_2 by reflexivity.
    now rewrite !orb_true_r. }
  cbn [handleAll]. rewrite handleAll_app. cbn [handleAll].
  pose proof (start_known_lookup env3 key r st1 _ hist Hs1 eq_refl Hk) as H2.
  pose proof (deltas_session key r ecs
                (storeOf (handleGatewayEvent env3
                            (lifecycleEvent key r "start") st1))
                _ hist z H2 eq_refl Ht Hlo Hhi) as H3.
  erewrite end_lookup; [| exact H3 | reflexivity].
  unfold with_status, with_activeRunId, with_messages. simpl.
  f_equal. f_equal. f_equal.
  unfold hist. rewrite !map_app.
  destruct (untouched_by_run r (String.concat "" ecs.*2) msgs
              (hasRun_false r msgs Hrun)) as [E1 E2].
  rewrite E1, E2. f_equal. simpl.
  unfold appendChunkTo, isStreamingRun, sealRun. simpl.
  rewrite (bool_decide_eq_true_2 (Some r = Some r) eq_refl). simpl.
  rewrite (bool_decide_eq_true_2 (Some r = Some r) eq_refl). reflexivity.
Qed.

Lemma send_stream_seal_witness :
  exists st1,
    sendMessage env0 envSoon "a" "hello" (RunResolved "r1")
      (oneSession (createSession "a")) = SendReturned st1
    /\ sessions
         (handleAll ((envSoon, lifecycleEvent (Some "agent:main:a") "r1" "start")
                       :: deltaTrace (Some "agent:main:a") "r1"
                            [(envSoon, "He"); (envSoon, "llo")]
                       ++ [(envLate, lifecycleEvent (Some "agent:main:a") "r1" "end")])
            st1) !! "a"
       = Some (mkSession (Some "a") (Some Idle)
                 (Some ([] ++
                        [userMsgOf env0 "hello";
                         mkMsg (makeId envSoon) Assistant "Hello" 3000
                               (Some false) (Some "r1") None None]))
                 (Some None) (Some (Num (0 + 5))) (Some false) None).
Proof.
  apply (send_stream_seal env0 envSoon envSoon envLate (Some "agent:main:a")
           "hello" "r1" [(envSoon, "He"); (envSoon, "llo")]
           (oneSession (createSession "a")) (mkClient true)
           (createSession "a") [] 0).
  - reflexivity.
  - reflexivity.
  - reflexivity.
  - reflexivity.
  - reflexivity.
  - vm_compute. discriminate.
  - vm_compute. discriminate.
  - reflexivity.
Defined.

(** X8: when the lifecycle start of a run is handled while
    [sendMessage] is still suspended on the request that will name the
    run, the start finds no placeholder and creates one, and the
    resumed [sendMessage] appends its own: the session then holds two
    streaming assistant messages for the run, and a delta is appended
    to the text of both. *)
Theorem start_before_run_id_duplicates_placeholder
    (env1 env2 env3 env4 : Env) (key : option string) (t r c : string)
    (st : DeckStore) (cl : GatewayClient)
    (s : AgentSession) (msgs : list ChatMessage) :
  client st = Some cl -> client_connected cl = true ->
  sessions st !! extractAgentId key = Some s ->
  messages s = Some msgs ->
  hasRun r msgs = false ->
  c <> "" ->
  exists stB,
    sendMessageBegin env1 (extractAgentId key) t st = SendAwaiting stB
    /\ sessions
         (storeOf
            (handleGatewayEvent env4 (deltaEvent key r c)
               (sendMessageResume env3 (extractAgentId key) (RunResolved r)
                  (storeOf (handleGatewayEvent env2
                              (lifecycleEvent key r "start") stB)))))
         !! extractAgentId key ≫= messages
       = Some (msgs ++
               [userMsgOf env1 t;
                mkMsg (makeId env2) Assistant c (nowStamp env2) (Some true)
                      (Some r) (Some false) None;
                mkMsg (makeId env3) Assistant c (nowStamp env3) (Some true)
                      (Some r) None None]).
Proof.
  intros Hc Hcon Hs Hm Hrun Hne.
  rewrite (sendMessageBegin_tracked env1 (extractAgentId key) t st cl s msgs Hc Hcon Hs Hm).
  eexists. split; [reflexivity |].
  match goal with
  | |- context [handleGatewayEvent env2 _ ?x] => set (stB := x)
  end.
  assert (HsB : sessions stB !! extractAgentId key
                = Some (with_status (Some Thinking)
                          (with_messages (Some (msgs ++ [userMsgOf env1 t])) s))).
  { unfold stB. simpl. apply lookup_insert_eq. }
  assert (HrunB : hasRun r (msgs ++ [userMsgOf env1 t]) = false).
  { unfold hasRun in *. rewrite existsb_app, Hrun. reflexivity. }
  rewrite handle_start.
  rewrite (lifecycleStart_fresh env2 (extractAgentId key) r stB _ _ HsB eq_refl HrunB).
  cbn [storeOf].
  match goal with
  | |- context [sendMessageResume env3 _ _ ?x] => set (stS := x)
  end.
  unfold sendMessageResume.
  assert (HsS : sessions stS !! extractAgentId key ≫= messages
                = Some ((msgs ++ [userMsgOf env1 t]) ++
                        [mkMsg (makeId env2) Assistant "" (nowStamp env2)
                           (Some true) (Some r) (Some false) None])).
  { unfold stS. simpl. rewrite lookup_insert_eq. reflexivity. }
  rewrite HsS.
  erewrite handle_delta_tracked;
    [| exact Hne | simpl; apply lookup_insert_eq | reflexivity].
  simpl. rewrite lookup_insert_eq. simpl. f_equal.
  rewrite !map_app.
  destruct (untouched_by_run r c msgs (hasRun_false r msgs Hrun)) as [E _].
  rewrite E, <- !app_assoc. f_equal. simpl.
  unfold appendChunkTo, isStreamingRun. simpl.
  rewrite (bool_decide_eq_true_2 (Some r = Some r) eq_refl). reflexivity.
Qed.

Lemma start_before_run_id_duplicates_placeholder_witness :
  exists stB,
    sendMessageBegin env0 "a" "hello" (oneSession (createSession "a"))
    = SendAwaiting stB
    /\ sessions
         (storeOf
            (handleGatewayEvent envLate (deltaEvent (Some "agent:main:a") "r1" "Hi")
               (sendMessageResume envLate "a" (RunResolved "r1")
                  (storeOf (handleGatewayEvent envSoon
                              (lifecycleEvent (Some "agent:main:a") "r1" "start")
                              stB)))))
         !! "a" ≫= messages
       = Some ([] ++
               [userMsgOf env0 "hello";
                mkMsg (makeId envSoon) Assistant "Hi" 3000 (Some true)
                      (Some "r1") (Some false) None;
                mkMsg (makeId envLate) Assistant "Hi" 7000 (Some true)
                      (Some "r1") None None]).
Proof.
  apply (start_before_run_id_duplicates_placeholder env0 envSoon envLate
           envLate (Some "agent:main:a") "hello" "r1" "Hi"
           (oneSession (createSession "a")) (mkClient true)
           (createSession "a") []).
  - reflexivity.
  - reflexivity.
  - reflexivity.
  - reflexivity.
  - reflexivity.
  - discriminate.
Defined.

(** ** The parsed history *)

Lemma parseHistoryMessage_entry (env : Env) (msg : RawMessage) (m : ChatMessage) :
  parseHistoryMessage env msg = Some m -> historyEntry m.
Proof.
  unfold parseHistoryMessage, historyEntry.
  destruct (negb _); [discriminate |].
  destruct (_ || _); [discriminate |].
  destruct (bool_decide (raw_kind msg = _)); [discriminate |].
  destruct (blank _) eqn:Hb; [discriminate |].
  destruct (historyNoise _) eqn:Hn; [discriminate |].
  destruct (bool_decide (raw_role msg = Some "user")).
  - intros [= <-]. simpl. repeat split; try assumption; discriminate.
  - destruct (bool_decide (raw_role msg = Some "assistant")).
    + intros [= <-]. simpl. repeat split; try assumption; discriminate.
    + destruct (bool_decide (raw_role msg = Some "system")); [| discriminate].
      intros [= <-]. simpl. repeat split; try assumption; discriminate.
Qed.

Lemma parseHistoryFrom_entries (envs : nat -> Env) (raw : list RawMessage) :
  forall i, Forall historyEntry (parseHistoryFrom envs i raw)
            /\ (length (parseHistoryFrom envs i raw) <= length raw)%nat.
Proof.
  induction raw as [|msg raw IH]; intros i; simpl.
  - split; [constructor | lia].
  - destruct (IH (S i)) as [Hall Hlen].
    destruct (parseHistoryMessage (envs i) msg) as [m|] eqn:E.
    + split; [| simpl; lia]. constructor; [| exact Hall].
      exact (parseHistoryMessage_entry _ _ _ E).
    + split; [exact Hall | lia].
Qed.

Lemma parseHistoryFrom_app (envs : nat -> Env) (l1 l2 : list RawMessage) :
  forall i,
    parseHistoryFrom envs i (l1 ++ l2)
    = parseHistoryFrom envs i l1
      ++ parseHistoryFrom envs (i + length l1) l2.
Proof.
  induction l1 as [|msg l1 IH]; intros i; simpl.
  - now rewrite Nat.add_0_r.
  - rewrite IH, <- Nat.add_succ_comm.
    now destruct (parseHistoryMessage (envs i) msg).
Qed.

Lemma parseHistoryMessages_entries (envs : nat -> Env)
    (raw : option (list RawMessage)) :
  Forall historyEntry (parseHistoryMessages envs raw).
Proof.
  destruct raw as [l|]; simpl; [apply parseHistoryFrom_entries | constructor].
Qed.

(** X9: every message [parseHistoryMessages] returns has a text that
    is neither blank nor a heartbeat or no-reply marker, a role among
    user, assistant and announcement, no runId, no streaming flag and
    no compaction payload, and is flagged as an announcement exactly
    when that is its role; the result is never longer than the
    transcript, and a transcript is parsed message by message, in
    order. *)
Theorem history_parse_is_clean
    (envs : nat -> Env) (raw : option (list RawMessage))
    (l1 l2 : list RawMessage) :
  Forall historyEntry (parseHistoryMessages envs raw)
  /\ (length (parseHistoryMessages envs raw) <= length (default [] raw))%nat
  /\ parseHistoryMessages envs None = []
  /\ parseHistoryMessages envs (Some (l1 ++ l2))
     = parseHistoryMessages envs (Some l1)
       ++ parseHistoryFrom envs (length l1) l2.
Proof.
  split; [| split; [| split]].
  - apply parseHistoryMessages_entries.
  - destruct raw as [l|]; simpl; [apply parseHistoryFrom_entries | lia].
  - reflexivity.
  - simpl. apply parseHistoryFrom_app.
Qed.

Lemma historyEntry_inert (r c : string) (msgs : list ChatMessage) :
  Forall historyEntry msgs ->
  map (appendChunkTo r c) msgs = msgs /\ map (sealRun r) msgs = msgs
  /\ hasRun r msgs = false.
Proof.
  intros H.
  assert (Hno : Forall (fun m => runId m <> Some r) msgs).
  { eapply Forall_impl; [exact H |]. intros m (_ & _ & _ & _ & Hr & _).
    rewrite Hr. discriminate. }
  destruct (untouched_by_run r c msgs Hno) as [E1 E2].
  split; [exact E1 |]. split; [exact E2 |].
  unfold hasRun. apply not_true_is_false. intros E.
  apply existsb_exists in E as (m & Hin & Hm).
  apply bool_decide_eq_true in Hm.
  rewrite Forall_forall in Hno. apply (Hno m); [| exact Hm].
  now apply list_elem_of_In.
Qed.

(** X10: a session whose messages are a parsed history is not
    written to by the stream of any run: a delta and a lifecycle end,
    whatever their runId, leave its message list as it is, and a
    lifecycle start always finds no placeholder and appends one. *)
Theorem history_is_inert
    (envs : nat -> Env) (raw : option (list RawMessage)) (env : Env)
    (key : option string) (r c : string) (st : DeckStore) (s : AgentSession) :
  sessions st !! extractAgentId key = Some s ->
  messages s = Some (parseHistoryMessages envs raw) ->
  sessions (storeOf (handleGatewayEvent env (deltaEvent key r c) st))
    !! extractAgentId key ≫= messages
  = Some (parseHistoryMessages envs raw)
  /\ sessions (storeOf (handleGatewayEvent env (lifecycleEvent key r "end") st))
       !! extractAgentId key ≫= messages
     = Some (parseHistoryMessages envs raw)
  /\ exists p,
       sessions (storeOf (handleGatewayEvent env
                            (lifecycleEvent key r "start") st))
         !! extractAgentId key ≫= messages
       = Some (parseHistoryMessages envs raw ++ [p])
       /\ runId p = Some r /\ streaming p = Some true.
Proof.
  intros Hs Hm.
  destruct (historyEntry_inert r c _ (parseHistoryMessages_entries envs raw))
    as (E1 & E2 & E3).
  split; [| split].
  - destruct (decide (c = "")) as [->|Hc].
    + rewrite handle_delta_empty. simpl. now rewrite Hs.
    + rewrite (handle_delta_tracked env key r c st s _ Hc Hs Hm). simpl.
      rewrite lookup_insert_eq. simpl. now rewrite E1.
  - rewrite (end_lookup env key r st s _ Hs Hm). simpl. now rewrite E2.
  - rewrite handle_start.
    rewrite (lifecycleStart_fresh env _ r st s _ Hs Hm E3). simpl.
    rewrite lookup_insert_eq. simpl. eexists. split; [reflexivity |].
    split; reflexivity.
Qed.

Lemma history_is_inert_witness :
  sessions (storeOf (handleGatewayEvent env0
                       (deltaEvent (Some "agent:main:a") "r1" "hi")
                       (oneSession
                          (with_messages
                             (Some (parseHistoryMessages (fun _ => env0)
                                      (Some [rawHello])))
                             (createSession "a")))))
    !! "a" ≫= messages
  = Some (parseHistoryMessages (fun _ => env0) (Some [rawHello]))
  /\ sessions (storeOf (handleGatewayEvent env0
                          (lifecycleEvent (Some "agent:main:a") "r1" "end")
                          (oneSession
                             (with_messages
                                (Some (parseHistoryMessages (fun _ => env0)
                                         (Some [rawHello])))
                                (createSession "a")))))
       !! "a" ≫= messages
     = Some (parseHistoryMessages (fun _ => env0) (Some [rawHello]))
  /\ exists p,
       sessions (storeOf (handleGatewayEvent env0
                            (lifecycleEvent (Some "agent:main:a") "r1" "start")
                            (oneSession
                               (with_messages
                                  (Some (parseHistoryMessages (fun _ => env0)
                                           (Some [rawHello])))
                                  (createSession "a")))))
         !! "a" ≫= messages
       = Some (parseHistoryMessages (fun _ => env0) (Some [rawHello]) ++ [p])
       /\ runId p = Some "r1" /\ streaming p = Some true.
Proof.
  apply (history_is_inert (fun _ => env0) (Some [rawHello]) env0
           (Some "agent:main:a") "r1" "hi"
           (oneSession
              (with_messages
                 (Some (parseHistoryMessages (fun _ => env0) (Some [rawHello])))
                 (createSession "a")))
           (with_messages
              (Some (parseHistoryMessages (fun _ => env0) (Some [rawHello])))
              (createSession "a"))).
  - reflexivity.
  - reflexivity.
Defined.

(** ** Presence and the set of sessions *)

Lemma presence_fold_inherited (entries : list (string * bool))
    (ss : gmap string AgentSession) (a : string) (online : bool) :
  NoDup entries.*1 -> (a, online) ∈ entries ->
  ss !! a = None -> isInherited a = true -> a <> "__proto__" ->
  fold_left presenceEntry entries ss !! a
  = Some (presenceUpdate online emptyObject).
Proof.
  intros Hnd Hin Hs Hinh Hne. revert ss Hnd Hin Hs.
  induction entries as [|[id o] entries IH]; intros ss Hnd Hin Hs.
  - now apply elem_of_nil in Hin.
  - rewrite fmap_cons in Hnd. apply NoDup_cons in Hnd as [Hfresh Hnd].
    change (fold_left presenceEntry ((id, o) :: entries) ss)
      with (fold_left presenceEntry entries (presenceEntry ss (id, o))).
    apply elem_of_cons in Hin as [Heq | Hin].
    + injection Heq as <- <-.
      rewrite presence_fold_absent by exact Hfresh.
      unfold presenceEntry. rewrite (readSession_inherited _ _ Hs Hinh).
      unfold assignSession. rewrite Hs.
      apply String.eqb_neq in Hne. rewrite Hne. apply lookup_insert_eq.
    + apply IH; [assumption | assumption |].
      rewrite presenceEntry_other; [exact Hs |].
      intros ->. apply Hfresh.
      apply (list_elem_of_fmap_2 fst) in Hin. exact Hin.
Qed.

(** X11: a presence frame that lists [__proto__] only where that id is
    tracked writes only [connected] and [status]: messages, active run,
    token count, usage and agent id of every session are kept, and an
    id listed as online keeps its status and becomes connected.  It
    removes no session, and it adds none for an id that names nothing a
    plain object inherits; but an untracked id that names an inherited
    property, such as [constructor], passes the test [sessions[id]] and
    gains an entry that holds the two flags and nothing else. *)
Theorem presence_writes_flags_only
    (agents : option (list (string * bool))) (st : DeckStore) (a : string) :
  (sessions st !! "__proto__" = None ->
   "__proto__" ∉ (default [] agents).*1) ->
  (isInherited a = false ->
   (sessions st !! a = None
    <-> sessions (handlePresence agents st) !! a = None))
  /\ (forall s,
        sessions st !! a = Some s ->
        exists s',
          sessions (handlePresence agents st) !! a = Some s'
          /\ messages s' = messages s /\ agentId s' = agentId s
          /\ activeRunId s' = activeRunId s /\ tokenCount s' = tokenCount s
          /\ usage s' = usage s)
  /\ (forall entries s,
        agents = Some entries -> NoDup entries.*1 -> (a, true) ∈ entries ->
        sessions st !! a = Some s ->
        sessions (handlePresence agents st) !! a
        = Some (with_connected (Some true) s))
  /\ (forall entries (online : bool),
        agents = Some entries -> NoDup entries.*1 -> (a, online) ∈ entries ->
        sessions st !! a = None -> isInherited a = true ->
        sessions (handlePresence agents st) !! a
        = Some (mkSession None (if online then None else Some Disconnected)
                  None None None (Some online) None)).
Proof.
  intros Hproto.
  split; [intros Hplain; now apply presence_keeps_ids |]. split; [| split].
  - intros s Hs. destruct agents as [entries|]; simpl.
    + exact (presence_fold_session entries (sessions st) a s Hs).
    + exists s. repeat split. exact Hs.
  - intros entries s -> Hnd Hin Hs. simpl.
    rewrite (presence_fold_present _ _ _ _ _ Hnd Hin Hs). simpl.
    now destruct s.
  - intros entries online -> Hnd Hin Hs Hinh. simpl.
    assert (Hne : a <> "__proto__").
    { intros ->. apply (Hproto Hs). simpl.
      apply (list_elem_of_fmap_2 fst) in Hin. exact Hin. }
    rewrite (presence_fold_inherited _ _ _ _ Hnd Hin Hs Hinh Hne).
    now destruct online.
Qed.

Lemma presence_writes_flags_only_witness :
  sessions (handlePresence (Some [("constructor", false); ("a", true)])
              (offline midStream)) !! "a"
  = Some (with_connected (Some true) midStream).
Proof.
  assert (Hproto : sessions (offline midStream) !! "__proto__" = None ->
                   "__proto__"
                   ∉ (default [] (Some [("constructor", false); ("a", true)])).*1).
  { intros _ H. vm_compute in H.
    apply elem_of_cons in H as [H|H]; [discriminate H |].
    apply list_elem_of_singleton in H. discriminate H. }
  apply (proj1 (proj2 (proj2 (presence_writes_flags_only
                                (Some [("constructor", false); ("a", true)])
                                (offline midStream) "a" Hproto)))
           [("constructor", false); ("a", true)] midStream eq_refl).
  - apply NoDup_cons. split; [| apply NoDup_singleton].
    intros H. apply list_elem_of_singleton in H. discriminate H.
  - apply elem_of_cons. right. apply list_elem_of_singleton. reflexivity.
  - reflexivity.
Defined.

(** The frame of the witness gives the untracked [constructor] an
    entry of two flags. *)
Example presence_adds_inherited_name :
  sessions (offline midStream) !! "constructor" = None
  /\ sessions (handlePresence (Some [("constructor", false); ("a", true)])
                 (offline midStream)) !! "constructor"
     = Some (mkSession None (Some Disconnected) None None None
               (Some false) None).
Proof. split; reflexivity. Qed.

Ltac target_stays :=
  repeat match goal with
         | |- context [match ?x with _ => _ end] => destruct x eqn:?
         end;
  simpl; rewrite ?lookup_insert_eq;
  try match goal with
      | H : is_Some None |- _ => destruct H; discriminate
      end;
  eauto.

(** X12: no event removes a session: an id that has an entry before
    an event is handled has one afterwards, also when the handler
    throws. *)
Theorem event_keeps_every_session
    (env : Env) (ev : GatewayEvent) (st : DeckStore) (a : string) :
  is_Some (sessions st !! a) ->
  is_Some (sessions (storeOf (handleGatewayEvent env ev st)) !! a).
Proof.
  intros Hs.
  assert (Hother : sessions (storeOf (handleGatewayEvent env ev st)) !! a
                   = sessions st !! a ->
                   is_Some (sessions (storeOf (handleGatewayEvent env ev st)) !! a))
    by (intros ->; exact Hs).
  destruct ev as [p | ags | | p | p | p | n]; simpl in *; try exact Hs.
  - destruct (decide (extractAgentId (agent_sessionKey p) = a)) as [<-|Hne];
      [| apply Hother; now apply handleAgent_other].
    clear Hother. unfold handleAgent, lifecycleStart, setAgentStatus,
      appendMessageChunk, finalizeMessage. target_stays.
  - destruct ags as [entries|]; [| exact Hs]. simpl.
    destruct Hs as [s Hs].
    destruct (presence_fold_session entries (sessions st) a s Hs)
      as (s' & Hs' & _).
    now exists s'.
  - destruct (decide (extractAgentId (cp_sessionKey p) = a)) as [<-|Hne];
      [| apply Hother; now apply handleCompaction_other].
    clear Hother. unfold handleCompaction. target_stays.
  - destruct (decide (extractAgentId (up_sessionKey p) = a)) as [<-|Hne];
      [| apply Hother; now apply handleUsage_other].
    clear Hother. unfold handleUsage. target_stays.
  - destruct (decide (chatAgentId p = a)) as [<-|Hne];
      [| apply Hother; now apply handleChat_other].
    clear Hother.
    destruct (handleChat_cases env p st)
      as [E | [[E _] | (s1 & msgs1 & m & _ & _ & _ & _ & _ & _ & _ & _ & _ & _ & E)]];
      rewrite E; simpl; [exact Hs | exact Hs |].
    rewrite lookup_insert_eq. eauto.
Qed.

Lemma event_keeps_every_session_witness :
  is_Some (sessions (storeOf (handleGatewayEvent env0
                                (EvCompaction
                                   (mkCompactionPayload (Some "agent:main:a")
                                      None None None))
                                (oneSession (statusOnly Streaming)))) !! "a").
Proof.
  apply (event_keeps_every_session env0
           (EvCompaction (mkCompactionPayload (Some "agent:main:a")
                            None None None))
           (oneSession (statusOnly Streaming)) "a").
  exists (statusOnly Streaming). reflexivity.
Defined.

(** ** The registry of agents *)

Lemma assignSession_plain (id : string) (v : AgentSession)
    (ss : gmap string AgentSession) :
  id <> "__proto__" -> assignSession id v ss = <[id := v]> ss.
Proof.
  intros Hne. unfold assignSession. apply String.eqb_neq in Hne.
  rewrite Hne. now destruct (ss !! id).
Qed.

Lemma initialSessions_from (agents0 : list AgentConfig) :
  forall (ss : gmap string AgentSession) (id : string),
    id <> "__proto__" ->
    fold_left (fun ss agent =>
                 assignSession (agent_id agent) (createSession (agent_id agent))
                   ss)
      agents0 ss !! id
    = if bool_decide (id ∈ map agent_id agents0)
      then Some (createSession id) else ss !! id.
Proof.
  induction agents0 as [|ag agents0 IH]; intros ss id Hid; cbn [fold_left map].
  - rewrite bool_decide_eq_false_2; [reflexivity | apply not_elem_of_nil].
  - rewrite IH by exact Hid.
    destruct (bool_decide (id ∈ map agent_id agents0)) eqn:E.
    + apply bool_decide_eq_true in E.
      rewrite bool_decide_eq_true_2; [reflexivity |].
      apply elem_of_cons. now right.
    + apply bool_decide_eq_false in E.
      destruct (decide (id = agent_id ag)) as [->|Hne].
      * rewrite assignSession_plain by exact Hid.
        rewrite lookup_insert_eq, bool_decide_eq_true_2; [reflexivity |].
        apply elem_of_cons. now left.
      * rewrite assignSession_other by congruence.
        rewrite bool_decide_eq_false_2; [reflexivity |].
        intros H. apply elem_of_cons in H as [H|H]; contradiction.
Qed.

(** Assignments never give an object an own [__proto__]. *)
Lemma initialSessions_proto (agents0 : list AgentConfig) :
  forall ss : gmap string AgentSession,
    ss !! "__proto__" = None ->
    fold_left (fun ss agent =>
                 assignSession (agent_id agent) (createSession (agent_id agent))
                   ss)
      agents0 ss !! "__proto__" = None.
Proof.
  induction agents0 as [|ag agents0 IH]; intros ss Hs; cbn [fold_left];
    [exact Hs |].
  apply IH. destruct (decide (agent_id ag = "__proto__")) as [E|Hne].
  - rewrite E. unfold assignSession. now rewrite Hs.
  - now rewrite assignSession_other.
Qed.

Lemma filter_ne_elem (id : string) (l : list string) (x : string) :
  x ∈ List.filter (fun y => negb (bool_decide (y = id))) l
  <-> x ∈ l /\ x <> id.
Proof.
  rewrite !list_elem_of_In, filter_In, negb_true_iff.
  now rewrite bool_decide_eq_false.
Qed.

Lemma filter_map_agent_id (id : string) (l : list AgentConfig) :
  map agent_id (List.filter (fun a => negb (bool_decide (agent_id a = id))) l)
  = List.filter (fun y => negb (bool_decide (y = id))) (map agent_id l).
Proof.
  induction l as [|a l IH]; [reflexivity |]. cbn [List.filter map].
  destruct (negb (bool_decide (agent_id a = id))); cbn [List.filter map];
    now rewrite IH.
Qed.

Lemma filter_absent (id : string) (l : list string) :
  id ∉ l -> List.filter (fun y => negb (bool_decide (y = id))) l = l.
Proof.
  induction l as [|x l IH]; intros H; [reflexivity |].
  apply not_elem_of_cons in H as [Hne Hl]. cbn [List.filter].
  rewrite bool_decide_eq_false_2 by congruence. cbn [negb]. now rewrite IH.
Qed.

Lemma filter_agents_absent (id : string) (l : list AgentConfig) :
  id ∉ map agent_id l ->
  List.filter (fun a => negb (bool_decide (agent_id a = id))) l = l.
Proof.
  induction l as [|x l IH]; intros H; [reflexivity |].
  change (map agent_id (x :: l)) with (agent_id x :: map agent_id l) in H.
  apply not_elem_of_cons in H as [Hne Hl]. cbn [List.filter].
  rewrite bool_decide_eq_false_2 by congruence. cbn [negb]. now rewrite IH.
Qed.

(** X13: [initialize] tracks the configured agents whose id is not
    [__proto__], each with a fresh session, and never [__proto__], which
    the assignment [sessions[agent.id] = ...] does not store; the
    columns are all configured ids in order.  So the registry is
    consistent after [initialize] (the columns are exactly the tracked
    ids, and the configured agents are the columns in order) when no
    configured agent is called [__proto__]; [addAgent] and
    [removeAgent] keep it consistent for every id. *)
Theorem registry_stays_consistent
    (partialConfig : PartialConfig) (newClient : GatewayClient)
    (agent : AgentConfig) (agentId : string) (d : Deck) :
  (("__proto__" ∉ map agent_id (agents (mergeConfig partialConfig)) ->
    registryConsistent (initialize partialConfig newClient d))
   /\ (forall id s,
         sessions (store (initialize partialConfig newClient d)) !! id = Some s ->
         s = createSession id)
   /\ (forall id,
         id <> "__proto__" ->
         id ∈ map agent_id (agents (mergeConfig partialConfig)) ->
         sessions (store (initialize partialConfig newClient d)) !! id
         = Some (createSession id))
   /\ sessions (store (initialize partialConfig newClient d)) !! "__proto__"
      = None
   /\ columnOrder (store (initialize partialConfig newClient d))
      = map agent_id (agents (mergeConfig partialConfig)))
  /\ (registryConsistent d -> registryConsistent (addAgent agent d))
  /\ (registryConsistent d -> registryConsistent (removeAgent agentId d)).
Proof.
  assert (Hproto : forall l, initialSessions l !! "__proto__" = None).
  { intros l. unfold initialSessions. apply initialSessions_proto.
    apply lookup_empty. }
  split; [split; [| split; [| split; [| split]]] | split].
  - intros Hno. split; [| reflexivity]. intros id. simpl.
    destruct (decide (id = "__proto__")) as [->|Hid].
    + rewrite Hproto. split; [contradiction | intros [? H]; discriminate H].
    + unfold initialSessions.
      rewrite initialSessions_from by exact Hid. rewrite lookup_empty.
      case_bool_decide as E; split; intros H.
      * eauto.
      * exact E.
      * contradiction.
      * destruct H as [? H]. discriminate H.
  - intros id s. simpl.
    destruct (decide (id = "__proto__")) as [->|Hid].
    + rewrite Hproto. discriminate.
    + unfold initialSessions.
      rewrite initialSessions_from by exact Hid. rewrite lookup_empty.
      case_bool_decide; congruence.
  - intros id Hid Hin. simpl. unfold initialSessions.
    rewrite initialSessions_from by exact Hid.
    now rewrite bool_decide_eq_true_2.
  - simpl. apply Hproto.
  - reflexivity.
  - intros [Hcols Hcfg]. split; simpl.
    + intros id. rewrite elem_of_app, list_elem_of_singleton, Hcols.
      destruct (decide (id = agent_id agent)) as [->|Hne].
      * rewrite lookup_insert_eq. split; eauto.
      * rewrite lookup_insert_ne by congruence. tauto.
    + now rewrite map_app, Hcfg.
  - intros [Hcols Hcfg]. split; simpl.
    + intros id. rewrite filter_ne_elem, Hcols.
      destruct (decide (id = agentId)) as [->|Hne].
      * rewrite lookup_delete_eq. split; [tauto | intros [? ?]; discriminate].
      * rewrite lookup_delete_ne by congruence. tauto.
    + now rewrite filter_map_agent_id, Hcfg.
Qed.

Lemma registry_stays_consistent_witness :
  registryConsistent
    (initialize (mkPartial None None (Some [agentA])) (mkClient false)
       initialDeck)
  /\ registryConsistent (addAgent agentA initialDeck)
  /\ registryConsistent (removeAgent "a" (addAgent agentA initialDeck)).
Proof.
  assert (H0 : registryConsistent initialDeck).
  { split; [| reflexivity]. intros id. simpl. rewrite lookup_empty.
    split; [intros H; now apply elem_of_nil in H | intros [? H]; discriminate H]. }
  split; [| split].
  - apply (proj1 (proj1 (registry_stays_consistent
                           (mkPartial None None (Some [agentA]))
                           (mkClient false) agentA "a" initialDeck))).
    intros H. apply list_elem_of_singleton in H. discriminate H.
  - apply (proj1 (proj2 (registry_stays_consistent (mkPartial None None None)
                           (mkClient false) agentA "a" initialDeck))).
    exact H0.
  - apply (proj2 (proj2 (registry_stays_consistent (mkPartial None None None)
                           (mkClient false) agentA "a"
                           (addAgent agentA initialDeck)))).
    apply (proj1 (proj2 (registry_stays_consistent (mkPartial None None None)
                           (mkClient false) agentA "a" initialDeck))).
    exact H0.
Defined.

(** A configured agent called [__proto__] is a column without a
    session. *)
Example initialize_proto_agent :
  let d := initialize
             (mkPartial None None
                (Some [mkAgent "__proto__" "P" "1" "#22d3ee" "" "kimi" None]))
             (mkClient false) initialDeck in
  columnOrder (store d) = ["__proto__"] /\ sessions (store d) = ∅.
Proof. split; reflexivity. Qed.

(** X14: removing an agent that was just added under an id that was
    neither tracked, nor a column, nor configured gives back the state
    from before the addition; removing an id that is unknown in all
    three places changes nothing. *)
Theorem add_then_remove_restores (agent : AgentConfig) (d : Deck) :
  sessions (store d) !! agent_id agent = None ->
  agent_id agent ∉ columnOrder (store d) ->
  agent_id agent ∉ map agent_id (agents (config d)) ->
  removeAgent (agent_id agent) (addAgent agent d) = d
  /\ removeAgent (agent_id agent) d = d.
Proof.
  intros Hs Hcol Hcfg.
  destruct d as [[url tok ags] [ss gc cols cl] th]. simpl in *.
  unfold removeAgent, addAgent. simpl.
  rewrite !List.filter_app. cbn [List.filter].
  rewrite (bool_decide_eq_true_2 (agent_id agent = agent_id agent) eq_refl).
  cbn [negb]. rewrite !app_nil_r.
  rewrite (filter_absent _ _ Hcol), (filter_agents_absent _ _ Hcfg).
  rewrite delete_insert_eq, (delete_id _ _ Hs). split; reflexivity.
Qed.

Lemma add_then_remove_restores_witness :
  removeAgent "a" (addAgent agentA initialDeck) = initialDeck
  /\ removeAgent "a" initialDeck = initialDeck.
Proof.
  apply (add_then_remove_restores agentA initialDeck).
  - reflexivity.
  - apply not_elem_of_nil.
  - apply not_elem_of_nil.
Defined.

(** X15: [addAgent] has no guard against an id that is already
    tracked: the session of that id is replaced by a fresh one, so its
    messages are gone, and the id is listed a second time among the
    columns; [removeAgent] then removes the session and every
    occurrence of the id. *)
Theorem add_existing_agent_resets_session (agent : AgentConfig) (d : Deck) :
  agent_id agent ∈ columnOrder (store d) ->
  sessions (store (addAgent agent d)) !! agent_id agent
  = Some (createSession (agent_id agent))
  /\ ~ NoDup (columnOrder (store (addAgent agent d)))
  /\ sessions (store (removeAgent (agent_id agent) (addAgent agent d)))
       !! agent_id agent = None
  /\ agent_id agent
     ∉ columnOrder (store (removeAgent (agent_id agent) (addAgent agent d))).
Proof.
  intros Hin. simpl. split; [apply lookup_insert_eq |].
  split; [| split].
  - intros Hnd. apply NoDup_app in Hnd as (_ & Hdisj & _).
    apply (Hdisj _ Hin). apply list_elem_of_singleton. reflexivity.
  - apply lookup_delete_eq.
  - intros H. apply filter_ne_elem in H as [_ H]. congruence.
Qed.

Lemma add_existing_agent_resets_session_witness :
  sessions (store (addAgent agentA
                     (mkDeck DEFAULT_CONFIG (oneSession midStream) "midnight")))
    !! "a" = Some (createSession "a")
  /\ ~ NoDup (columnOrder
                (store (addAgent agentA
                          (mkDeck DEFAULT_CONFIG (oneSession midStream)
                             "midnight"))))
  /\ sessions (store (removeAgent "a"
                        (addAgent agentA
                           (mkDeck DEFAULT_CONFIG (oneSession midStream)
                              "midnight")))) !! "a" = None
  /\ "a" ∉ columnOrder
             (store (removeAgent "a"
                       (addAgent agentA
                          (mkDeck DEFAULT_CONFIG (oneSession midStream)
                             "midnight")))).
Proof.
  apply (add_existing_agent_resets_session agentA
           (mkDeck DEFAULT_CONFIG (oneSession midStream) "midnight")).
  apply list_elem_of_singleton. reflexivity.
Defined.

(** ** Connectivity *)

Lemma with_connected_idem (c : option bool) (s : AgentSession) :
  with_connected c (with_connected c s) = with_connected c s.
Proof. reflexivity. Qed.

(** X16: changes of connectivity never touch a history.
    [onConnection(true)] marks every session connected and keeps every
    other field, and a second call changes nothing more;
    [onConnection(false)] and [disconnect] leave every session as it
    is, its [connected] flag included; after [disconnect] every
    [sendMessage] returns at once with the store unchanged. *)
Theorem connectivity_keeps_histories
    (env : Env) (a t : string) (st : DeckStore) :
  sessions (onConnection true st) !! a
  = with_connected (Some true) <$> sessions st !! a
  /\ onConnection true (onConnection true st) = onConnection true st
  /\ sessions (onConnection false st) = sessions st
  /\ sessions (disconnect st) = sessions st
  /\ sendMessageBegin env a t (disconnect st) = SendReturned (disconnect st).
Proof.
  split; [simpl; apply lookup_fmap |].
  split; [| repeat split].
  unfold onConnection, set_sessions. simpl. f_equal.
  apply map_eq. intros i. rewrite !lookup_fmap.
  now destruct (sessions st !! i).
Qed.

(** ** Default agents *)

Lemma defaultAgent_id_inj (m : string) (i j : nat) :
  agent_id (defaultAgent m i) = agent_id (defaultAgent m j) -> i = j.
Proof.
  unfold defaultAgent. simpl.
  destruct i as [|i], j as [|j]; simpl; try reflexivity.
  - change ("agent-" +:+ ?x) with (String "a" ("gent-" +:+ x)).
    discriminate.
  - change ("agent-" +:+ ?x) with (String "a" ("gent-" +:+ x)).
    discriminate.
  - intros H. apply String.app_inj in H. apply pretty_nat_inj in H. lia.
Qed.

Lemma defaultAgents_ids_NoDup (m : string) (l : list nat) :
  NoDup l -> NoDup (map agent_id (map (defaultAgent m) l)).
Proof.
  induction 1 as [|i l Hi Hnd IH]; simpl; constructor; [| exact IH].
  intros H. apply Hi.
  apply list_elem_of_In, in_map_iff in H as (ag & Heq & Hin).
  apply in_map_iff in Hin as (j & <- & Hj).
  apply defaultAgent_id_inj in Heq. subst j. now apply list_elem_of_In.
Qed.

(** X17: for a count from 0 up to 2^32 - 1, [buildDefaultAgents]
    returns exactly [count] agents whose ids are pairwise distinct,
    the first of them [main], all with the given model and an empty
    context; the accents repeat with period twelve; a negative count
    gives no agent. *)
Theorem default_agents_are_distinct (count : Z) (m : string) :
  0 <= count < 2 ^ 32 ->
  exists l,
    buildDefaultAgents count m = Some l
    /\ Z.of_nat (length l) = count
    /\ NoDup (map agent_id l)
    /\ (0 < count -> agent_id <$> head l = Some "main")
    /\ Forall (fun ag => agent_model ag = m /\ agent_context ag = "") l
    /\ (forall i, agent_accent (defaultAgent m (i + 12))
                  = agent_accent (defaultAgent m i))
    /\ buildDefaultAgents (- count) m = Some (if count =? 0 then l else []).
Proof.
  intros [Hlo Hhi]. unfold buildDefaultAgents.
  rewrite (proj2 (Z.leb_gt _ _) Hhi).
  eexists. split; [reflexivity |].
  split; [rewrite length_map, length_seq; lia |].
  split; [apply defaultAgents_ids_NoDup, NoDup_ListNoDup, seq_NoDup |].
  split; [| split; [| split]].
  - intros Hpos. destruct (Z.to_nat count) as [|n] eqn:E; [lia | reflexivity].
  - apply Forall_forall. intros ag Hin.
    apply list_elem_of_In, in_map_iff in Hin as (i & <- & _). now split.
  - intros i.
    change (nth ((i + 12) mod 12) AGENT_ACCENTS ""
            = nth (i mod 12) AGENT_ACCENTS "").
    f_equal. rewrite <- (Nat.Div0.add_mod_idemp_r i 12 12).
    now rewrite Nat.Div0.mod_same, Nat.add_0_r.
  - assert (Hneg : (2 ^ 32 <=? - count) = false) by (apply Z.leb_gt; lia).
    rewrite Hneg. destruct (Z.eqb_spec count 0) as [->|Hne]; [reflexivity |].
    replace (Z.to_nat (- count)) with 0%nat by lia. reflexivity.
Qed.

Lemma default_agents_are_distinct_witness :
  exists l,
    buildDefaultAgents 3 "kimi" = Some l
    /\ Z.of_nat (length l) = 3
    /\ NoDup (map agent_id l)
    /\ (0 < 3 -> agent_id <$> head l = Some "main")
    /\ Forall (fun ag => agent_model ag = "kimi" /\ agent_context ag = "") l
    /\ (forall i, agent_accent (defaultAgent "kimi" (i + 12))
                  = agent_accent (defaultAgent "kimi" i))
    /\ buildDefaultAgents (- 3) "kimi" = Some (if 3 =? 0 then l else []).
Proof.
  apply (default_agents_are_distinct 3 "kimi"). split; [lia | reflexivity].
Defined.

Example default_agents_three :
  buildDefaultAgents 3 "kimi"
  = Some [mkAgent "main" "Main" "1" "#22d3ee" "" "kimi" None;
          mkAgent "agent-2" "Agent 2" "2" "#a78bfa" "" "kimi" None;
          mkAgent "agent-3" "Agent 3" "3" "#34d399" "" "kimi" None].
Proof. vm_compute. reflexivity. Qed.

Lemma defaultAgents_ids_plain (m : string) (l : list nat) :
  "__proto__" ∉ map agent_id (map (defaultAgent m) l).
Proof.
  intros H. apply list_elem_of_In, in_map_iff in H as (ag & Heq & Hin).
  apply in_map_iff in Hin as (i & <- & _).
  unfold defaultAgent in Heq. simpl in Heq.
  destruct (i =? 0)%nat; [discriminate Heq |].
  change ("agent-" +:+ ?x) with (String "a" ("gent-" +:+ x)) in Heq.
  discriminate Heq.
Qed.

Lemma initialSessions_dom (l : list AgentConfig) :
  "__proto__" ∉ map agent_id l ->
  dom (initialSessions l) = list_to_set (C := gset string) (map agent_id l).
Proof.
  intros Hno. apply set_eq. intros id.
  rewrite elem_of_dom, elem_of_list_to_set. unfold initialSessions.
  destruct (decide (id = "__proto__")) as [->|Hid].
  - rewrite initialSessions_proto by apply lookup_empty.
    split; [intros [? H]; discriminate H | contradiction].
  - rewrite initialSessions_from by exact Hid. rewrite lookup_empty.
    case_bool_decide as E; split; intros H.
    + exact E.
    + eauto.
    + destruct H as [? H]. discriminate H.
    + contradiction.
Qed.

(** X18: [initialize] tracks one session per configured agent when
    the configured ids are pairwise distinct, as those of
    [buildDefaultAgents] are: a deck initialised with the default
    agents for [count] tracks exactly [count] sessions, each a fresh
    one. *)
Theorem initialize_tracks_default_agents
    (count : Z) (m : string) (l : list AgentConfig)
    (gatewayUrl0 : option string) (token0 : option (option string))
    (newClient : GatewayClient) (d : Deck) :
  buildDefaultAgents count m = Some l ->
  size (sessions (store (initialize (mkPartial gatewayUrl0 token0 (Some l))
                           newClient d)))
  = Z.to_nat count
  /\ columnOrder (store (initialize (mkPartial gatewayUrl0 token0 (Some l))
                           newClient d))
     = map agent_id l
  /\ forall ag,
       ag ∈ l ->
       sessions (store (initialize (mkPartial gatewayUrl0 token0 (Some l))
                          newClient d)) !! agent_id ag
       = Some (createSession (agent_id ag)).
Proof.
  unfold buildDefaultAgents. destruct (2 ^ 32 <=? count); [discriminate |].
  intros [= <-]. simpl. split; [| split; [reflexivity |]].
  - rewrite <- size_dom, initialSessions_dom, size_list_to_set.
    + now rewrite !length_map, length_seq.
    + apply defaultAgents_ids_NoDup, NoDup_ListNoDup, seq_NoDup.
    + apply defaultAgents_ids_plain.
  - intros ag Hin. unfold initialSessions.
    assert (Hid : agent_id ag <> "__proto__").
    { intros E. apply (defaultAgents_ids_plain m (seq 0 (Z.to_nat count))).
      rewrite <- E. now apply (list_elem_of_fmap_2 agent_id). }
    rewrite initialSessions_from by exact Hid.
    rewrite bool_decide_eq_true_2; [reflexivity |].
    now apply (list_elem_of_fmap_2 agent_id).
Qed.

Lemma initialize_tracks_default_agents_witness :
  size (sessions (store (initialize
                           (mkPartial None None
                              (Some (map (defaultAgent "kimi") (seq 0 3))))
                           (mkClient false) initialDeck)))
  = 3%nat
  /\ columnOrder (store (initialize
                           (mkPartial None None
                              (Some (map (defaultAgent "kimi") (seq 0 3))))
                           (mkClient false) initialDeck))
     = map agent_id (map (defaultAgent "kimi") (seq 0 3))
  /\ forall ag,
       ag ∈ map (defaultAgent "kimi") (seq 0 3) ->
       sessions (store (initialize
                          (mkPartial None None
                             (Some (map (defaultAgent "kimi") (seq 0 3))))
                          (mkClient false) initialDeck)) !! agent_id ag
       = Some (createSession (agent_id ag)).
Proof.
  apply (initialize_tracks_default_agents 3 "kimi"
           (map (defaultAgent "kimi") (seq 0 3)) None None
           (mkClient false) initialDeck).
  reflexivity.
Defined.

(** ** The model list of the gateway *)

Example normalize_sample :
  normalizeModelMap zTruthy (Some sampleConfig)
  = [mkModel "anthropic/claude-opus-4-6" (Some (JStr "Opus"));
     mkModel "moonshot/kimi-k2.5" (Some (JStr "kimi-k2.5"));
     mkModel "local/" (Some (JStr "local/"))].
Proof. vm_compute. reflexivity. Qed.

Example normalize_not_an_object :
  normalizeModelMap zTruthy
    (Some (JObj [("agents", JObj [("models", JStr "none")]);
                 ("models", JObj [("a/b", JNull)])]))
  = [].
Proof. vm_compute. reflexivity. Qed.

Example fetch_falls_back :
  fetchGatewayConfig zTruthy "m"
    (FetchResponse true (Some "text/html") (Some sampleConfig))
    (FetchResponse false (Some "application/json") (Some sampleConfig))
  = mkGatewayInfo (Some (JStr "m")) FALLBACK_MODELS.
Proof. vm_compute. reflexivity. Qed.

Example fetch_second_path :
  defaultModel
    (fetchGatewayConfig zTruthy "m" FetchRejected
       (FetchResponse true (Some "application/json; charset=utf-8")
          (Some sampleConfig)))
  = Some (JStr "anthropic/claude-opus-4-6").
Proof. vm_compute. reflexivity. Qed.

Lemma split_nonempty (sep : ascii) (s : string) : split sep s <> [].
Proof.
  destruct s as [|c s]; simpl; [discriminate |].
  destruct (Ascii.eqb c sep); [discriminate |].
  destruct (split sep s); discriminate.
Qed.

Lemma split_after_sep (sep : ascii) (p q : string) :
  exists h pre, split sep (p +:+ String sep q) = (h :: pre) ++ split sep q.
Proof.
  induction p as [|x p (h & pre & IH)].
  - exists "", []. change ("" +:+ String sep q) with (String sep q). simpl.
    now rewrite Ascii.eqb_refl.
  - change (String x p +:+ String sep q) with (String x (p +:+ String sep q)).
    simpl. rewrite IH. destruct (Ascii.eqb x sep).
    + now exists "", (h :: pre).
    + now exists (String x h), pre.
Qed.

Lemma last_segment (sep : ascii) (p q : string) :
  hasChar sep q = false ->
  last (split sep (p +:+ String sep q)) = Some q.
Proof.
  intros H. destruct (split_after_sep sep p q) as (h & pre & ->).
  rewrite (split_no_sep _ _ H). apply (last_snoc q (h :: pre)).
Qed.

Lemma orElse_truthy {num} (numTruthy : num -> bool) (a b : option (Json num)) :
  jsTruthy numTruthy b = true -> jsTruthy numTruthy (orElse numTruthy a b) = true.
Proof. intros H. unfold orElse. now destruct (jsTruthy numTruthy a) eqn:E. Qed.

Lemma modelName_truthy {num} (numTruthy : num -> bool) (id : string)
    (info : Json num) :
  id <> "" -> jsTruthy numTruthy (modelName numTruthy id info) = true.
Proof.
  intros H. unfold modelName. do 3 apply orElse_truthy.
  destruct id; [congruence | reflexivity].
Qed.

Lemma modelName_plain {num} (numTruthy : num -> bool) (id : string)
    (info : Json num) :
  jsTruthy numTruthy (getProp (Some info) "alias") = false ->
  jsTruthy numTruthy (getProp (Some info) "name") = false ->
  modelName numTruthy id info
  = orElse numTruthy (JStr <$> last (split "/" id)) (Some (JStr id)).
Proof. intros Ha Hn. unfold modelName, orElse at 1 2. now rewrite Ha, Hn. Qed.

(** X19: whatever the configuration, every entry of the model list
    has a truthy display name unless its key is the empty string.
    When the models are the object at [agents.defaults.models], the
    list has one entry per key, in the order of the keys.  An entry
    without a truthy [alias] or [name] is named by what follows the
    last slash of its key ([provider/model] gives [model]), and by the
    whole key when there is no slash. *)
Theorem model_list_names {num} (numTruthy : num -> bool)
    (config0 : option (Json num)) :
  Forall (fun m => model_id m <> "" ->
                   jsTruthy numTruthy (model_name m) = true)
    (normalizeModelMap numTruthy config0)
  /\ (forall fields,
        getProp (getProp (getProp config0 "agents") "defaults") "models"
        = Some (JObj fields) ->
        normalizeModelMap numTruthy config0
        = map (fun '(id, info) => mkModel id (modelName numTruthy id info))
              fields
        /\ map model_id (normalizeModelMap numTruthy config0) = fields.*1)
  /\ (forall id info p q,
        jsTruthy numTruthy (getProp (Some info) "alias") = false ->
        jsTruthy numTruthy (getProp (Some info) "name") = false ->
        (id = p +:+ String "/" q -> hasChar "/" q = false -> q <> "" ->
         modelName numTruthy id info = Some (JStr q))
        /\ (hasChar "/" id = false ->
            modelName numTruthy id info = Some (JStr id))).
Proof.
  split; [| split].
  - unfold normalizeModelMap. destruct (negb _); [constructor |].
    destruct (_ ≫= objectEntries) as [entries|]; [| constructor].
    apply Forall_forall. intros m Hin.
    apply list_elem_of_In, in_map_iff in Hin as ([id info] & <- & _).
    simpl. apply modelName_truthy.
  - intros fields Hf. unfold normalizeModelMap. rewrite Hf.
    unfold orElse at 1. simpl. split; [reflexivity |].
    rewrite map_map. apply map_ext. now intros [id info].
  - intros id info p q Ha Hn.
    rewrite (modelName_plain numTruthy id info Ha Hn). split.
    + intros -> Hq Hne. rewrite (last_segment _ _ _ Hq).
      unfold orElse. simpl. destruct q; [congruence | reflexivity].
    + intros Hid. rewrite (split_no_sep _ _ Hid). simpl.
      unfold orElse. simpl. now destruct id.
Qed.

Lemma model_list_names_witness :
  normalizeModelMap zTruthy (Some sampleConfig)
  = map (fun '(id, info) => mkModel id (modelName zTruthy id info))
        [("anthropic/claude-opus-4-6", JObj [("alias", JStr "Opus")]);
         ("moonshot/kimi-k2.5", JObj []);
         ("local/", JNull)]
  /\ map model_id (normalizeModelMap zTruthy (Some sampleConfig))
     = ["anthropic/claude-opus-4-6"; "moonshot/kimi-k2.5"; "local/"].
Proof.
  apply (proj1 (proj2 (model_list_names zTruthy (Some sampleConfig)))).
  reflexivity.
Defined.

Lemma FALLBACK_MODEL_nonempty (v : option string) : FALLBACK_MODEL v <> "".
Proof.
  unfold FALLBACK_MODEL. destruct v as [s|]; simpl; [| discriminate].
  destruct (trim s); simpl; discriminate.
Qed.

(** X20: [fetchGatewayConfig] always answers with a truthy default
    model and a non-empty list of models, whatever the two fetches
    give; when both fail it answers with the fallback model and the
    fallback list; when [/config] yields JSON, what [/api/config]
    would give plays no part. *)
Theorem gateway_config_always_usable {num} (numTruthy : num -> bool)
    (viteDefaultModel : option string) (atConfig atApiConfig : FetchResult num) :
  jsTruthy numTruthy
    (defaultModel (fetchGatewayConfig numTruthy (FALLBACK_MODEL viteDefaultModel)
                     atConfig atApiConfig)) = true
  /\ availableModels (fetchGatewayConfig numTruthy
                        (FALLBACK_MODEL viteDefaultModel) atConfig atApiConfig)
     <> []
  /\ (fetchConfigJson atConfig = None -> fetchConfigJson atApiConfig = None ->
      fetchGatewayConfig numTruthy (FALLBACK_MODEL viteDefaultModel)
        atConfig atApiConfig
      = mkGatewayInfo (Some (JStr (FALLBACK_MODEL viteDefaultModel)))
          FALLBACK_MODELS)
  /\ (forall other,
        fetchConfigJson atConfig <> None ->
        fetchGatewayConfig numTruthy (FALLBACK_MODEL viteDefaultModel)
          atConfig other
        = fetchGatewayConfig numTruthy (FALLBACK_MODEL viteDefaultModel)
            atConfig atApiConfig).
Proof.
  assert (Hfb : jsTruthy numTruthy
                  (Some (JStr (FALLBACK_MODEL viteDefaultModel))) = true).
  { simpl. pose proof (FALLBACK_MODEL_nonempty viteDefaultModel) as H.
    now destruct (FALLBACK_MODEL viteDefaultModel). }
  unfold fetchGatewayConfig.
  split; [| split; [| split]].
  - destruct (fetchConfigJson atConfig) as [c|];
      [| destruct (fetchConfigJson atApiConfig) as [c|]];
      cbn [defaultModel]; try exact Hfb; now do 3 apply orElse_truthy.
  - destruct (fetchConfigJson atConfig) as [c|];
      [| destruct (fetchConfigJson atApiConfig) as [c|]];
      cbn [availableModels]; try discriminate;
      (destruct (normalizeModelMap numTruthy (Some c)); simpl; discriminate).
  - now intros -> ->.
  - intros other H. now destruct (fetchConfigJson atConfig).
Qed.

Lemma gateway_config_always_usable_witness :
  fetchGatewayConfig zTruthy (FALLBACK_MODEL (Some "  "))
    (FetchResponse true (Some "text/html") (Some sampleConfig)) FetchRejected
  = mkGatewayInfo (Some (JStr (FALLBACK_MODEL (Some "  ")))) FALLBACK_MODELS.
Proof.
  apply (proj1 (proj2 (proj2
           (gateway_config_always_usable zTruthy (Some "  ")
              (FetchResponse true (Some "text/html") (Some sampleConfig))
              FetchRejected)))).
  - reflexivity.
  - reflexivity.
Defined.

(** ** The handoff summary *)

Lemma find_app_none {A} (f : A -> bool) (l1 l2 : list A) :
  List.find f l1 = None -> List.find f (l1 ++ l2) = List.find f l2.
Proof.
  induction l1 as [|x l1 IH]; simpl; [reflexivity |].
  destruct (f x); [discriminate | exact IH].
Qed.

Lemma find_none_iff {A} (f : A -> bool) (l : list A) :
  List.find f l = None <-> Forall (fun x => f x = false) l.
Proof.
  induction l as [|x l IH]; simpl.
  - split; [constructor | reflexivity].
  - destruct (f x) eqn:E.
    + split; [discriminate |]. intros H. inversion H; congruence.
    + rewrite IH. split; [now constructor | intros H; now inversion H].
Qed.

Lemma Forall_rev_both {A} (P : A -> Prop) (l : list A) :
  Forall P (rev l) <-> Forall P l.
Proof.
  split; intros H.
  - rewrite <- (rev_involutive l). now apply Forall_rev.
  - now apply Forall_rev.
Qed.

Lemma lastAssistant_none (msgs : list ChatMessage) :
  lastAssistant msgs = None <-> Forall (fun m => assistantOutput m = false) msgs.
Proof.
  unfold lastAssistant. rewrite find_none_iff. apply Forall_rev_both.
Qed.

Lemma sliceTo_prefix (n : nat) (s : string) :
  (String.length (sliceTo n s) <= n)%nat
  /\ exists rest, s = sliceTo n s +:+ rest.
Proof.
  revert s. induction n as [|n IH]; intros s.
  - split; [simpl; lia | now exists s].
  - destruct s as [|c s]; simpl.
    + split; [lia | now exists ""].
    + destruct (IH s) as [Hlen [rest Hrest]]. split; [lia |].
      exists rest.
      change (String c (sliceTo n s) +:+ rest)
        with (String c (sliceTo n s +:+ rest)).
      now rewrite <- Hrest.
Qed.

(** X21: the handoff quotes, for a column, the last message with role
    assistant and a non-blank text, cut to its first 500 characters,
    and nothing when there is none: user messages, announcements,
    compaction markers and blank placeholders are never quoted, and
    appending one of them to the history leaves the quoted line as it
    is. *)
Theorem handoff_quotes_last_assistant
    (pre post : list ChatMessage) (m x : ChatMessage) (msgs : list ChatMessage) :
  (assistantOutput m = true ->
   Forall (fun y => assistantOutput y = false) post ->
   lastAssistant (pre ++ m :: post) = Some m
   /\ outputLine (pre ++ m :: post)
      = "  " +:+ indentLines (sliceTo 500 (text m)))
  /\ (Forall (fun y => assistantOutput y = false) msgs ->
      outputLine msgs = "  (none yet)")
  /\ (role x <> Assistant \/ blank (text x) = true ->
      outputLine (msgs ++ [x]) = outputLine msgs)
  /\ (String.length (sliceTo 500 (text m)) <= 500)%nat.
Proof.
  split; [| split; [| split]].
  - intros Hm Hpost.
    assert (E : lastAssistant (pre ++ m :: post) = Some m).
    { unfold lastAssistant. rewrite rev_app_distr. simpl.
      rewrite <- app_assoc. rewrite find_app_none.
      - simpl. now rewrite Hm.
      - apply find_none_iff. now apply Forall_rev_both. }
    split; [exact E |]. unfold outputLine. now rewrite E.
  - intros H. unfold outputLine.
    now rewrite (proj2 (lastAssistant_none msgs) H).
  - intros Hx. unfold outputLine, lastAssistant.
    rewrite rev_app_distr. simpl.
    assert (E : assistantOutput x = false).
    { unfold assistantOutput. destruct Hx as [Hr | Hb].
      - now rewrite (bool_decide_eq_false_2 _ Hr).
      - rewrite Hb. apply andb_false_r. }
    now rewrite E.
  - apply sliceTo_prefix.
Qed.

Lemma handoff_quotes_last_assistant_witness :
  (lastAssistant ([userMsgOf env0 "hello"]
                  ++ mkMsg "1000-k3x9ab" Assistant "Hello" 1000 (Some false)
                           (Some "r1") None None
                  :: [announcementMsg envLate "done" None])
   = Some (mkMsg "1000-k3x9ab" Assistant "Hello" 1000 (Some false)
                 (Some "r1") None None)
   /\ outputLine ([userMsgOf env0 "hello"]
                  ++ mkMsg "1000-k3x9ab" Assistant "Hello" 1000 (Some false)
                           (Some "r1") None None
                  :: [announcementMsg envLate "done" None])
      = "  " +:+ indentLines (sliceTo 500 "Hello"))
  /\ outputLine ([userMsgOf env0 "hello"] ++ [streamingPlaceholder "r1" ""])
     = outputLine [userMsgOf env0 "hello"].
Proof.
  split.
  - apply (proj1 (handoff_quotes_last_assistant [userMsgOf env0 "hello"]
                    [announcementMsg envLate "done" None]
                    (mkMsg "1000-k3x9ab" Assistant "Hello" 1000 (Some false)
                           (Some "r1") None None)
                    (streamingPlaceholder "r1" "") [])).
    + reflexivity.
    + constructor; [reflexivity | constructor].
  - apply (proj1 (proj2 (proj2
             (handoff_quotes_last_assistant [] []
                (streamingPlaceholder "r1" "") (streamingPlaceholder "r1" "")
                [userMsgOf env0 "hello"])))).
    right. reflexivity.
Defined.

Example handoff_of_one_column :
  buildHandoffSummary "2026-01-01T00:00:00.000Z"
    (mkDeck (mkConfig "ws://127.0.0.1:18789" None [agentA])
            (oneSession sealedSession) "midnight")
  = String.concat (String LF "")
      ["# OpenClaw Deck Handoff";
       "Generated: 2026-01-01T00:00:00.000Z";
       "";
       "## Agent A (a)";
       "- Status: idle";
       "- Session Key: agent:main:a";
       "- Last Assistant Output:";
       "  Hello";
       ""].
Proof. vm_compute. reflexivity. Qed.

(** ** The noise patterns *)

Lemma testLiteral_here (pat s : string) :
  matchesAt pat s = true -> testLiteral pat s = true.
Proof. intros H. destruct s; simpl in *; now rewrite H. Qed.

Lemma testLiteral_skip (pat pre s : string) :
  testLiteral pat s = true -> testLiteral pat (pre +:+ s) = true.
Proof.
  intros H. induction pre as [|c pre IH]; [exact H |].
  change (String c pre +:+ s) with (String c (pre +:+ s)).
  simpl. rewrite IH. apply orb_true_r.
Qed.

Lemma matchesAt_sameLetters (pat w post : string) :
  sameLetters pat w = true -> matchesAt pat (w +:+ post) = true.
Proof.
  revert w. induction pat as [|p pat IH]; intros [|c w] H; simpl in *;
    try discriminate.
  - now destruct post.
  - apply andb_true_iff in H as [Hc Hw].
    change (String c w +:+ post) with (String c (w +:+ post)).
    simpl. rewrite Hc. now apply IH.
Qed.

Lemma matchesAt_longer (pat more s : string) :
  matchesAt (pat +:+ more) s = true -> matchesAt pat s = true.
Proof.
  revert s. induction pat as [|p pat IH]; intros s H; [now destruct s |].
  change (String p pat +:+ more) with (String p (pat +:+ more)) in H.
  destruct s as [|c s]; simpl in *; [discriminate |].
  apply andb_true_iff in H as [Hc Hs]. rewrite Hc. now apply IH.
Qed.

Lemma matchesAt_recased (pat pat' s : string) :
  sameLetters pat pat' = true -> matchesAt pat s = true ->
  matchesAt pat' s = true.
Proof.
  revert pat' s. induction pat as [|p pat IH]; intros [|q pat'] s H Hm;
    simpl in *; try discriminate.
  - now destruct s.
  - destruct s as [|c s]; [discriminate |].
    apply andb_true_iff in H as [Hq Hrest].
    apply andb_true_iff in Hm as [Hc Hs].
    apply Ascii.eqb_eq in Hq. apply Ascii.eqb_eq in Hc.
    rewrite <- Hq, Hc, Ascii.eqb_refl. simpl. exact (IH _ _ Hrest Hs).
Qed.

Lemma testLiteral_weaker (pat pat' s : string) :
  (forall t, matchesAt pat t = true -> matchesAt pat' t = true) ->
  testLiteral pat s = true -> testLiteral pat' s = true.
Proof.
  intros Himp. induction s as [|c s IH]; simpl; intros H.
  - apply orb_true_iff in H as [H | H]; [| discriminate].
    now rewrite (Himp _ H).
  - apply orb_true_iff in H as [H | H].
    + now rewrite (Himp _ H).
    + rewrite (IH H). apply orb_true_r.
Qed.

(** X22: the two noise filters.  A text that contains the word
    heartbeat in any mix of letter cases, anywhere, is noise for the
    chat case and for the history parser; the [HEARTBEAT_OK]
    alternative of the patterns adds nothing to the [heartbeat] one;
    and whatever the chat case drops as noise, the history parser
    drops as well. *)
Theorem noise_filters (pre w post text0 : string) :
  (sameLetters "heartbeat" w = true ->
   chatNoise (pre +:+ w +:+ post) = true
   /\ historyNoise (pre +:+ w +:+ post) = true)
  /\ chatNoise text0 = testLiteral "heartbeat" text0
  /\ (chatNoise text0 = true -> historyNoise text0 = true).
Proof.
  assert (Hok : testLiteral "HEARTBEAT_OK" text0 = true ->
                testLiteral "heartbeat" text0 = true).
  { apply testLiteral_weaker. intros t Ht.
    apply (matchesAt_recased "HEARTBEAT" "heartbeat"); [reflexivity |].
    exact (matchesAt_longer "HEARTBEAT" "_OK" t Ht). }
  split; [| split].
  - intros Hw.
    assert (E : testLiteral "heartbeat" (pre +:+ w +:+ post) = true).
    { apply testLiteral_skip, testLiteral_here.
      now apply matchesAt_sameLetters. }
    unfold historyNoise, chatNoise. rewrite E.
    rewrite !orb_true_r. now split.
  - unfold chatNoise.
    destruct (testLiteral "HEARTBEAT_OK" text0) eqn:E; [| reflexivity].
    now rewrite (Hok eq_refl).
  - unfold historyNoise, chatNoise. intros ->. reflexivity.
Qed.

Lemma noise_filters_witness :
  chatNoise ("status: " +:+ "HeartBeat" +:+ " ok") = true
  /\ historyNoise ("status: " +:+ "HeartBeat" +:+ " ok") = true.
Proof.
  apply (proj1 (noise_filters "status: " "HeartBeat" " ok" "")).
  reflexivity.
Defined.

(** ** The tested halves of the router *)

(** X23: a usage report replaces the token count by the reported
    total, whatever the count was (a [NaN] included), keeps messages,
    status and active run, and later deltas add to the reported total
    as long as the sum stays within [2 ^ 53], where the addition of
    doubles is exact. *)
Theorem usage_supersedes_count
    (env : Env) (key : option string) (u : SessionUsage) (r : string)
    (ecs : list (Env * string)) (st : DeckStore) (s : AgentSession)
    (msgs : list ChatMessage) :
  sessions st !! extractAgentId key = Some s ->
  messages s = Some msgs ->
  sessions (storeOf (handleGatewayEvent env
                       (EvUsage (mkUsagePayload key (Some u))) st))
    !! extractAgentId key
  = Some (mkSession (agentId s) (status s) (messages s) (activeRunId s)
            (Some (Num (totalTokens u))) (connected s) (Some u))
  /\ (- 2 ^ 53 <= totalTokens u ->
      totalTokens u + Z.of_nat (String.length (String.concat "" ecs.*2))
      <= 2 ^ 53 ->
      exists s',
        sessions (handleAll ((env, EvUsage (mkUsagePayload key (Some u)))
                               :: deltaTrace key r ecs) st)
          !! extractAgentId key = Some s'
        /\ tokenCount s'
           = Some (Num (totalTokens u
                        + Z.of_nat (String.length (String.concat "" ecs.*2))))).
Proof.
  intros Hs Hm.
  assert (E : sessions (storeOf (handleGatewayEvent env
                                   (EvUsage (mkUsagePayload key (Some u))) st))
                !! extractAgentId key
              = Some (mkSession (agentId s) (status s) (messages s)
                        (activeRunId s) (Some (Num (totalTokens u)))
                        (connected s) (Some u))).
  { simpl. unfold handleUsage. simpl. rewrite (readSession_own _ _ _ Hs).
    simpl. apply lookup_insert_eq. }
  split; [exact E |]. intros Hlo Hhi.
  cbn [handleAll]. eexists. split.
  - exact (deltas_session key r ecs _ _ msgs (totalTokens u) E Hm eq_refl
             Hlo Hhi).
  - reflexivity.
Qed.

Lemma usage_supersedes_count_witness :
  sessions (storeOf (handleGatewayEvent env0
                       (EvUsage (mkUsagePayload (Some "agent:main:a")
                                   (Some (mkUsage 4200))))
                       (oneSession midStream))) !! "a"
  = Some (mkSession (Some "a") (Some Streaming)
            (Some [streamingPlaceholder "r1" "He"]) (Some (Some "r1"))
            (Some (Num 4200)) (Some true) (Some (mkUsage 4200)))
  /\ exists s',
       sessions (handleAll ((env0, EvUsage (mkUsagePayload (Some "agent:main:a")
                                              (Some (mkUsage 4200))))
                              :: deltaTrace (Some "agent:main:a") "r1"
                                   [(env0, "llo")])
                   (oneSession midStream)) !! "a" = Some s'
       /\ tokenCount s' = Some (Num (4200 + 3)).
Proof.
  destruct (usage_supersedes_count env0 (Some "agent:main:a") (mkUsage 4200)
              "r1" [(env0, "llo")] (oneSession midStream) midStream
              [streamingPlaceholder "r1" "He"] eq_refl eq_refl) as [H1 H2].
  split; [exact H1 |]. apply H2.
  - vm_compute. discriminate.
  - vm_compute. discriminate.
Defined.

(** X24: a server-pushed chat turn that does not leave the store as it
    is either dies on a session without [messages], or has passed
    every test of the chat case (state [final], a role that is neither
    [tool] nor [function], a text that is not blank and does not match
    the chat pattern, a runId no message carries, a role [assistant]
    or [system]) and has appended exactly one message, of role
    [announcement], to the session it is routed to. *)
Theorem chat_turn_changes_only_through_the_gate
    (env : Env) (p : ChatPayload) (st : DeckStore) :
  handleGatewayEvent env (EvChat p) st <> Normal st ->
  (exists s, handleGatewayEvent env (EvChat p) st = Throws st
             /\ readSession (sessions st) (chatAgentId p) = Some s
             /\ messages s = None)
  \/ exists s msgs message,
       sessions st !! chatAgentId p = Some s
       /\ messages s = Some msgs
       /\ chat_state p = Some "final"
       /\ chatMessageOf p = Some message
       /\ toolRole (body_role message) = false
       /\ blank (extractText message) = false
       /\ chatNoise (extractText message) = false
       /\ runTracked (chat_runId p) msgs = false
       /\ renderable (body_role message) = true
       /\ role (announcementMsg env (extractText message) (chat_runId p))
          = Announcement
       /\ sessions (storeOf (handleGatewayEvent env (EvChat p) st))
            !! chatAgentId p ≫= messages
          = Some (msgs ++ [announcementMsg env (extractText message)
                             (chat_runId p)]).
Proof. exact (chat_turn_gate env p st). Qed.

Lemma chat_turn_changes_only_through_the_gate_witness :
  (exists s, handleGatewayEvent env0 (EvChat doneTurn)
               (oneSession (createSession "a"))
             = Throws (oneSession (createSession "a"))
             /\ readSession (sessions (oneSession (createSession "a")))
                  (chatAgentId doneTurn) = Some s
             /\ messages s = None)
  \/ exists s msgs message,
       sessions (oneSession (createSession "a")) !! chatAgentId doneTurn = Some s
       /\ messages s = Some msgs
       /\ chat_state doneTurn = Some "final"
       /\ chatMessageOf doneTurn = Some message
       /\ toolRole (body_role message) = false
       /\ blank (extractText message) = false
       /\ chatNoise (extractText message) = false
       /\ runTracked (chat_runId doneTurn) msgs = false
       /\ renderable (body_role message) = true
       /\ role (announcementMsg env0 (extractText message) (chat_runId doneTurn))
          = Announcement
       /\ sessions (storeOf (handleGatewayEvent env0 (EvChat doneTurn)
                               (oneSession (createSession "a"))))
            !! chatAgentId doneTurn ≫= messages
          = Some (msgs ++ [announcementMsg env0 (extractText message)
                             (chat_runId doneTurn)]).
Proof.
  apply (chat_turn_changes_only_through_the_gate env0 doneTurn
           (oneSession (createSession "a"))).
  intros H.
  apply (f_equal (fun c => sessions (storeOf c) !! "a" ≫= messages)) in H.
  vm_compute in H. discriminate H.
Defined.



(** The guards test the value read, so an untracked id that names an
    inherited property passes them: a compaction and a final chat turn
    for [constructor] die on the missing [messages], and a usage report
    stores an entry for it. *)
Example inherited_name_passes_the_guards :
  handleGatewayEvent env0
    (EvCompaction (mkCompactionPayload (Some "agent:main:constructor")
                     (Some 12000) (Some 4000) (Some 30)))
    noSessions
  = Throws noSessions
  /\ handleGatewayEvent env0
       (EvChat (mkChatPayload (Some "final") (Some "r1")
                  (Some "agent:main:constructor") None
                  (chat_message doneTurn) None None))
       noSessions
     = Throws noSessions
  /\ sessions (storeOf (handleGatewayEvent env0
                          (EvUsage (mkUsagePayload
                                      (Some "agent:main:constructor")
                                      (Some (mkUsage 4200))))
                          noSessions)) !! "constructor"
     = Some (mkSession None None None None (Some (Num 4200)) None
               (Some (mkUsage 4200))).
Proof. repeat split. Qed.
